(** * iPhone document scanner: capture, save and convert, verified

    A shallow embedding of [iphone_document_scanner.py].  The view
    controller's methods [readSelectionFromPasteboard_],
    [saveAllDocuments_], [convertPdfToPng_], [_getBestImageRep],
    [_saveImageRep], [_saveRawPDF], [_updatePreview] and [_openInPreview]
    are written in a small state-and-exception monad over a [World] that
    holds the controller's instance variables together with everything the
    methods can affect: the files written, the log, the standard output,
    the pasteboard fetches and the Preview launches.

    AppKit, Quartz, pathlib and the wall clock are not part of the
    repository; they are collected in the class [Cocoa] and every result
    below holds for all of its instances. *)

From Stdlib Require Import ZArith List String Ascii Bool Lia PeanoNat.
From Stdlib Require Import Decimal DecimalNat DecimalString.
From Stdlib Require Import Floats Uint63.
Import ListNotations.

Local Open Scope list_scope.
Local Open Scope string_scope.

(** ** Text formatting (Python f-strings, [str.upper], [strftime]) *)

Definition nl : string := String (ascii_of_nat 10) EmptyString.

(** [str(n)] for a non-negative [int]. *)
Definition str_nat (n : nat) : string :=
  NilZero.string_of_uint (Nat.to_uint n).

(** [str(z)] for an [int]. *)
Definition str_int (z : Z) : string :=
  NilZero.string_of_int (Z.to_int z).

(** [s.zfill(width)] on a string of digits: zeros are added on the left
    until the string is [width] characters long. *)
Fixpoint zeros (k : nat) : string :=
  match k with
  | O => EmptyString
  | S k' => String "0"%char (zeros k')
  end.

Definition zfill (width : nat) (s : string) : string :=
  zeros (width - String.length s) ++ s.

(** The format specification [{n:0Wd}] for a non-negative [n]. *)
Definition format_0d (width n : nat) : string := zfill width (str_nat n).

(** [{page_num:02d}] *)
Definition format_02d (n : nat) : string := format_0d 2 n.

Definition upper_char (c : ascii) : ascii :=
  let n := nat_of_ascii c in
  if ((97 <=? n) && (n <=? 122))%nat then ascii_of_nat (n - 32) else c.

(** [s.upper()] on ASCII text. *)
Fixpoint upper (s : string) : string :=
  match s with
  | EmptyString => EmptyString
  | String c r => String (upper_char c) (upper r)
  end.

(** [x in xs] for a list of strings. *)
Definition contains (xs : list string) (x : string) : bool :=
  existsb (String.eqb x) xs.

(** [enumerate(xs)] *)
Definition enumerate {A : Type} (xs : list A) : list (nat * A) :=
  combine (seq 0 (List.length xs)) xs.

(** [datetime]: the fields [strftime] reads, and the microseconds it drops. *)
Record datetime : Type := mk_datetime {
  year : nat;
  month : nat;
  day : nat;
  hour : nat;
  minute : nat;
  second : nat;
  microsecond : nat
}.

(** [dt.strftime("%Y%m%d_%H%M%S")] *)
Definition strftime_Ymd_HMS (dt : datetime) : string :=
  format_0d 4 (year dt) ++ format_0d 2 (month dt) ++ format_0d 2 (day dt)
  ++ "_" ++ format_0d 2 (hour dt) ++ format_0d 2 (minute dt)
  ++ format_0d 2 (second dt).

(** ** Configuration and constants *)

Inductive OutputFormat : Type := PDF | PNG | JPEG | TIFF.

(** [fmt.value] *)
Definition value (fmt : OutputFormat) : string :=
  match fmt with
  | PDF => "pdf"
  | PNG => "png"
  | JPEG => "jpeg"
  | TIFF => "tiff"
  end.

Definition OutputFormat_eqb (a b : OutputFormat) : bool :=
  match a, b with
  | PDF, PDF | PNG, PNG | JPEG, JPEG | TIFF, TIFF => true
  | _, _ => false
  end.

Record Config : Type := mk_Config {
  output_dir : string;
  filename_prefix : string;
  output_formats : list OutputFormat;
  verbose : bool;
  quiet : bool;
  resolution_scale : float;
  jpeg_quality : float;
  debug_mode : bool;
  open_in_preview : bool
}.

Definition with_output_formats (fs : list OutputFormat) (c : Config) : Config :=
  mk_Config (output_dir c) (filename_prefix c) fs (verbose c) (quiet c)
    (resolution_scale c) (jpeg_quality c) (debug_mode c) (open_in_preview c).

Definition with_jpeg_quality (q : float) (c : Config) : Config :=
  mk_Config (output_dir c) (filename_prefix c) (output_formats c) (verbose c)
    (quiet c) (resolution_scale c) q (debug_mode c) (open_in_preview c).

(** [Config.__init__] *)
Definition Config_init (cwd : string) : Config :=
  mk_Config cwd "scanned_document" [PDF; PNG] false false 4%float
    0x1.e666666666666p-1%float (* the binary64 value of 0.95 *)
    false false.

(** ** Platform data: bytes, geometry, images, documents *)

Definition NSData : Type := list Byte.byte.

(** Python truth value of an [NSData] reference: [None] and the empty
    buffer are false. *)
Definition truthy (d : option NSData) : bool :=
  match d with
  | Some (_ :: _) => true
  | _ => false
  end.

Record NSSize : Type := NSMakeSize { width : float; height : float }.

Record NSRect : Type := NSMakeRect {
  origin_x : float;
  origin_y : float;
  size : NSSize
}.

(** An image representation: whether it is an [NSBitmapImageRep], its
    pixel counts and its pixel content. *)
Record NSImageRep : Type := mk_NSImageRep {
  isBitmapImageRep : bool;
  pixelsWide : Z;
  pixelsHigh : Z;
  pixel_data : NSData
}.

Record NSImage : Type := mk_NSImage {
  image_size : NSSize;
  representations : list NSImageRep;
  cacheMode : Z;
  scalesWhenResized : bool
}.

Record PDFPage : Type := mk_PDFPage {
  boundsForBox_ : Z -> NSRect;
  page_content : NSData
}.

Record PDFDocument : Type := mk_PDFDocument {
  pageCount : nat;
  pageAtIndex_ : nat -> option PDFPage
}.

Record NSPasteboard : Type := mk_NSPasteboard {
  types : list string;
  bytesForType : string -> option NSData
}.

Inductive NSBitmapImageFileType : Type :=
| NSBitmapImageFileTypeTIFF
| NSBitmapImageFileTypeBMP
| NSBitmapImageFileTypeGIF
| NSBitmapImageFileTypeJPEG
| NSBitmapImageFileTypePNG
| NSBitmapImageFileTypeJPEG2000.

(** A Python [dict] of encoder properties, in insertion order. *)
Definition Properties : Type := list (string * float).

(** ** The frameworks the program calls

    Everything here is code of AppKit, Quartz, Foundation, [pathlib],
    [datetime] or the interpreter, taken as a parameter. *)

Class Cocoa : Type := {
  (** pasteboard type constants imported from AppKit *)
  NSPasteboardTypePDF : string;
  NSPasteboardTypeTIFF : string;
  NSPasteboardTypePNG : string;
  (** [PDFDocument.alloc().initWithData_(data)]; [None] when the bytes do
      not parse *)
  PDFDocument_initWithData_ : NSData -> option PDFDocument;
  (** the representations an image of the given size holds after
      [lockFocus], a scale transform, [page.drawWithBox_(0)] and
      [unlockFocus] *)
  drawn_representations : NSSize -> float -> PDFPage -> list NSImageRep;
  (** [NSImage.alloc().initWithData_(data)] *)
  NSImage_initWithData_ : NSData -> option NSImage;
  (** the representations of the 660 x 850 preview drawn from an image *)
  preview_representations : NSImage -> list NSImageRep;
  (** [image.TIFFRepresentation()] *)
  TIFFRepresentation : NSImage -> option NSData;
  (** [NSBitmapImageRep.imageRepWithData_(data)] *)
  imageRepWithData_ : NSData -> option NSImageRep;
  (** [rep.representationUsingType_properties_(type, properties)] *)
  representationUsingType_properties_ :
    NSImageRep -> NSBitmapImageFileType -> Properties -> option NSData;
  (** whether [data.writeToFile_atomically_(path, True)] succeeds *)
  write_succeeds : NSData -> string -> bool;
  (** whether the workspace opens the given files in the named application *)
  openURLs_succeeds : list string -> string -> bool;
  (** [str(directory / filename)] *)
  joinpath : string -> string -> string;
  (** [str(x)] for a [float] *)
  str_float : float -> string;
  (** [str(types)] for the pasteboard's array of types *)
  str_types : list string -> string;
  (** successive readings of [datetime.now()] *)
  clock : nat -> datetime
}.

(** ** The world the controller acts on *)

Inductive Level : Type := DEBUG | INFO | WARNING | ERROR.

Record World : Type := mk_World {
  (** instance variables of the view controller *)
  captured_data : option NSData;
  captured_images : list NSImage;
  (** the controls it drives *)
  statusLabel : string;
  saveButton_enabled : bool;
  convertToPngButton_enabled : bool;
  imageView : option NSImage;
  textView : string;
  (** the outside: files written (oldest first), log records, printed
      lines, pasteboard fetches, Preview launches, clock readings taken *)
  disk : list (string * NSData);
  log : list (Level * string);
  stdout : list string;
  fetched : list string;
  opened : list (list string);
  ticks : nat
}.

(** The controller after [init]: nothing captured, nothing done. *)
Definition init_World : World :=
  mk_World None [] "" false false None "" [] [] [] [] [] 0.

Inductive Exception : Type := KeyError (key : OutputFormat).

Inductive Outcome (A : Type) : Type :=
| Returns (a : A) (w : World)
| Raises (e : Exception) (w : World).

Arguments Returns {A} a w.
Arguments Raises {A} e w.

Definition M (A : Type) : Type := World -> Outcome A.

Definition ret {A : Type} (a : A) : M A := fun w => Returns a w.

Definition bind {A B : Type} (m : M A) (k : A -> M B) : M B :=
  fun w =>
    match m w with
    | Returns a w' => k a w'
    | Raises e w' => Raises e w'
    end.

Definition raise {A : Type} (e : Exception) : M A := fun w => Raises e w.

Declare Scope scanner_scope.
Delimit Scope scanner_scope with scanner.

Notation "x <- c ;; k" := (bind c (fun x => k))
  (at level 100, c at next level, right associativity) : scanner_scope.
Notation "c ;; k" := (bind c (fun _ => k))
  (at level 100, right associativity) : scanner_scope.

Local Open Scope scanner_scope.

(** A [for] loop over a list whose body updates the loop's local
    variables [s]. *)
Fixpoint for_in {A S : Type} (xs : list A) (body : A -> S -> M S) (s : S)
  : M S :=
  match xs with
  | [] => ret s
  | x :: rest => s' <- body x s ;; for_in rest body s'
  end.

Definition when (b : bool) (m : M unit) : M unit :=
  if b then m else ret tt.

Definition the_world : M World := fun w => Returns w w.

Definition modify (f : World -> World) : M unit := fun w => Returns tt (f w).

(** *** Field updates *)

Definition set_captured_data (v : option NSData) (w : World) : World :=
  mk_World v (captured_images w) (statusLabel w) (saveButton_enabled w)
    (convertToPngButton_enabled w) (imageView w) (textView w) (disk w) (log w)
    (stdout w) (fetched w) (opened w) (ticks w).

Definition set_captured_images (v : list NSImage) (w : World) : World :=
  mk_World (captured_data w) v (statusLabel w) (saveButton_enabled w)
    (convertToPngButton_enabled w) (imageView w) (textView w) (disk w) (log w)
    (stdout w) (fetched w) (opened w) (ticks w).

Definition set_statusLabel (v : string) (w : World) : World :=
  mk_World (captured_data w) (captured_images w) v (saveButton_enabled w)
    (convertToPngButton_enabled w) (imageView w) (textView w) (disk w) (log w)
    (stdout w) (fetched w) (opened w) (ticks w).

Definition set_saveButton_enabled (v : bool) (w : World) : World :=
  mk_World (captured_data w) (captured_images w) (statusLabel w) v
    (convertToPngButton_enabled w) (imageView w) (textView w) (disk w) (log w)
    (stdout w) (fetched w) (opened w) (ticks w).

Definition set_convertToPngButton_enabled (v : bool) (w : World) : World :=
  mk_World (captured_data w) (captured_images w) (statusLabel w)
    (saveButton_enabled w) v (imageView w) (textView w) (disk w) (log w)
    (stdout w) (fetched w) (opened w) (ticks w).

Definition set_imageView (v : option NSImage) (w : World) : World :=
  mk_World (captured_data w) (captured_images w) (statusLabel w)
    (saveButton_enabled w) (convertToPngButton_enabled w) v (textView w)
    (disk w) (log w) (stdout w) (fetched w) (opened w) (ticks w).

Definition set_textView (v : string) (w : World) : World :=
  mk_World (captured_data w) (captured_images w) (statusLabel w)
    (saveButton_enabled w) (convertToPngButton_enabled w) (imageView w) v
    (disk w) (log w) (stdout w) (fetched w) (opened w) (ticks w).

Definition set_disk (v : list (string * NSData)) (w : World) : World :=
  mk_World (captured_data w) (captured_images w) (statusLabel w)
    (saveButton_enabled w) (convertToPngButton_enabled w) (imageView w)
    (textView w) v (log w) (stdout w) (fetched w) (opened w) (ticks w).

Definition set_log (v : list (Level * string)) (w : World) : World :=
  mk_World (captured_data w) (captured_images w) (statusLabel w)
    (saveButton_enabled w) (convertToPngButton_enabled w) (imageView w)
    (textView w) (disk w) v (stdout w) (fetched w) (opened w) (ticks w).

Definition set_stdout (v : list string) (w : World) : World :=
  mk_World (captured_data w) (captured_images w) (statusLabel w)
    (saveButton_enabled w) (convertToPngButton_enabled w) (imageView w)
    (textView w) (disk w) (log w) v (fetched w) (opened w) (ticks w).

Definition set_fetched (v : list string) (w : World) : World :=
  mk_World (captured_data w) (captured_images w) (statusLabel w)
    (saveButton_enabled w) (convertToPngButton_enabled w) (imageView w)
    (textView w) (disk w) (log w) (stdout w) v (opened w) (ticks w).

Definition set_opened (v : list (list string)) (w : World) : World :=
  mk_World (captured_data w) (captured_images w) (statusLabel w)
    (saveButton_enabled w) (convertToPngButton_enabled w) (imageView w)
    (textView w) (disk w) (log w) (stdout w) (fetched w) v (ticks w).

Definition set_ticks (v : nat) (w : World) : World :=
  mk_World (captured_data w) (captured_images w) (statusLabel w)
    (saveButton_enabled w) (convertToPngButton_enabled w) (imageView w)
    (textView w) (disk w) (log w) (stdout w) (fetched w) (opened w) v.

(** *** Effects *)

Definition logging (lvl : Level) (msg : string) : M unit :=
  modify (fun w => set_log (log w ++ [(lvl, msg)])%list w).

Definition print (line : string) : M unit :=
  modify (fun w => set_stdout (stdout w ++ [line])%list w).

Definition statusLabel_setStringValue_ (s : string) : M unit :=
  modify (set_statusLabel s).

(** [pasteboard.dataForType_(t)] *)
Definition dataForType_ (pasteboard : NSPasteboard) (t : string)
  : M (option NSData) :=
  fun w =>
    Returns (bytesForType pasteboard t) (set_fetched (fetched w ++ [t])%list w).

Section Scanner.

Context {cocoa : Cocoa}.

(** [data.writeToFile_atomically_(path, True)] *)
Definition writeToFile_atomically_ (data : NSData) (path : string) : M bool :=
  fun w =>
    if write_succeeds data path
    then Returns true (set_disk (disk w ++ [(path, data)])%list w)
    else Returns false w.

(** [datetime.now()] *)
Definition datetime_now : M datetime :=
  fun w => Returns (clock (ticks w)) (set_ticks (S (ticks w)) w).

(** [workspace.openURLs_withAppBundleIdentifier_...] *)
Definition openURLs_withAppBundleIdentifier_ (urls : list string)
  (app : string) : M bool :=
  fun w =>
    if openURLs_succeeds urls app
    then Returns true (set_opened (opened w ++ [urls])%list w)
    else Returns false w.

(** The global [config], fixed once [main] has filled it in. *)
Variable config : Config.

(** *** [_getBestImageRep] *)

(** The loop over [image.representations()] with its two local
    variables. *)
Fixpoint best_rep_loop (reps : list NSImageRep) (best_rep : option NSImageRep)
  (max_pixels : Z) : option NSImageRep :=
  match reps with
  | [] => best_rep
  | rep :: rest =>
      if isBitmapImageRep rep then
        let pixels := (pixelsWide rep * pixelsHigh rep)%Z in
        if (pixels >? max_pixels)%Z
        then best_rep_loop rest (Some rep) pixels
        else best_rep_loop rest best_rep max_pixels
      else best_rep_loop rest best_rep max_pixels
  end.

Definition _getBestImageRep (image : option NSImage) : option NSImageRep :=
  match image with
  | None => None
  | Some image => best_rep_loop (representations image) None 0%Z
  end.

(** *** [_saveImageRep] *)

Definition type_map : list (OutputFormat * NSBitmapImageFileType) :=
  [ (PNG, NSBitmapImageFileTypePNG);
    (JPEG, NSBitmapImageFileTypeJPEG);
    (TIFF, NSBitmapImageFileTypeTIFF) ].

(** [d[k]] on a dict keyed by [OutputFormat]; [None] stands for the
    missing key. *)
Fixpoint getitem {V : Type} (d : list (OutputFormat * V)) (k : OutputFormat)
  : option V :=
  match d with
  | [] => None
  | (k', v) :: rest => if OutputFormat_eqb k k' then Some v else getitem rest k
  end.

Definition _saveImageRep (rep : option NSImageRep) (filepath : option string)
  (format : option OutputFormat) : M bool :=
  match rep, filepath, format with
  | Some rep, Some filepath, Some format =>
      let properties : Properties :=
        if OutputFormat_eqb format JPEG
        then [("NSImageCompressionFactor", jpeg_quality config)]
        else [] in
      match getitem type_map format with
      | None => raise (KeyError format)
      | Some file_type =>
          match representationUsingType_properties_ rep file_type properties with
          | Some ((_ :: _) as data) => writeToFile_atomically_ data filepath
          | _ => ret false
          end
      end
  | _, _, _ => ret false
  end.

(** *** [_openInPreview] *)

Definition _openInPreview (file_paths : option (list string)) : M unit :=
  match file_paths with
  | Some ((_ :: _) as file_paths) =>
      logging INFO
        ("Opening " ++ str_nat (List.length file_paths)
         ++ " file(s) in Preview...") ;;
      success <- openURLs_withAppBundleIdentifier_ file_paths
                   "com.apple.Preview" ;;
      if success : bool then
        logging INFO "Files opened in Preview successfully" ;;
        statusLabel_setStringValue_
          ("Saved " ++ str_nat (List.length file_paths)
           ++ " file(s) - Opened in Preview")
      else
        logging ERROR "Failed to open files in Preview"
  | _ => ret tt
  end.

(** *** [_updatePreview] *)

Definition _updatePreview (original_image : option NSImage) : M unit :=
  match original_image with
  | None => ret tt
  | Some original_image =>
      let preview_image :=
        mk_NSImage (NSMakeSize 660 850)
          (preview_representations original_image) 0 false in
      modify (set_imageView (Some preview_image))
  end.

(** *** [_saveRawPDF] *)

Definition _saveRawPDF (pdf_data : option NSData) : M unit :=
  match pdf_data with
  | Some ((_ :: _) as pdf_data) =>
      now <- datetime_now ;;
      let timestamp := strftime_Ymd_HMS now in
      let pdf_filename := filename_prefix config ++ "_" ++ timestamp ++ ".pdf" in
      let pdf_filepath := joinpath (output_dir config) pdf_filename in
      ok <- writeToFile_atomically_ pdf_data pdf_filepath ;;
      if ok : bool then
        logging INFO ("Saved raw PDF: " ++ pdf_filepath) ;;
        statusLabel_setStringValue_ ("PDF saved: " ++ pdf_filename)
      else ret tt
  | _ => ret tt
  end.

(** *** Rendering one page

    The same statements appear in [readSelectionFromPasteboard_] and in
    [convertPdfToPng_]: read the media box, scale both sides by
    [config.resolution_scale], make an image of that size and draw the
    page into it. *)

Definition render_page (page : PDFPage) : NSImage :=
  let bounds := boundsForBox_ page 0 in
  let scale_factor := resolution_scale config in
  let size' :=
    NSMakeSize (width (size bounds) * scale_factor)%float
               (height (size bounds) * scale_factor)%float in
  mk_NSImage size' (drawn_representations size' scale_factor page) 0 false.

(** *** [readSelectionFromPasteboard_] *)

Definition pdf_types : list string :=
  ["com.adobe.pdf"; NSPasteboardTypePDF; "public.pdf"].

Definition image_types : list string :=
  [ NSPasteboardTypeTIFF; NSPasteboardTypePNG; "public.tiff"; "public.png";
    "public.jpeg"; "public.image" ].

(** Step 1, the loop over [pdf_types]; leaving the recursion is the
    [break].  The locals are [pdf_data] and [debug_info]. *)
Fixpoint probe_pdf_types (pasteboard : NSPasteboard) (aliases : list string)
  (pdf_data : option NSData) (debug_info : string)
  : M (option NSData * string) :=
  match aliases with
  | [] => ret (pdf_data, debug_info)
  | pdf_type :: rest =>
      if contains (types pasteboard) pdf_type then
        pdf_data <- dataForType_ pasteboard pdf_type ;;
        match pdf_data with
        | Some ((_ :: _) as bytes) =>
            logging INFO
              ("Retrieved PDF data: " ++ str_nat (List.length bytes)
               ++ " bytes") ;;
            ret (pdf_data,
                 debug_info ++ "Found PDF data of size: "
                 ++ str_nat (List.length bytes) ++ " bytes" ++ nl)
        | _ => probe_pdf_types pasteboard rest pdf_data debug_info
        end
      else probe_pdf_types pasteboard rest pdf_data debug_info
  end.

(** Step 2, the body of the loop over the page indices. *)
Definition capture_page (pdf_doc : PDFDocument) (i : nat) (debug_info : string)
  : M string :=
  match pageAtIndex_ pdf_doc i with
  | Some page =>
      let image := render_page page in
      modify (fun w => set_captured_images (captured_images w ++ [image])%list w) ;;
      let dims :=
        str_float (width (image_size image)) ++ "x"
        ++ str_float (height (image_size image)) in
      logging DEBUG ("Rendered page " ++ str_nat (i + 1) ++ " at " ++ dims) ;;
      ret (debug_info ++ "  Page " ++ str_nat (i + 1) ++ ": " ++ dims
           ++ " pixels" ++ nl)
  | None => ret debug_info
  end.

(** The fallback, the body of the loop over [image_types]. *)
Definition capture_image (pasteboard : NSPasteboard) (img_type : string)
  (debug_info : string) : M string :=
  if contains (types pasteboard) img_type then
    data <- dataForType_ pasteboard img_type ;;
    match data with
    | Some ((_ :: _) as data) =>
        match NSImage_initWithData_ data with
        | Some image =>
            let image :=
              mk_NSImage (image_size image) (representations image) 0 false in
            modify (fun w =>
                      set_captured_images (captured_images w ++ [image])%list w) ;;
            let debug_info :=
              debug_info ++ "Found image type: " ++ img_type ++ nl in
            match representations image with
            | rep :: _ =>
                let dims :=
                  str_int (pixelsWide rep) ++ "x" ++ str_int (pixelsHigh rep) in
                logging INFO ("Image resolution: " ++ dims) ;;
                ret (debug_info ++ "  Resolution: " ++ dims ++ nl)
            | [] => ret debug_info
            end
        | None => ret debug_info
        end
    | _ => ret debug_info
    end
  else ret debug_info.

(** Steps 2 and 3, taken when [pdf_data] is true. *)
Definition capture_document (pdf_data : option NSData) (bytes : NSData)
  (debug_info : string) : M string :=
  modify (set_captured_data pdf_data) ;;
  match PDFDocument_initWithData_ bytes with
  | Some pdf_doc =>
      let page_count := pageCount pdf_doc in
      let debug_info :=
        debug_info ++ "PDF has " ++ str_nat page_count ++ " pages" ++ nl in
      logging INFO
        ("Processing " ++ str_nat page_count ++ " page(s) from PDF") ;;
      debug_info <-
        for_in (seq 0 page_count) (capture_page pdf_doc) debug_info ;;
      w <- the_world ;;
      match captured_images w with
      | first :: _ =>
          _updatePreview (Some first) ;;
          statusLabel_setStringValue_
            ("Scanned " ++ str_nat (List.length (captured_images w))
             ++ " page(s) successfully!") ;;
          modify (set_saveButton_enabled true) ;;
          modify (set_convertToPngButton_enabled true) ;;
          ret debug_info
      | [] => ret debug_info
      end
  | None =>
      logging WARNING "Could not create PDFDocument from data" ;;
      _saveRawPDF pdf_data ;;
      ret debug_info
  end.

(** The fallback, taken when [pdf_data] is false. *)
Definition capture_images (pasteboard : NSPasteboard) (debug_info : string)
  : M string :=
  let debug_info :=
    debug_info ++ "No PDF found, trying image formats..." ++ nl in
  logging INFO "No PDF data found, trying image formats" ;;
  debug_info <- for_in image_types (capture_image pasteboard) debug_info ;;
  w <- the_world ;;
  match captured_images w with
  | first :: _ =>
      _updatePreview (Some first) ;;
      statusLabel_setStringValue_
        ("Captured " ++ str_nat (List.length (captured_images w))
         ++ " image(s)") ;;
      modify (set_saveButton_enabled true) ;;
      modify (set_convertToPngButton_enabled false) ;;
      ret debug_info
  | [] => ret debug_info
  end.

Definition readSelectionFromPasteboard_ (pasteboard : NSPasteboard) : M bool :=
  logging INFO "Reading data from pasteboard..." ;;
  let debug_info := "=== Reading from Pasteboard ===" ++ nl in
  let types' := types pasteboard in
  let debug_info :=
    debug_info ++ "Available types: " ++ str_types types' ++ nl ++ nl in
  (* Reset captured data *)
  modify (set_captured_images []) ;;
  modify (set_captured_data None) ;;
  found <- probe_pdf_types pasteboard pdf_types None debug_info ;;
  let '(pdf_data, debug_info) := found in
  debug_info <-
    (match pdf_data with
     | Some ((_ :: _) as bytes) => capture_document pdf_data bytes debug_info
     | _ => capture_images pasteboard debug_info
     end) ;;
  when (debug_mode config) (modify (set_textView debug_info)) ;;
  w <- the_world ;;
  logging INFO
    ("Capture complete: " ++ str_nat (List.length (captured_images w))
     ++ " images") ;;
  ret ((0 <? List.length (captured_images w))%nat
       || match captured_data w with Some _ => true | None => false end).

(** *** [saveAllDocuments_] *)

(** The inner loop body: one requested format of one page. *)
Definition save_page_format (timestamp : string) (page_num : nat)
  (best_rep : NSImageRep) (fmt : OutputFormat) (files_saved : list string)
  : M (list string) :=
  if OutputFormat_eqb fmt PDF then ret files_saved
  else
    let filename :=
      filename_prefix config ++ "_" ++ timestamp ++ "_page"
      ++ format_02d page_num ++ "." ++ value fmt in
    let filepath := joinpath (output_dir config) filename in
    ok <- _saveImageRep (Some best_rep) (Some filepath) (Some fmt) ;;
    if ok : bool then
      logging INFO ("Saved " ++ upper (value fmt) ++ ": " ++ filepath) ;;
      ret (files_saved ++ [filepath])%list
    else ret files_saved.

(** The outer loop body: one captured image. *)
Definition save_page (timestamp : string) (entry : nat * NSImage)
  (files_saved : list string) : M (list string) :=
  let '(i, image) := entry in
  let page_num := i + 1 in
  match _getBestImageRep (Some image) with
  | Some best_rep =>
      for_in (output_formats config)
        (save_page_format timestamp page_num best_rep) files_saved
  | None => ret files_saved
  end.

(** The block "Save PDF if available and requested"; its value is the
    list [files_saved] it leaves. *)
Definition save_document (timestamp : string) : M (list string) :=
  w <- the_world ;;
  match captured_data w with
  | Some ((_ :: _) as data) =>
      if existsb (OutputFormat_eqb PDF) (output_formats config) then
        let pdf_filename :=
          filename_prefix config ++ "_" ++ timestamp ++ ".pdf" in
        let pdf_filepath := joinpath (output_dir config) pdf_filename in
        ok <- writeToFile_atomically_ data pdf_filepath ;;
        if ok : bool then
          logging INFO ("Saved PDF: " ++ pdf_filepath) ;;
          ret [pdf_filepath]
        else ret []
      else ret []
  | _ => ret []
  end.

Definition saveAllDocuments_ : M unit :=
  w <- the_world ;;
  match captured_images w, truthy (captured_data w) with
  | [], false => logging WARNING "No documents to save"
  | _, _ =>
      logging INFO "Saving documents..." ;;
      now <- datetime_now ;;
      let timestamp := strftime_Ymd_HMS now in
      files_saved <- save_document timestamp ;;
      w <- the_world ;;
      files_saved <-
        for_in (enumerate (captured_images w)) (save_page timestamp)
          files_saved ;;
      statusLabel_setStringValue_
        ("Saved " ++ str_nat (List.length files_saved) ++ " file(s)") ;;
      logging INFO
        ("Save complete: " ++ str_nat (List.length files_saved) ++ " files") ;;
      when (verbose config && negb (quiet config))
        (print (nl ++ "Saved files:") ;;
         for_in files_saved (fun f _ => print ("  - " ++ f)) tt) ;;
      match files_saved with
      | _ :: _ =>
          when (open_in_preview config) (_openInPreview (Some files_saved))
      | [] => ret tt
      end
  end.

(** *** [convertPdfToPng_] *)

(** The loop body: one page index of the parsed document. *)
Definition convert_page (pdf_doc : PDFDocument) (timestamp : string) (i : nat)
  (files_saved : list string) : M (list string) :=
  match pageAtIndex_ pdf_doc i with
  | Some page =>
      let image := render_page page in
      let best_rep :=
        match _getBestImageRep (Some image) with
        | Some rep => Some rep
        | None =>
            match TIFFRepresentation image with
            | Some ((_ :: _) as data) => imageRepWithData_ data
            | _ => None
            end
        end in
      match best_rep with
      | Some best_rep =>
          let page_num := i + 1 in
          let filename :=
            filename_prefix config ++ "_" ++ timestamp ++ "_page"
            ++ format_02d page_num ++ ".png" in
          let filepath := joinpath (output_dir config) filename in
          match
            representationUsingType_properties_ best_rep
              NSBitmapImageFileTypePNG []
          with
          | Some ((_ :: _) as data) =>
              ok <- writeToFile_atomically_ data filepath ;;
              if ok : bool then
                logging INFO ("Saved PNG: " ++ filepath) ;;
                statusLabel_setStringValue_
                  ("Converting PDF to PNG: " ++ str_nat page_num ++ "/"
                   ++ str_nat (pageCount pdf_doc) ++ " pages...") ;;
                ret (files_saved ++ [filepath])%list
              else ret files_saved
          | _ => ret files_saved
          end
      | None => ret files_saved
      end
  | None => ret files_saved
  end.

Definition convertPdfToPng_ : M unit :=
  w <- the_world ;;
  match captured_data w with
  | Some ((_ :: _) as captured) =>
      logging INFO "Converting PDF pages to PNG format..." ;;
      statusLabel_setStringValue_ "Converting PDF pages to PNG..." ;;
      match PDFDocument_initWithData_ captured with
      | None =>
          logging ERROR "Failed to create PDF document for conversion" ;;
          statusLabel_setStringValue_ "Error: Could not process PDF"
      | Some pdf_doc =>
          now <- datetime_now ;;
          let timestamp := strftime_Ymd_HMS now in
          let page_count := pageCount pdf_doc in
          logging INFO
            ("Converting " ++ str_nat page_count ++ " PDF page(s) to PNG...") ;;
          files_saved <-
            for_in (seq 0 page_count) (convert_page pdf_doc timestamp) [] ;;
          match files_saved with
          | _ :: _ =>
              statusLabel_setStringValue_
                ("Successfully converted "
                 ++ str_nat (List.length files_saved) ++ " page(s) to PNG") ;;
              logging INFO
                ("PDF to PNG conversion complete: "
                 ++ str_nat (List.length files_saved) ++ " files") ;;
              when (verbose config && negb (quiet config))
                (print (nl ++ "Converted "
                        ++ str_nat (List.length files_saved)
                        ++ " PDF pages to PNG:") ;;
                 for_in files_saved (fun f _ => print ("  - " ++ f)) tt) ;;
              when (open_in_preview config) (_openInPreview (Some files_saved))
          | [] =>
              statusLabel_setStringValue_ "Error: No pages could be converted" ;;
              logging ERROR "Failed to convert any PDF pages to PNG"
          end
      end
  | _ =>
      logging WARNING "No PDF data to convert" ;;
      statusLabel_setStringValue_ "No PDF data available for conversion"
  end.

End Scanner.


(** * More of the program

    The part of [main] that turns the parsed arguments into the
    configuration, and the pasteboard inspector [debugPasteboard_]. *)



(** [OutputFormat(s)]: the member whose value is [s]; [None] stands for the
    [ValueError] raised when there is none. *)
Definition OutputFormat_of_value (s : string) : option OutputFormat :=
  if String.eqb s "pdf" then Some PDF
  else if String.eqb s "png" then Some PNG
  else if String.eqb s "jpeg" then Some JPEG
  else if String.eqb s "tiff" then Some TIFF
  else None.

(** [[OutputFormat(f) for f in fs]] *)
Fixpoint OutputFormats_of_values (fs : list string) : option (list OutputFormat) :=
  match fs with
  | [] => Some []
  | f :: rest =>
      match OutputFormat_of_value f with
      | None => None
      | Some fmt =>
          match OutputFormats_of_values rest with
          | None => None
          | Some fmts => Some (fmt :: fmts)
          end
      end
  end.

(** The choices [create_argument_parser] gives [--format]. *)
Definition format_choices : list string := ["pdf"; "png"; "jpeg"; "tiff"].


Definition lower_char (c : ascii) : ascii :=
  let n := nat_of_ascii c in
  if ((65 <=? n) && (n <=? 90))%nat then ascii_of_nat (n + 32) else c.

(** [s.lower()] on ASCII text. *)
Fixpoint lower (s : string) : string :=
  match s with
  | EmptyString => EmptyString
  | String c r => String (lower_char c) (lower r)
  end.

(** [needle in haystack] for two strings. *)
Fixpoint is_substring (needle haystack : string) : bool :=
  if String.prefix needle haystack then true
  else
    match haystack with
    | EmptyString => false
    | String _ rest => is_substring needle rest
    end.

(** The body of the loop over the pasteboard's types. *)
Definition debug_type (pb : NSPasteboard) (type_str : string)
  (debug_info : string) : M string :=
  let debug_info := debug_info ++ "Type: " ++ type_str ++ nl in
  data <- dataForType_ pb type_str ;;
  let debug_info :=
    match data with
    | Some ((_ :: _) as bytes) =>
        let debug_info :=
          debug_info ++ "  Data size: " ++ str_nat (List.length bytes)
          ++ " bytes" ++ nl in
        let name := lower type_str in
        if is_substring "pdf" name then
          debug_info ++ "  -> PDF data detected (multi-page document)" ++ nl
        else if is_substring "image" name || is_substring "png" name then
          debug_info ++ "  -> Image data detected (single image)" ++ nl
        else if is_substring "tiff" name then
          debug_info
          ++ "  -> TIFF data detected (can contain multiple images)" ++ nl
        else debug_info
    | _ => debug_info
    end in
  ret (debug_info ++ nl).

(** [debugPasteboard_]; [generalPasteboard] stands for
    [NSPasteboard.generalPasteboard()]. *)
Definition debugPasteboard_ (generalPasteboard : NSPasteboard) : M unit :=
  logging DEBUG "Debugging pasteboard..." ;;
  let pb := generalPasteboard in
  let types' := types pb in
  let debug_info := "=== Pasteboard Debug Info ===" ++ nl in
  let debug_info :=
    debug_info ++ "Available types: " ++ str_nat (List.length types') ++ nl
    ++ nl in
  debug_info <- for_in types' (debug_type pb) debug_info ;;
  modify (set_textView debug_info) ;;
  logging INFO debug_info.

(** ** [Config.setup_logging] and what reaches the console *)

(** The level [setup_logging] gives to [logging.basicConfig]. *)
Definition setup_logging (config : Config) : Level :=
  if quiet config then ERROR
  else if verbose config then DEBUG
  else INFO.

(** The numeric values of the levels in [logging]. *)
Definition levelno (level : Level) : nat :=
  match level with
  | DEBUG => 10
  | INFO => 20
  | WARNING => 30
  | ERROR => 40
  end.

(** The root logger emits a record when its level is at least the level
    set. *)
Definition emitted (config : Config) (record : Level * string) : bool :=
  (levelno (setup_logging config) <=? levelno (fst record))%nat.
(** * Reasoning tools *)

(** Total correctness: [m] started in [w] returns normally, with a value
    and a final world that satisfy [Q]. *)
Definition wp {A : Type} (m : M A) (w : World) (Q : A -> World -> Prop)
  : Prop :=
  match m w with
  | Returns a w' => Q a w'
  | Raises _ _ => False
  end.


(** Reading a decimal numeral back, leading zeros included. *)
Definition parse_nat (s : string) : option nat :=
  option_map Nat.of_uint (NilEmpty.uint_of_string s).

(** The world a computation ends in, whether it returned or raised. *)
Definition final_world {A : Type} (o : Outcome A) : World :=
  match o with
  | Returns _ w => w
  | Raises _ w => w
  end.

(** A session whose capture state has been emptied; everything else is
    kept. *)
Definition reset_capture (w : World) : World :=
  set_captured_data None (set_captured_images [] w).

(** ** What the operations amount to

    Pure descriptions of the loops, used to state the results.  Each one
    follows the loop of the program it is named after. *)

Definition area (rep : NSImageRep) : Z := (pixelsWide rep * pixelsHigh rep)%Z.

(** [f"{prefix}_{timestamp}.pdf"] *)
Definition pdf_filename_of (config : Config) (timestamp : string) : string :=
  filename_prefix config ++ "_" ++ timestamp ++ ".pdf".

(** [f"{prefix}_{timestamp}_page{page_num:02d}.{ext}"] *)
Definition page_filename_of (config : Config) (timestamp : string)
  (page_num : nat) (ext : string) : string :=
  filename_prefix config ++ "_" ++ timestamp ++ "_page" ++ format_02d page_num
  ++ "." ++ ext.

(** Pages of a parsed document, in index order, without the indices at
    which [pageAtIndex_] gives nothing. *)
Definition pages_of (pdf_doc : PDFDocument) : list PDFPage :=
  flat_map
    (fun i => match pageAtIndex_ pdf_doc i with Some p => [p] | None => [] end)
    (seq 0 (pageCount pdf_doc)).

Section Denotations.

Context {cocoa : Cocoa}.
Variable config : Config.

(** The value of [pdf_data] when the loop over the aliases ends. *)
Fixpoint first_pdf_data (pasteboard : NSPasteboard) (aliases : list string)
  (pdf_data : option NSData) : option NSData :=
  match aliases with
  | [] => pdf_data
  | a :: rest =>
      if contains (types pasteboard) a then
        if truthy (bytesForType pasteboard a) then bytesForType pasteboard a
        else first_pdf_data pasteboard rest (bytesForType pasteboard a)
      else first_pdf_data pasteboard rest pdf_data
  end.

(** The type identifiers that loop fetches, in order. *)
Fixpoint probe_fetches (pasteboard : NSPasteboard) (aliases : list string)
  : list string :=
  match aliases with
  | [] => []
  | a :: rest =>
      if contains (types pasteboard) a then
        a :: (if truthy (bytesForType pasteboard a) then []
              else probe_fetches pasteboard rest)
      else probe_fetches pasteboard rest
  end.

(** The image one raster type identifier contributes in the fallback. *)
Definition decode_image (pasteboard : NSPasteboard) (img_type : string)
  : list NSImage :=
  if contains (types pasteboard) img_type then
    match bytesForType pasteboard img_type with
    | Some ((_ :: _) as data) =>
        match NSImage_initWithData_ data with
        | Some image =>
            [mk_NSImage (image_size image) (representations image) 0 false]
        | None => []
        end
    | _ => []
    end
  else [].

(** The file [_saveRawPDF] leaves when reading the clock gives [now]. *)
Definition raw_pdf_writes (now : datetime) (pdf_data : NSData)
  : list (string * NSData) :=
  let path :=
    joinpath (output_dir config) (pdf_filename_of config (strftime_Ymd_HMS now)) in
  if write_succeeds pdf_data path then [(path, pdf_data)] else [].

(** The file one (page, format) pair adds. *)
Definition format_writes (timestamp : string) (page_num : nat)
  (best_rep : NSImageRep) (fmt : OutputFormat) : list (string * NSData) :=
  let path :=
    joinpath (output_dir config)
      (page_filename_of config timestamp page_num (value fmt)) in
  let properties : Properties :=
    if OutputFormat_eqb fmt JPEG
    then [("NSImageCompressionFactor", jpeg_quality config)] else [] in
  match getitem type_map fmt with
  | Some file_type =>
      match representationUsingType_properties_ best_rep file_type properties with
      | Some ((_ :: _) as data) =>
          if write_succeeds data path then [(path, data)] else []
      | _ => []
      end
  | None => []
  end.

(** The files one captured image adds in [saveAllDocuments_]. *)
Definition page_writes (timestamp : string) (entry : nat * NSImage)
  : list (string * NSData) :=
  match _getBestImageRep (Some (snd entry)) with
  | Some best_rep =>
      flat_map (format_writes timestamp (fst entry + 1) best_rep)
        (output_formats config)
  | None => []
  end.

(** The whole-document file of [saveAllDocuments_]. *)
Definition document_writes (timestamp : string) (captured : option NSData)
  : list (string * NSData) :=
  match captured with
  | Some ((_ :: _) as data) =>
      if existsb (OutputFormat_eqb PDF) (output_formats config) then
        let path :=
          joinpath (output_dir config) (pdf_filename_of config timestamp) in
        if write_succeeds data path then [(path, data)] else []
      else []
  | _ => []
  end.

Definition save_writes (timestamp : string) (w : World)
  : list (string * NSData) :=
  (document_writes timestamp (captured_data w)
   ++ flat_map (page_writes timestamp) (enumerate (captured_images w)))%list.

(** The representation [convertPdfToPng_] encodes for a page. *)
Definition convert_rep (page : PDFPage) : option NSImageRep :=
  let image := render_page config page in
  match _getBestImageRep (Some image) with
  | Some rep => Some rep
  | None =>
      match TIFFRepresentation image with
      | Some ((_ :: _) as data) => imageRepWithData_ data
      | _ => None
      end
  end.

(** The file one page index adds in [convertPdfToPng_]. *)
Definition convert_page_writes (pdf_doc : PDFDocument) (timestamp : string)
  (i : nat) : list (string * NSData) :=
  match pageAtIndex_ pdf_doc i with
  | Some page =>
      match convert_rep page with
      | Some best_rep =>
          let path :=
            joinpath (output_dir config)
              (page_filename_of config timestamp (i + 1) "png") in
          match
            representationUsingType_properties_ best_rep
              NSBitmapImageFileTypePNG []
          with
          | Some ((_ :: _) as data) =>
              if write_succeeds data path then [(path, data)] else []
          | _ => []
          end
      | None => []
      end
  | None => []
  end.

Definition convert_writes (pdf_doc : PDFDocument) (timestamp : string)
  : list (string * NSData) :=
  flat_map (convert_page_writes pdf_doc timestamp) (seq 0 (pageCount pdf_doc)).

End Denotations.

(** ** Contracts of the operations

    The postconditions proved for the loops and for the three operations.
    They speak of the capture state, the disk, the status label, the
    pasteboard fetches and the clock. *)

Section Contracts.

Context {cocoa : Cocoa}.
Variable config : Config.

Definition wrote (w : World) (files : list string)
  (writes : list (string * NSData)) (files' : list string) (w' : World) : Prop :=
  files' = (files ++ map fst writes)%list /\
  disk w' = (disk w ++ writes)%list /\
  captured_data w' = captured_data w /\
  captured_images w' = captured_images w.

(** Operations that leave the capture state and the disk alone. *)
Definition kept (w w' : World) : Prop :=
  captured_data w' = captured_data w /\
  captured_images w' = captured_images w /\
  disk w' = disk w.

Definition holds_capture (w : World) : bool :=
  match captured_images w with
  | [] => truthy (captured_data w)
  | _ :: _ => true
  end.

Definition save_post (w : World) (_ : unit) (w' : World) : Prop :=
  captured_data w' = captured_data w /\
  captured_images w' = captured_images w /\
  if holds_capture w then
    let writes :=
      save_writes config (strftime_Ymd_HMS (clock (ticks w))) w in
    disk w' = (disk w ++ writes)%list /\
    (statusLabel w'
     = "Saved " ++ str_nat (List.length writes) ++ " file(s)" \/
     statusLabel w'
     = "Saved " ++ str_nat (List.length writes)
       ++ " file(s) - Opened in Preview")
  else disk w' = disk w /\ statusLabel w' = statusLabel w.

Definition convert_post (w : World) (_ : unit) (w' : World) : Prop :=
  captured_data w' = captured_data w /\
  captured_images w' = captured_images w /\
  match captured_data w with
  | Some ((_ :: _) as captured) =>
      match PDFDocument_initWithData_ captured with
      | Some pdf_doc =>
          let writes :=
            convert_writes config pdf_doc (strftime_Ymd_HMS (clock (ticks w))) in
          disk w' = (disk w ++ writes)%list /\
          match writes with
          | [] => statusLabel w' = "Error: No pages could be converted"
          | _ :: _ =>
              statusLabel w'
              = "Successfully converted " ++ str_nat (List.length writes)
                ++ " page(s) to PNG" \/
              statusLabel w'
              = "Saved " ++ str_nat (List.length writes)
                ++ " file(s) - Opened in Preview"
          end
      | None =>
          disk w' = disk w /\ statusLabel w' = "Error: Could not process PDF"
      end
  | _ =>
      disk w' = disk w /\
      statusLabel w' = "No PDF data available for conversion"
  end.

(** What the capture steps leave alone, apart from what each one is
    stated to change. *)
Definition probe_post (pasteboard : NSPasteboard) (aliases : list string)
  (pdf_data : option NSData) (w : World)
  (r : option NSData * string) (w' : World) : Prop :=
  fst r = first_pdf_data pasteboard aliases pdf_data /\
  fetched w' = (fetched w ++ probe_fetches pasteboard aliases)%list /\
  captured_data w' = captured_data w /\
  captured_images w' = captured_images w /\
  disk w' = disk w /\
  ticks w' = ticks w.

(** The images the page loop appends. *)
Definition rendered_at (pdf_doc : PDFDocument) (i : nat) : list NSImage :=
  match pageAtIndex_ pdf_doc i with
  | Some page => [render_page config page]
  | None => []
  end.

Definition appended (w : World) (images : list NSImage) (fetches : list string)
  (w' : World) : Prop :=
  captured_images w' = (captured_images w ++ images)%list /\
  fetched w' = (fetched w ++ fetches)%list /\
  captured_data w' = captured_data w /\
  disk w' = disk w /\
  ticks w' = ticks w.

Definition fetch_of (pasteboard : NSPasteboard) (img_type : string)
  : list string :=
  if contains (types pasteboard) img_type then [img_type] else [].

Definition document_post (bytes : NSData) (w : World) (_ : string)
  (w' : World) : Prop :=
  captured_data w' = Some bytes /\
  fetched w' = fetched w /\
  match PDFDocument_initWithData_ bytes with
  | Some pdf_doc =>
      captured_images w'
      = (captured_images w ++ map (render_page config) (pages_of pdf_doc))%list /\
      disk w' = disk w
  | None =>
      captured_images w' = captured_images w /\
      disk w' = (disk w ++ raw_pdf_writes config (clock (ticks w)) bytes)%list
  end.

Definition capture_post (pasteboard : NSPasteboard) (w : World) (flag : bool)
  (w' : World) : Prop :=
  flag = ((0 <? List.length (captured_images w'))%nat
          || match captured_data w' with Some _ => true | None => false end) /\
  match first_pdf_data pasteboard pdf_types None with
  | Some ((_ :: _) as bytes) =>
      captured_data w' = Some bytes /\
      fetched w' = (fetched w ++ probe_fetches pasteboard pdf_types)%list /\
      match PDFDocument_initWithData_ bytes with
      | Some pdf_doc =>
          captured_images w' = map (render_page config) (pages_of pdf_doc) /\
          disk w' = disk w
      | None =>
          captured_images w' = [] /\
          disk w'
          = (disk w ++ raw_pdf_writes config (clock (ticks w)) bytes)%list
      end
  | _ =>
      captured_data w' = None /\
      captured_images w' = flat_map (decode_image pasteboard) image_types /\
      fetched w'
      = (fetched w ++ probe_fetches pasteboard pdf_types
         ++ filter (contains (types pasteboard)) image_types)%list /\
      disk w' = disk w
  end.

End Contracts.

(** ** The specification's wording, for comparison *)

(** "The raster-typed representation with the largest pixel area", the
    first such one in insertion order. *)
Definition first_largest_raster (reps : list NSImageRep) (r : NSImageRep)
  : Prop :=
  exists pre post,
    reps = (pre ++ r :: post)%list /\
    isBitmapImageRep r = true /\
    (forall x, In x pre -> isBitmapImageRep x = true -> (area x < area r)%Z) /\
    (forall x, In x post -> isBitmapImageRep x = true -> (area x <= area r)%Z).

(** "pages_attempted" and "pages_failed" of a save: the pages held, and
    those among them for which no file was written. *)
Definition pages_attempted (w : World) : nat := List.length (captured_images w).

Definition pages_failed {cocoa : Cocoa} (config : Config) (timestamp : string)
  (w : World) : nat :=
  List.length
    (filter (fun entry =>
               match page_writes config timestamp entry with
               | [] => true
               | _ :: _ => false
               end)
            (enumerate (captured_images w))).

(** What a save leaves for its caller and user to see. *)
Definition report (w : World)
  : string * list (Level * string) * list string * list (string * NSData)
    * list (list string) :=
  (statusLabel w, log w, stdout w, disk w, opened w).

(** ** A concrete platform, for examples

    A document is a percent sign followed by one byte per page; a page
    whose byte is zero draws a representation without pixel content,
    which no encoder accepts.  Every page measures 595.25 by 841.875
    points.  Files are always writable, and the clock advances by one
    second at every reading. *)

Module Demo.

Definition page_of_byte (b : Byte.byte) : PDFPage :=
  mk_PDFPage (fun _ => NSMakeRect 0 0 (NSMakeSize 595.25 841.875)) [b].

Definition parse (data : NSData) : option PDFDocument :=
  match data with
  | Byte.x25 :: pages =>
      Some (mk_PDFDocument (List.length pages)
              (fun i => option_map page_of_byte (nth_error pages i)))
  | _ => None
  end.

Definition draw (sz : NSSize) (scale : float) (page : PDFPage)
  : list NSImageRep :=
  match page_content page with
  | [Byte.x00] => [mk_NSImageRep true 2 3 []]
  | content => [mk_NSImageRep true 2 3 content]
  end.

Definition tag (t : NSBitmapImageFileType) : Byte.byte :=
  match t with
  | NSBitmapImageFileTypeTIFF => Byte.x49
  | NSBitmapImageFileTypeBMP => Byte.x42
  | NSBitmapImageFileTypeGIF => Byte.x47
  | NSBitmapImageFileTypeJPEG => Byte.xff
  | NSBitmapImageFileTypePNG => Byte.x89
  | NSBitmapImageFileTypeJPEG2000 => Byte.x6a
  end.

Definition encode (rep : NSImageRep) (t : NSBitmapImageFileType)
  (properties : Properties) : option NSData :=
  match pixel_data rep with
  | [] => None
  | content => Some (tag t :: content)
  end.

Definition platform : Cocoa := {|
  NSPasteboardTypePDF := "com.adobe.pdf";
  NSPasteboardTypeTIFF := "public.tiff";
  NSPasteboardTypePNG := "public.png";
  PDFDocument_initWithData_ := parse;
  drawn_representations := draw;
  NSImage_initWithData_ :=
    fun data =>
      Some (mk_NSImage (NSMakeSize 1 1) [mk_NSImageRep true 1 1 data] 1 true);
  preview_representations := fun _ => [];
  TIFFRepresentation := fun _ => None;
  imageRepWithData_ := fun _ => None;
  representationUsingType_properties_ := encode;
  write_succeeds := fun _ _ => true;
  openURLs_succeeds := fun _ _ => true;
  joinpath := fun d f => d ++ "/" ++ f;
  str_float := fun _ => "<float>";
  str_types := fun ts => String.concat ", " ts;
  clock := fun n => mk_datetime 2024 1 2 3 4 (5 + n) 0
|}.

(** [--format png --resolution-scale 1.5 --output-dir /out] *)
Definition config : Config :=
  mk_Config "/out" "scanned_document" [PNG] false false 1.5%float
    0x1.e666666666666p-1%float false false.

(** A pasteboard that offers one type identifier with the given bytes. *)
Definition pasteboard_with (t : string) (data : NSData) : NSPasteboard :=
  mk_NSPasteboard [t] (fun t' => if String.eqb t' t then Some data else None).

(** [--format pdf png] *)
Definition config_pdf_png : Config := with_output_formats [PDF; PNG] config.

(** A pasteboard on which every type identifier yields a one-page
    document. *)
Definition offers_everything : NSPasteboard :=
  mk_NSPasteboard ["public.tiff"; "public.pdf"; "com.adobe.pdf"]
    (fun _ => Some [Byte.x25; Byte.x01]).

Definition good_image : NSImage :=
  mk_NSImage (NSMakeSize 892.875 1262.8125)
    [mk_NSImageRep true 2 3 [Byte.x01]] 0 false.

Definition corrupt_image : NSImage :=
  mk_NSImage (NSMakeSize 892.875 1262.8125) [mk_NSImageRep true 2 3 []] 0 false.

(** Sessions in the Captured state. *)
Definition one_page : World := set_captured_images [good_image] init_World.

Definition two_pages_second_corrupt : World :=
  set_captured_images [good_image; corrupt_image] init_World.

Definition three_pages_middle_corrupt : World :=
  set_captured_data (Some [Byte.x25; Byte.x01; Byte.x00; Byte.x02])
    (set_captured_images [good_image; corrupt_image; good_image] init_World).

End Demo.

(** ** Further contracts

    What the operations leave untouched, and what they print, launch and
    read from the clock.  A frame is stated as an equation between worlds
    in which the fields allowed to change have been blanked. *)

Section MoreContracts.

Context {cocoa : Cocoa}.
Variable config : Config.

Definition forget_files (w : World) : World :=
  set_disk [] (set_log [] (set_statusLabel "" w)).

Definition forget_effects (w : World) : World :=
  set_ticks 0 (set_opened [] (set_stdout [] (forget_files w))).

Definition preview_launch (files : list string) : list (list string) :=
  match files with
  | [] => []
  | _ :: _ =>
      if open_in_preview config && openURLs_succeeds files "com.apple.Preview"
      then [files] else []
  end.

Definition printed_files (header : string) (files : list string)
  : list string :=
  if verbose config && negb (quiet config)
  then header :: map (fun f => ("  - " ++ f)%string) files
  else [].

Definition save_effects_post (w : World) (_ : unit) (w' : World) : Prop :=
  forget_effects w' = forget_effects w /\
  if holds_capture w then
    let files :=
      map fst (save_writes config (strftime_Ymd_HMS (clock (ticks w))) w) in
    ticks w' = S (ticks w) /\
    stdout w' = (stdout w ++ printed_files (nl ++ "Saved files:") files)%list /\
    opened w' = (opened w ++ preview_launch files)%list
  else ticks w' = ticks w /\ stdout w' = stdout w /\ opened w' = opened w.

Definition convert_effects_post (w : World) (_ : unit) (w' : World) : Prop :=
  forget_effects w' = forget_effects w /\
  match captured_data w with
  | Some ((_ :: _) as captured) =>
      match PDFDocument_initWithData_ captured with
      | Some pdf_doc =>
          let files :=
            map fst
              (convert_writes config pdf_doc
                 (strftime_Ymd_HMS (clock (ticks w)))) in
          ticks w' = S (ticks w) /\
          stdout w'
          = (stdout w
             ++ match files with
                | [] => []
                | _ :: _ =>
                    printed_files
                      (nl ++ "Converted " ++ str_nat (List.length files)
                       ++ " PDF pages to PNG:") files
                end)%list /\
          opened w' = (opened w ++ preview_launch files)%list
      | None => ticks w' = ticks w /\ stdout w' = stdout w /\ opened w' = opened w
      end
  | _ => ticks w' = ticks w /\ stdout w' = stdout w /\ opened w' = opened w
  end.

Definition forget_capture (w : World) : World :=
  set_captured_images [] (set_captured_data None (set_log [] (set_fetched [] w))).

(** The preview [_updatePreview] puts in the image view. *)
Definition preview_of (original_image : NSImage) : NSImage :=
  mk_NSImage (NSMakeSize 660 850) (preview_representations original_image)
    0 false.

(** The controls as a capture found them. *)
Definition controls_kept (w w' : World) : Prop :=
  saveButton_enabled w' = saveButton_enabled w /\
  convertToPngButton_enabled w' = convertToPngButton_enabled w /\
  imageView w' = imageView w.

(** The controls after a capture that shows pages. *)
Definition controls_show (convertible : bool) (w' : World) : Prop :=
  match captured_images w' with
  | [] => False
  | first :: _ =>
      saveButton_enabled w' = true /\
      convertToPngButton_enabled w' = convertible /\
      imageView w' = Some (preview_of first)
  end.

Definition quiet_part (w : World) : World :=
  set_statusLabel "" (set_disk [] (set_ticks 0
    (set_saveButton_enabled false (set_convertToPngButton_enabled false
       (set_imageView None (forget_capture w)))))).

Definition capture_controls_post (pasteboard : NSPasteboard) (w : World)
  (_ : bool) (w' : World) : Prop :=
  stdout w' = stdout w /\
  opened w' = opened w /\
  (if debug_mode config then True else textView w' = textView w) /\
  match first_pdf_data pasteboard pdf_types None with
  | Some ((_ :: _) as bytes) =>
      match PDFDocument_initWithData_ bytes with
      | Some _ =>
          ticks w' = ticks w /\
          match captured_images w' with
          | [] => controls_kept w w'
          | _ :: _ => controls_show true w'
          end
      | None => ticks w' = S (ticks w) /\ controls_kept w w'
      end
  | _ =>
      ticks w' = ticks w /\
      match captured_images w' with
      | [] => controls_kept w w'
      | _ :: _ => controls_show false w'
      end
  end.

Definition forget_debug (w : World) : World :=
  set_textView "" (set_log [] (set_fetched [] w)).

Definition page_formats : list OutputFormat :=
  filter (fun fmt => negb (OutputFormat_eqb fmt PDF)) (output_formats config).

(** Whether a batch that wrote [files] ends with them open in Preview:
    [config.open_in_preview and files_saved], and the workspace accepted
    them. *)
Definition opened_in_preview (files : list string) : bool :=
  match files with
  | [] => false
  | _ :: _ =>
      open_in_preview config && openURLs_succeeds files "com.apple.Preview"
  end.

(** What a save that holds a capture leaves: the whole-document file,
    then the files of every captured image in turn, each image counted
    for itself, and the number of files in the status line. *)
Definition save_batch_post (w : World) (_ : unit) (w' : World) : Prop :=
  let timestamp := strftime_Ymd_HMS (clock (ticks w)) in
  let writes :=
    (document_writes config timestamp (captured_data w)
     ++ flat_map (page_writes config timestamp)
          (enumerate (captured_images w)))%list in
  captured_data w' = captured_data w /\
  captured_images w' = captured_images w /\
  disk w' = (disk w ++ writes)%list /\
  (forall i image,
      nth_error (captured_images w) i = Some image ->
      incl (page_writes config timestamp (i, image)) (disk w')) /\
  statusLabel w'
  = if opened_in_preview (map fst writes)
    then "Saved " ++ str_nat (List.length writes)
         ++ " file(s) - Opened in Preview"
    else "Saved " ++ str_nat (List.length writes) ++ " file(s)".

(** What a convert leaves: when the captured bytes parse, the file of
    every page index in turn, each index counted for itself, and the
    number of files in the status line; otherwise no file and the reason
    in the status line. *)
Definition convert_batch_post (w : World) (_ : unit) (w' : World) : Prop :=
  captured_data w' = captured_data w /\
  captured_images w' = captured_images w /\
  match captured_data w with
  | Some ((_ :: _) as captured) =>
      match PDFDocument_initWithData_ captured with
      | Some pdf_doc =>
          let timestamp := strftime_Ymd_HMS (clock (ticks w)) in
          let writes :=
            flat_map (convert_page_writes config pdf_doc timestamp)
              (seq 0 (pageCount pdf_doc)) in
          disk w' = (disk w ++ writes)%list /\
          (forall i,
              i < pageCount pdf_doc ->
              incl (convert_page_writes config pdf_doc timestamp i)
                (disk w')) /\
          statusLabel w'
          = match writes with
            | [] => "Error: No pages could be converted"
            | _ :: _ =>
                if opened_in_preview (map fst writes)
                then "Saved " ++ str_nat (List.length writes)
                     ++ " file(s) - Opened in Preview"
                else "Successfully converted "
                     ++ str_nat (List.length writes) ++ " page(s) to PNG"
            end
      | None =>
          disk w' = disk w /\ statusLabel w' = "Error: Could not process PDF"
      end
  | _ =>
      disk w' = disk w /\
      statusLabel w' = "No PDF data available for conversion"
  end.

End MoreContracts.

(** ** The console

    The log records that the level set by [setup_logging] lets through. *)

Section Console.

Context {cocoa : Cocoa}.
Variable config : Config.

(** The records of the log that reach the console. *)
Definition console (config : Config) (w : World) : list (Level * string) :=
  filter (emitted config) (log w).

(** A world that keeps only the console. *)
Definition only_console (config : Config) (w : World) : World :=
  set_log (console config w) init_World.

(** The error a batch logs when Preview does not open its files. *)
Definition preview_failure (files : list string) : list (Level * string) :=
  match files with
  | [] => []
  | _ :: _ =>
      if open_in_preview config
         && negb (openURLs_succeeds files "com.apple.Preview")
      then [(ERROR, "Failed to open files in Preview")]
      else []
  end.

Definition save_console_post (w : World) (_ : unit) (w' : World) : Prop :=
  console config w'
  = (console config w
     ++ (if holds_capture w then
           preview_failure
             (map fst
                (save_writes config (strftime_Ymd_HMS (clock (ticks w))) w))
         else []))%list.

Definition convert_console_post (w : World) (_ : unit) (w' : World) : Prop :=
  console config w'
  = (console config w
     ++ match captured_data w with
        | Some ((_ :: _) as captured) =>
            match PDFDocument_initWithData_ captured with
            | Some pdf_doc =>
                match
                  map fst
                    (convert_writes config pdf_doc
                       (strftime_Ymd_HMS (clock (ticks w))))
                with
                | [] => [(ERROR, "Failed to convert any PDF pages to PNG")]
                | files => preview_failure files
                end
            | None => [(ERROR, "Failed to create PDF document for conversion")]
            end
        | _ => []
        end)%list.

End Console.

(** ** More examples *)

Module Examples.

(** A pasteboard that offers nothing. *)
Definition empty_pasteboard : NSPasteboard :=
  mk_NSPasteboard [] (fun _ => None).

(** The session after a one-page document has been scanned. *)
Definition after_scan : World :=
  final_world
    (readSelectionFromPasteboard_ (cocoa := Demo.platform) Demo.config
       Demo.offers_everything init_World).

(** [--quiet --format png --output-dir /out] *)
Definition quiet_config : Config :=
  mk_Config "/out" "scanned_document" [PNG] false true 1.5%float
    0x1.e666666666666p-1%float false false.

End Examples.
(** * Lemmas *)

Lemma wp_ret {A : Type} (a : A) w (Q : A -> World -> Prop) :
  Q a w -> wp (ret a) w Q.
Proof. exact (fun H => H). Qed.

Lemma wp_bind {A B : Type} (m : M A) (k : A -> M B) w Q :
  wp m w (fun a w' => wp (k a) w' Q) -> wp (bind m k) w Q.
Proof.
  unfold wp, bind. destruct (m w) as [a w'|e w']; auto.
Qed.

Lemma wp_mono {A : Type} (m : M A) w (P Q : A -> World -> Prop) :
  wp m w P -> (forall a w', P a w' -> Q a w') -> wp m w Q.
Proof.
  unfold wp. destruct (m w); auto.
Qed.

Lemma wp_returns {A : Type} (m : M A) w Q :
  wp m w Q -> exists a w', m w = Returns a w' /\ Q a w'.
Proof.
  unfold wp. destruct (m w) as [a w'|e w']; [eauto | contradiction].
Qed.

Lemma wp_of_returns {A : Type} (m : M A) w a w' (Q : A -> World -> Prop) :
  m w = Returns a w' -> Q a w' -> wp m w Q.
Proof. unfold wp. intros ->. auto. Qed.

Lemma wp_modify (f : World -> World) w (Q : unit -> World -> Prop) :
  Q tt (f w) -> wp (modify f) w Q.
Proof. exact (fun H => H). Qed.

Lemma wp_when (b : bool) (m : M unit) w (Q : unit -> World -> Prop) :
  (b = true -> wp m w Q) -> (b = false -> Q tt w) -> wp (when b m) w Q.
Proof. destruct b; intros H1 H2; [apply H1 | apply H2]; reflexivity. Qed.

(** The loop rule: an invariant over the elements already visited. *)
Lemma wp_for_in {A S : Type} (body : A -> S -> M S)
  (I : list A -> S -> World -> Prop) :
  forall xs s w,
    I [] s w ->
    (forall done x rest s w,
        xs = (done ++ x :: rest)%list -> I done s w ->
        wp (body x s) w (I (done ++ [x])%list)) ->
    wp (for_in xs body s) w (I xs).
Proof.
  intros xs. revert I.
  induction xs as [|x rest IH]; intros I s w H0 Hstep.
  - exact H0.
  - simpl. apply wp_bind.
    apply wp_mono with (P := I [x]).
    + apply (Hstep [] x rest s w eq_refl H0).
    + intros s' w' Hx.
      apply (IH (fun done => I (x :: done))); [exact Hx|].
      intros done y rest' s0 w0 -> Hd.
      apply (Hstep (x :: done) y rest' s0 w0 eq_refl Hd).
Qed.

Lemma wp_the_world w (Q : World -> World -> Prop) :
  Q w w -> wp the_world w Q.
Proof. exact (fun H => H). Qed.

Lemma wp_logging lvl msg w (Q : unit -> World -> Prop) :
  Q tt (set_log (log w ++ [(lvl, msg)])%list w) -> wp (logging lvl msg) w Q.
Proof. exact (fun H => H). Qed.

Lemma wp_print line w (Q : unit -> World -> Prop) :
  Q tt (set_stdout (stdout w ++ [line])%list w) -> wp (print line) w Q.
Proof. exact (fun H => H). Qed.

Lemma wp_statusLabel s w (Q : unit -> World -> Prop) :
  Q tt (set_statusLabel s w) -> wp (statusLabel_setStringValue_ s) w Q.
Proof. exact (fun H => H). Qed.

Ltac wp_step :=
  cbv beta;
  lazymatch goal with
  | |- wp (bind _ _) _ _ => apply wp_bind
  | |- wp the_world _ _ => apply wp_the_world
  | |- wp (logging _ _) _ _ => apply wp_logging
  | |- wp (print _) _ _ => apply wp_print
  | |- wp (statusLabel_setStringValue_ _) _ _ => apply wp_statusLabel
  | |- wp (modify _) _ _ => apply wp_modify
  | |- wp (ret _) _ _ => apply wp_ret
  end.

Ltac wp_steps := repeat wp_step; cbv beta.

(** ** Formatting *)

Lemma length_append (s t : string) :
  String.length (s ++ t) = String.length s + String.length t.
Proof.
  induction s as [|c s IH]; simpl; [reflexivity | rewrite IH; reflexivity].
Qed.

Lemma length_zeros k : String.length (zeros k) = k.
Proof.
  induction k as [|k IH]; simpl; [reflexivity | rewrite IH; reflexivity].
Qed.

Lemma format_0d_length width n : width <= String.length (format_0d width n).
Proof.
  unfold format_0d, zfill. rewrite length_append, length_zeros. lia.
Qed.

Lemma parse_zeros k s :
  parse_nat (zeros k ++ s) = parse_nat s.
Proof.
  induction k as [|k IH]; [reflexivity|].
  unfold parse_nat in *. simpl.
  destruct (NilEmpty.uint_of_string (zeros k ++ s)) as [d|];
    destruct (NilEmpty.uint_of_string s) as [d'|];
    simpl in *; try discriminate; auto.
Qed.

Lemma parse_str_nat n : parse_nat (str_nat n) = Some n.
Proof.
  unfold parse_nat, str_nat.
  destruct (Nat.to_uint n) as [| | | | | | | | | |] eqn:Hn;
    try (rewrite <- Hn;
         replace (NilZero.string_of_uint (Nat.to_uint n))
           with (NilEmpty.string_of_uint (Nat.to_uint n))
           by (rewrite Hn; reflexivity);
         rewrite NilEmpty.usu; simpl; rewrite DecimalNat.Unsigned.of_to;
         reflexivity).
  simpl. f_equal.
  rewrite <- (DecimalNat.Unsigned.of_to n), Hn. reflexivity.
Qed.

Lemma parse_format_0d width n : parse_nat (format_0d width n) = Some n.
Proof.
  unfold format_0d, zfill. rewrite parse_zeros. apply parse_str_nat.
Qed.

Lemma format_0d_inj width n m :
  format_0d width n = format_0d width m -> n = m.
Proof.
  intros H. assert (E : Some n = Some m)
    by (rewrite <- (parse_format_0d width n), H; apply parse_format_0d).
  congruence.
Qed.

(** ** Lists *)

Lemma in_enumerate_from {A : Type} (xs : list A) :
  forall start i x,
    In (i, x) (combine (seq start (List.length xs)) xs) <->
    start <= i /\ nth_error xs (i - start) = Some x.
Proof.
  induction xs as [|y ys IH]; intros start i x; simpl.
  - split; [intros [] | intros [_ H]]. destruct (i - start); discriminate.
  - rewrite IH. split.
    + intros [[= <- <-] | [Hle Hn]].
      * rewrite Nat.sub_diag. split; [lia | reflexivity].
      * split; [lia|].
        replace (i - start) with (S (i - S start)) by lia. exact Hn.
    + intros [Hle Hn].
      destruct (i - start) as [|k] eqn:Hk.
      * left. injection Hn as <-. f_equal. lia.
      * right. split; [lia|].
        replace (i - S start) with k by lia. exact Hn.
Qed.

Lemma in_enumerate {A : Type} (xs : list A) i x :
  In (i, x) (enumerate xs) <-> nth_error xs i = Some x.
Proof.
  unfold enumerate. rewrite in_enumerate_from, Nat.sub_0_r.
  split; [intros [_ H]; exact H | intros H; split; [lia | exact H]].
Qed.

(** ** The representation selector *)

Lemma best_rep_loop_keeps reps best_rep max_pixels :
  (forall x, In x reps -> isBitmapImageRep x = true -> (area x <= max_pixels)%Z) ->
  best_rep_loop reps best_rep max_pixels = best_rep.
Proof.
  induction reps as [|x rest IH]; intros Hle; simpl; [reflexivity|].
  destruct (isBitmapImageRep x) eqn:Hb.
  - assert (Hx : (area x <= max_pixels)%Z) by (apply Hle; simpl; auto).
    unfold area in Hx.
    destruct (Z.gtb_spec (pixelsWide x * pixelsHigh x) max_pixels); [lia|].
    apply IH. intros y Hy. apply Hle. simpl; auto.
  - apply IH. intros y Hy. apply Hle. simpl; auto.
Qed.

Lemma best_rep_loop_below pre bound :
  (forall x, In x pre -> isBitmapImageRep x = true -> (area x < bound)%Z) ->
  forall best_rep max_pixels, (max_pixels < bound)%Z ->
  exists best_rep' max_pixels',
    (max_pixels' < bound)%Z /\
    forall rest,
      best_rep_loop (pre ++ rest) best_rep max_pixels
      = best_rep_loop rest best_rep' max_pixels'.
Proof.
  induction pre as [|x pre IH]; intros Hlt best_rep max_pixels Hm.
  - exists best_rep, max_pixels. split; [assumption | reflexivity].
  - assert (Hpre : forall y, In y pre -> isBitmapImageRep y = true ->
                             (area y < bound)%Z)
      by (intros y Hy; apply Hlt; simpl; auto).
    simpl. destruct (isBitmapImageRep x) eqn:Hb.
    + assert (Hx : (area x < bound)%Z) by (apply Hlt; simpl; auto).
      unfold area in Hx.
      destruct (Z.gtb_spec (pixelsWide x * pixelsHigh x) max_pixels).
      * apply (IH Hpre (Some x) _ Hx).
      * apply (IH Hpre best_rep _ Hm).
    + apply (IH Hpre best_rep _ Hm).
Qed.

Lemma best_rep_loop_some reps :
  forall best_rep max_pixels r,
    best_rep_loop reps best_rep max_pixels = Some r ->
    (best_rep = Some r /\
     forall x, In x reps -> isBitmapImageRep x = true ->
               (area x <= max_pixels)%Z)
    \/ (first_largest_raster reps r /\ (max_pixels < area r)%Z).
Proof.
  induction reps as [|x rest IH]; intros best_rep max_pixels r H; simpl in H.
  - left. split; [assumption | intros y []].
  - destruct (isBitmapImageRep x) eqn:Hb.
    + destruct (Z.gtb_spec (pixelsWide x * pixelsHigh x) max_pixels) as [Hgt|Hle].
      * destruct (IH _ _ _ H) as [[Heq Hall] | [(pre & post & -> & Hr & Hpre & Hpost) Hm]].
        -- injection Heq as <-. right. split.
           ++ exists [], rest. repeat split; auto.
              intros y [].
           ++ exact Hgt.
        -- right. split.
           ++ exists (x :: pre), post. repeat split; auto.
              intros y [<-|Hy] Hy'; [exact Hm | auto].
           ++ unfold area in *. lia.
      * destruct (IH _ _ _ H) as [[Heq Hall] | [(pre & post & -> & Hr & Hpre & Hpost) Hm]].
        -- left. split; [assumption|].
           intros y [<-|Hy] Hy'; [exact Hle | auto].
        -- right. split; [|exact Hm].
           exists (x :: pre), post. repeat split; auto.
           intros y [<-|Hy] Hy'; [unfold area in *; lia | auto].
    + destruct (IH _ _ _ H) as [[Heq Hall] | [(pre & post & -> & Hr & Hpre & Hpost) Hm]].
      * left. split; [assumption|].
        intros y [<-|Hy] Hy'; [congruence | auto].
      * right. split; [|exact Hm].
        exists (x :: pre), post. repeat split; auto.
        intros y [<-|Hy] Hy'; [congruence | auto].
Qed.

Lemma best_rep_loop_found reps :
  forall b max_pixels, best_rep_loop reps (Some b) max_pixels <> None.
Proof.
  induction reps as [|x rest IH]; intros b max_pixels; simpl; [discriminate|].
  destruct (isBitmapImageRep x); [|apply IH].
  destruct (pixelsWide x * pixelsHigh x >? max_pixels)%Z; apply IH.
Qed.

Lemma best_rep_loop_none reps :
  forall max_pixels,
    best_rep_loop reps None max_pixels = None ->
    forall x, In x reps -> isBitmapImageRep x = true ->
              (area x <= max_pixels)%Z.
Proof.
  induction reps as [|x rest IH]; intros max_pixels H y Hy Hb; [destruct Hy|].
  simpl in H.
  destruct (isBitmapImageRep x) eqn:Hx.
  - destruct (Z.gtb_spec (pixelsWide x * pixelsHigh x) max_pixels) as [Hgt|Hle].
    + exfalso. exact (best_rep_loop_found _ _ _ H).
    + destruct Hy as [<-|Hy]; [exact Hle | eauto].
  - destruct Hy as [<-|Hy]; [congruence | eauto].
Qed.

Lemma first_largest_raster_selected reps r :
  first_largest_raster reps r -> (0 < area r)%Z ->
  best_rep_loop reps None 0%Z = Some r.
Proof.
  intros (pre & post & -> & Hr & Hpre & Hpost) Hpos.
  destruct (best_rep_loop_below pre (area r) Hpre None 0%Z Hpos)
    as (b' & m' & Hm' & Heq).
  rewrite Heq. simpl. rewrite Hr.
  unfold area in Hm'.
  destruct (Z.gtb_spec (pixelsWide r * pixelsHigh r) m'); [|lia].
  apply best_rep_loop_keeps. exact Hpost.
Qed.

(** ** The operations meet their contracts *)

Ltac wsimpl :=
  cbn [captured_data captured_images statusLabel saveButton_enabled
       convertToPngButton_enabled imageView textView disk log stdout fetched
       opened ticks set_captured_data set_captured_images set_statusLabel
       set_saveButton_enabled set_convertToPngButton_enabled set_imageView
       set_textView set_disk set_log set_stdout set_fetched set_opened
       set_ticks] in *.

Ltac destruct_platform :=
  repeat match goal with
    | |- context [_getBestImageRep ?x] =>
        destruct (_getBestImageRep x) as [?best_rep|]
    | |- context [TIFFRepresentation ?x] =>
        destruct (TIFFRepresentation x) as [[|? ?]|]
    | |- context [imageRepWithData_ ?x] =>
        destruct (imageRepWithData_ x) as [?best_rep|]
    | |- context [representationUsingType_properties_ ?r ?t ?p] =>
        destruct (representationUsingType_properties_ r t p) as [[|? ?]|]
    | |- context [write_succeeds ?d ?p] => destruct (write_succeeds d p)
    end.

Section Specs.

Context {cocoa : Cocoa}.
Variable config : Config.

Lemma wrote_nil w files : wrote w files [] files w.
Proof.
  unfold wrote. simpl. rewrite !app_nil_r. auto.
Qed.

Lemma wrote_trans w files ws1 files1 w1 ws2 files2 w2 :
  wrote w files ws1 files1 w1 -> wrote w1 files1 ws2 files2 w2 ->
  wrote w files (ws1 ++ ws2) files2 w2.
Proof.
  unfold wrote. intros (-> & Hd1 & Hc1 & Hi1) (-> & Hd2 & Hc2 & Hi2).
  rewrite Hd2, Hd1, Hc2, Hc1, Hi2, Hi1, map_app, !app_assoc. auto.
Qed.

Lemma save_page_format_spec timestamp page_num best_rep fmt files w :
  wp (save_page_format config timestamp page_num best_rep fmt files) w
     (wrote w files (format_writes config timestamp page_num best_rep fmt)).
Proof.
  unfold save_page_format, format_writes, page_filename_of, _saveImageRep,
    writeToFile_atomically_, wp, bind.
  destruct fmt; simpl; try apply wrote_nil;
    match goal with
    | |- context [representationUsingType_properties_ ?r ?t ?p] =>
        destruct (representationUsingType_properties_ r t p) as [[|b data]|]
    end; simpl; try apply wrote_nil;
    match goal with
    | |- context [write_succeeds ?d ?p] => destruct (write_succeeds d p)
    end; simpl; try apply wrote_nil;
    unfold wrote; simpl; auto.
Qed.

Lemma save_page_spec timestamp entry files w :
  wp (save_page config timestamp entry files) w
     (wrote w files (page_writes config timestamp entry)).
Proof.
  destruct entry as [i image]. unfold save_page, page_writes. simpl fst; simpl snd.
  destruct (_getBestImageRep (Some image)) as [best_rep|];
    [|apply wp_ret, wrote_nil].
  apply wp_mono with
    (P := (fun fs w' =>
             wrote w files
               (flat_map (format_writes config timestamp (i + 1) best_rep)
                  (output_formats config)) fs w')); [|auto].
  apply (wp_for_in _
           (fun done fs w' =>
              wrote w files
                (flat_map (format_writes config timestamp (i + 1) best_rep) done)
                fs w')).
  - apply wrote_nil.
  - intros done fmt rest fs w1 _ Hdone.
    eapply wp_mono; [apply save_page_format_spec|].
    intros fs' w2 Hstep. rewrite flat_map_app. simpl. rewrite app_nil_r.
    eapply wrote_trans; eassumption.
Qed.

Lemma save_pages_spec timestamp entries files w :
  wp (for_in entries (save_page config timestamp) files) w
     (wrote w files (flat_map (page_writes config timestamp) entries)).
Proof.
  apply (wp_for_in _
           (fun done fs w' =>
              wrote w files (flat_map (page_writes config timestamp) done) fs w')).
  - apply wrote_nil.
  - intros done entry rest fs w1 _ Hdone.
    eapply wp_mono; [apply save_page_spec|].
    intros fs' w2 Hstep. rewrite flat_map_app. simpl. rewrite app_nil_r.
    eapply wrote_trans; eassumption.
Qed.

Lemma kept_refl w : kept w w.
Proof. unfold kept; auto. Qed.

Lemma print_lines_spec (lines : list string) w :
  wp (for_in lines (fun f _ => print ("  - " ++ f)) tt) w
     (fun _ w' => kept w w' /\ statusLabel w' = statusLabel w).
Proof.
  apply wp_mono with
    (P := fun (_ : unit) w' => kept w w' /\ statusLabel w' = statusLabel w);
    [|auto].
  apply (wp_for_in _ (fun _ (_ : unit) w' =>
                        kept w w' /\ statusLabel w' = statusLabel w)).
  - split; [apply kept_refl | reflexivity].
  - intros done x rest [] w1 _ Hk. apply wp_print. exact Hk.
Qed.

Lemma openInPreview_spec file_paths w :
  wp (_openInPreview file_paths) w
     (fun _ w' =>
        kept w w' /\
        (statusLabel w' = statusLabel w \/
         exists paths,
           file_paths = Some paths /\
           statusLabel w'
           = "Saved " ++ str_nat (List.length paths)
             ++ " file(s) - Opened in Preview")).
Proof.
  unfold _openInPreview.
  destruct file_paths as [[|p ps]|];
    try (apply wp_ret; split; [apply kept_refl | left; reflexivity]).
  unfold wp, bind, openURLs_withAppBundleIdentifier_. simpl.
  destruct (openURLs_succeeds (p :: ps) "com.apple.Preview"); simpl.
  - split; [unfold kept; simpl; auto | right; eauto].
  - split; [unfold kept; simpl; auto | left; reflexivity].
Qed.

Lemma save_document_spec timestamp w :
  wp (save_document config timestamp) w
     (wrote w [] (document_writes config timestamp (captured_data w))).
Proof.
  unfold save_document, document_writes, pdf_filename_of, wp, bind,
    writeToFile_atomically_.
  simpl.
  destruct (captured_data w) as [[|b data]|] eqn:Hc; try apply wrote_nil.
  destruct (existsb (OutputFormat_eqb PDF) (output_formats config));
    try apply wrote_nil.
  match goal with
  | |- context [write_succeeds ?d ?p] => destruct (write_succeeds d p)
  end; simpl; try apply wrote_nil.
  unfold wrote; simpl; auto.
Qed.

Lemma save_rest_spec w0 w (files_saved : list string) :
  kept w0 w ->
  wp (statusLabel_setStringValue_
        ("Saved " ++ str_nat (List.length files_saved) ++ " file(s)") ;;
      logging INFO
        ("Save complete: " ++ str_nat (List.length files_saved) ++ " files") ;;
      when (verbose config && negb (quiet config))
        (print (nl ++ "Saved files:") ;;
         for_in files_saved (fun f _ => print ("  - " ++ f)) tt) ;;
      match files_saved with
      | _ :: _ =>
          when (open_in_preview config) (_openInPreview (Some files_saved))
      | [] => ret tt
      end)%scanner w
     (fun _ w' =>
        kept w0 w' /\
        (statusLabel w'
         = "Saved " ++ str_nat (List.length files_saved) ++ " file(s)" \/
         statusLabel w'
         = "Saved " ++ str_nat (List.length files_saved)
           ++ " file(s) - Opened in Preview")).
Proof.
  intros Hk.
  wp_step. wp_step. wp_step. wp_step. wp_step.
  set (w1 := set_log _ _).
  assert (H1 : kept w0 w1 /\
               statusLabel w1
               = "Saved " ++ str_nat (List.length files_saved) ++ " file(s)")
    by (split; [exact Hk | reflexivity]).
  clearbody w1.
  apply wp_mono with
    (P := fun (_ : unit) w2 =>
            kept w0 w2 /\
            statusLabel w2
            = "Saved " ++ str_nat (List.length files_saved) ++ " file(s)").
  - apply wp_when; intros _; [|exact H1].
    wp_step. wp_step.
    eapply wp_mono; [apply print_lines_spec|].
    intros _ w2 [(Hd & Hi & Hdisk) Hs]. simpl in *.
    destruct H1 as [(Hd1 & Hi1 & Hdisk1) Hs1].
    unfold kept. rewrite Hd, Hi, Hdisk, Hs. auto.
  - intros _ w2 [Hk2 Hs2].
    destruct files_saved as [|f fs]; [apply wp_ret; auto|].
    apply wp_when; intros _; [|auto].
    eapply wp_mono; [apply openInPreview_spec|].
    intros _ w3 [(Hd & Hi & Hdisk) Hs].
    destruct Hk2 as (Hd2 & Hi2 & Hdisk2).
    split; [unfold kept; rewrite Hd, Hi, Hdisk; auto|].
    destruct Hs as [Hs | (paths & [= <-] & Hs)];
      [left; congruence | right; exact Hs].
Qed.

Lemma wp_datetime_now w (Q : datetime -> World -> Prop) :
  Q (clock (ticks w)) (set_ticks (S (ticks w)) w) -> wp datetime_now w Q.
Proof. exact (fun H => H). Qed.

Lemma saveAllDocuments_spec w :
  wp (saveAllDocuments_ config) w (save_post config w).
Proof.
  unfold saveAllDocuments_. wp_step. wp_step.
  assert (Hh : holds_capture w
               = match captured_images w, truthy (captured_data w) with
                 | [], false => false
                 | _, _ => true
                 end)
    by (unfold holds_capture; destruct (captured_images w); [destruct (truthy _)|]; reflexivity).
  unfold save_post. rewrite Hh. clear Hh.
  destruct (captured_images w) as [|image images] eqn:Hi;
    destruct (truthy (captured_data w)) eqn:Ht.
  2: { wp_step. simpl. auto. }
  all: rewrite <- Hi; clear Hi Ht.
  all: wp_step; wp_step; wp_step; apply wp_datetime_now; wp_step.
  all: eapply wp_mono; [apply save_document_spec|].
  all: intros files1 w1 (Hf1 & Hd1 & Hc1 & Hi1); simpl in Hf1, Hd1, Hc1, Hi1.
  all: wp_step; wp_step; wp_step.
  all: eapply wp_mono; [apply save_pages_spec|].
  all: intros files2 w2 (Hf2 & Hd2 & Hc2 & Hi2).
  all: eapply wp_mono; [apply (save_rest_spec w2), kept_refl|].
  all: intros u w3 [(Hd3 & Hi3 & Hdisk3) Hs3].
  all: unfold save_writes; cbv zeta.
  all: rewrite Hf2, Hf1, Hi1 in Hs3; simpl in Hs3.
  all: rewrite <- map_app, length_map in Hs3.
  all: rewrite Hd3, Hi3, Hdisk3, Hd2, Hi2, Hc2, Hc1, Hi1, Hd1, <- app_assoc.
  all: simpl ticks.
  all: repeat split; auto.
Qed.

Lemma convert_page_spec pdf_doc timestamp i files w :
  wp (convert_page config pdf_doc timestamp i files) w
     (wrote w files (convert_page_writes config pdf_doc timestamp i)).
Proof.
  unfold convert_page, convert_page_writes, convert_rep, page_filename_of,
    wp, bind, writeToFile_atomically_.
  destruct (pageAtIndex_ pdf_doc i) as [page|]; [|apply wrote_nil].
  cbv zeta. cbn [append].
  destruct_platform; simpl; try apply wrote_nil; unfold wrote; simpl; auto.
Qed.

Lemma convert_pages_spec pdf_doc timestamp indices files w :
  wp (for_in indices (convert_page config pdf_doc timestamp) files) w
     (wrote w files
        (flat_map (convert_page_writes config pdf_doc timestamp) indices)).
Proof.
  apply (wp_for_in _
           (fun done fs w' =>
              wrote w files
                (flat_map (convert_page_writes config pdf_doc timestamp) done)
                fs w')).
  - apply wrote_nil.
  - intros done entry rest fs w1 _ Hdone.
    eapply wp_mono; [apply convert_page_spec|].
    intros fs' w2 Hstep. rewrite flat_map_app. simpl. rewrite app_nil_r.
    eapply wrote_trans; eassumption.
Qed.

Lemma convertPdfToPng_spec w :
  wp (convertPdfToPng_ config) w (convert_post config w).
Proof.
  unfold convertPdfToPng_, convert_post. wp_step. wp_step.
  destruct (captured_data w) as [[|b captured]|] eqn:Hc;
    try solve [wp_steps; simpl; auto].
  destruct (PDFDocument_initWithData_ (b :: captured)) as [pdf_doc|];
    [|solve [wp_steps; simpl; auto]].
  wp_steps. apply wp_datetime_now. wp_steps.
  eapply wp_mono; [apply convert_pages_spec|].
  intros files1 w1 (Hf1 & Hd1 & Hc1 & Hi1). simpl in Hf1, Hd1, Hc1, Hi1.
  unfold convert_writes. cbv zeta.
  destruct (flat_map _ (seq 0 (pageCount pdf_doc))) as [|wr writes] eqn:Hw.
  - assert (Hf : files1 = []) by (rewrite Hf1; reflexivity).
    rewrite Hf. wp_steps.
    cbn [captured_data captured_images disk statusLabel set_log set_statusLabel].
    rewrite Hd1, Hc1, Hi1, app_nil_r. auto.
  - assert (Hf : files1 = fst wr :: map fst writes)
      by (rewrite Hf1; reflexivity).
    rewrite Hf. clear Hf Hf1 files1.
    wp_steps.
    set (w2 := set_log _ _).
    assert (H2 : kept w1 w2 /\
                 statusLabel w2
                 = "Successfully converted "
                   ++ str_nat (List.length (wr :: writes)) ++ " page(s) to PNG")
      by (split; [unfold kept; simpl; auto
                 | simpl; rewrite length_map; reflexivity]).
    clearbody w2.
    apply wp_mono with
      (P := fun (_ : unit) w3 =>
              kept w1 w3 /\
              statusLabel w3
              = "Successfully converted "
                ++ str_nat (List.length (wr :: writes)) ++ " page(s) to PNG").
    + apply wp_when; intros _; [|exact H2].
      wp_step. wp_step.
      eapply wp_mono; [apply print_lines_spec|].
      intros _ w3 [(Hd & Hi & Hdisk) Hs]. simpl in *.
      destruct H2 as [(Hd2 & Hi2 & Hdisk2) Hs2].
      unfold kept. rewrite Hd, Hi, Hdisk, Hs. auto.
    + intros _ w3 [(Hd3 & Hi3 & Hdisk3) Hs3].
      apply wp_when; intros _.
      * eapply wp_mono; [apply openInPreview_spec|].
        intros _ w4 [(Hd4 & Hi4 & Hdisk4) Hs4].
        rewrite Hd4, Hi4, Hdisk4, Hd3, Hi3, Hdisk3, Hd1, Hc1, Hi1.
        repeat split; auto.
        destruct Hs4 as [Hs4 | (paths & [= <-] & Hs4)].
        -- left. congruence.
        -- right. rewrite Hs4. simpl. rewrite length_map. reflexivity.
      * rewrite Hd3, Hi3, Hdisk3, Hd1, Hc1, Hi1. repeat split; auto.
Qed.

Lemma probe_pdf_types_spec pasteboard aliases :
  forall pdf_data debug_info w,
    wp (probe_pdf_types pasteboard aliases pdf_data debug_info) w
       (probe_post pasteboard aliases pdf_data w).
Proof.
  induction aliases as [|a rest IH]; intros pdf_data debug_info w.
  - apply wp_ret. unfold probe_post. simpl. rewrite app_nil_r. repeat split; auto.
  - simpl. destruct (contains (types pasteboard) a) eqn:Hin.
    + unfold wp, bind, dataForType_.
      destruct (bytesForType pasteboard a) as [[|b bytes]|] eqn:Hb; simpl.
      * specialize (IH (Some []) debug_info
                      (set_fetched (fetched w ++ [a])%list w)).
        unfold wp in IH.
        destruct (probe_pdf_types _ _ _ _ _) as [r w'|]; [|contradiction].
        destruct IH as (H1 & H2 & H3 & H4 & H5 & H6).
        unfold probe_post. simpl in *. rewrite Hin, Hb. simpl.
        rewrite H2, <- app_assoc. repeat split; auto.
      * unfold probe_post. simpl. rewrite Hin, Hb. simpl. repeat split; auto.
      * specialize (IH None debug_info
                      (set_fetched (fetched w ++ [a])%list w)).
        unfold wp in IH.
        destruct (probe_pdf_types _ _ _ _ _) as [r w'|]; [|contradiction].
        destruct IH as (H1 & H2 & H3 & H4 & H5 & H6).
        unfold probe_post. simpl in *. rewrite Hin, Hb. simpl.
        rewrite H2, <- app_assoc. repeat split; auto.
    + eapply wp_mono; [apply IH|].
      intros r w' (H1 & H2 & H3 & H4 & H5 & H6).
      unfold probe_post. simpl. rewrite Hin. repeat split; auto.
Qed.

Lemma appended_nil w : appended w [] [] w.
Proof. unfold appended. rewrite !app_nil_r. auto. Qed.

Lemma appended_trans w i1 f1 w1 i2 f2 w2 :
  appended w i1 f1 w1 -> appended w1 i2 f2 w2 ->
  appended w (i1 ++ i2) (f1 ++ f2) w2.
Proof.
  unfold appended.
  intros (Ha & Hb & Hc & Hd & He) (Ha' & Hb' & Hc' & Hd' & He').
  rewrite Ha', Hb', Hc', Hd', He', Ha, Hb, Hc, Hd, He, !app_assoc. auto.
Qed.

Lemma capture_page_spec pdf_doc i debug_info w :
  wp (capture_page config pdf_doc i debug_info) w
     (fun _ w' => appended w (rendered_at config pdf_doc i) [] w').
Proof.
  unfold capture_page, rendered_at.
  destruct (pageAtIndex_ pdf_doc i) as [page|];
    [|apply wp_ret, appended_nil].
  wp_steps. unfold appended. simpl. rewrite app_nil_r. auto.
Qed.

Lemma capture_pages_spec pdf_doc indices debug_info w :
  wp (for_in indices (capture_page config pdf_doc) debug_info) w
     (fun _ w' => appended w (flat_map (rendered_at config pdf_doc) indices) [] w').
Proof.
  apply (wp_for_in _
           (fun done (_ : string) w' =>
              appended w (flat_map (rendered_at config pdf_doc) done) [] w')).
  - apply appended_nil.
  - intros done x rest s w1 _ Hdone.
    eapply wp_mono; [apply capture_page_spec|].
    intros s' w2 Hstep. rewrite flat_map_app. simpl. rewrite app_nil_r.
    apply (appended_trans _ _ _ _ _ _ _ Hdone Hstep).
Qed.

Lemma rendered_pages pdf_doc indices :
  flat_map (rendered_at config pdf_doc) indices
  = map (render_page config)
      (flat_map
         (fun i =>
            match pageAtIndex_ pdf_doc i with Some p => [p] | None => [] end)
         indices).
Proof.
  induction indices as [|i rest IH]; simpl; [reflexivity|].
  rewrite map_app, IH. unfold rendered_at.
  destruct (pageAtIndex_ pdf_doc i); reflexivity.
Qed.

Lemma capture_image_spec pasteboard img_type debug_info w :
  wp (capture_image pasteboard img_type debug_info) w
     (fun _ w' =>
        appended w (decode_image pasteboard img_type)
          (fetch_of pasteboard img_type) w').
Proof.
  unfold capture_image, decode_image, fetch_of.
  destruct (contains (types pasteboard) img_type);
    [|apply wp_ret, appended_nil].
  unfold wp, bind, dataForType_.
  destruct (bytesForType pasteboard img_type) as [[|b data]|]; simpl;
    try (unfold appended; simpl; rewrite app_nil_r; auto; fail).
  destruct (NSImage_initWithData_ (b :: data)) as [image|]; simpl;
    try (unfold appended; simpl; rewrite app_nil_r; auto; fail).
  destruct (representations image); simpl; unfold appended; simpl; auto.
Qed.

Lemma capture_image_loop_spec pasteboard img_types debug_info w :
  wp (for_in img_types (capture_image pasteboard) debug_info) w
     (fun _ w' =>
        appended w (flat_map (decode_image pasteboard) img_types)
          (flat_map (fetch_of pasteboard) img_types) w').
Proof.
  apply (wp_for_in _
           (fun done (_ : string) w' =>
              appended w (flat_map (decode_image pasteboard) done)
                (flat_map (fetch_of pasteboard) done) w')).
  - apply appended_nil.
  - intros done x rest s w1 _ Hdone.
    eapply wp_mono; [apply capture_image_spec|].
    intros s' w2 Hstep. rewrite !flat_map_app. simpl. rewrite !app_nil_r.
    apply (appended_trans _ _ _ _ _ _ _ Hdone Hstep).
Qed.

Lemma fetch_of_filter pasteboard img_types :
  flat_map (fetch_of pasteboard) img_types
  = filter (contains (types pasteboard)) img_types.
Proof.
  induction img_types as [|t rest IH]; simpl; [reflexivity|].
  unfold fetch_of at 1. destruct (contains (types pasteboard) t); simpl;
    rewrite IH; reflexivity.
Qed.

Lemma updatePreview_spec image w (Q : unit -> World -> Prop) :
  (forall v, Q tt (set_imageView v w)) -> Q tt w ->
  wp (_updatePreview image) w Q.
Proof.
  intros H1 H2. destruct image; simpl; [apply H1 | apply H2].
Qed.

Lemma capture_document_spec b bytes debug_info w :
  wp (capture_document config (Some (b :: bytes)) (b :: bytes) debug_info) w
     (document_post config (b :: bytes) w).
Proof.
  unfold capture_document, document_post. wp_steps.
  destruct (PDFDocument_initWithData_ (b :: bytes)) as [pdf_doc|].
  - wp_steps.
    eapply wp_mono; [apply capture_pages_spec|].
    intros debug_info' w1 (Hi & Hf & Hd & Hdisk & Ht). wsimpl.
    rewrite app_nil_r in Hf. rewrite rendered_pages in Hi.
    fold (pages_of pdf_doc) in Hi.
    wp_steps.
    destruct (captured_images w1) as [|first others] eqn:Himgs.
    + wp_steps. rewrite Himgs. auto.
    + wp_step. apply updatePreview_spec; [intros v|]; wp_steps; simpl;
        rewrite Himgs; auto.
  - wp_steps. unfold _saveRawPDF, raw_pdf_writes, pdf_filename_of, wp, bind,
      datetime_now, writeToFile_atomically_. simpl.
    match goal with
    | |- context [write_succeeds ?d ?p] => destruct (write_succeeds d p)
    end; simpl; rewrite ?app_nil_r; auto.
Qed.

Lemma capture_images_spec pasteboard debug_info w :
  wp (capture_images pasteboard debug_info) w
     (fun _ w' =>
        appended w (flat_map (decode_image pasteboard) image_types)
          (filter (contains (types pasteboard)) image_types) w').
Proof.
  unfold capture_images. wp_steps.
  eapply wp_mono; [apply capture_image_loop_spec|].
  intros debug_info' w1 (Hi & Hf & Hd & Hdisk & Ht).
  wsimpl. rewrite fetch_of_filter in Hf.
  wp_steps.
  destruct (captured_images w1) as [|first others] eqn:Himgs.
  - wp_steps. unfold appended. rewrite Himgs. auto.
  - wp_step. apply updatePreview_spec; [intros v|]; wp_steps;
      unfold appended; simpl; rewrite Himgs; auto.
Qed.

Lemma readSelectionFromPasteboard_spec pasteboard w :
  wp (readSelectionFromPasteboard_ config pasteboard) w
     (capture_post config pasteboard w).
Proof.
  unfold readSelectionFromPasteboard_. wp_steps.
  eapply wp_mono; [apply probe_pdf_types_spec|].
  intros [pdf_data debug_info] w1 (Hr & Hf & Hd & Hi & Hdisk & Ht).
  wsimpl. cbn [fst] in Hr.
  unfold capture_post. rewrite <- Hr.
  wp_step.
  destruct pdf_data as [[|b bytes]|].
  2: { eapply wp_mono; [apply capture_document_spec|].
       intros debug_info' w2 (Hd2 & Hf2 & Hdoc).
       apply wp_bind, wp_when; intros _; wp_steps; simpl;
         rewrite ?Hd2, ?Hf2, ?Hf;
         (destruct (PDFDocument_initWithData_ (b :: bytes));
          destruct Hdoc as [Hi2 Hdisk2];
          rewrite Hi2, Hdisk2, Hi, Hdisk, ?Ht; repeat split; auto). }
  all: eapply wp_mono; [apply capture_images_spec|].
  all: intros debug_info' w2 (Hi2 & Hf2 & Hd2 & Hdisk2 & Ht2).
  all: apply wp_bind, wp_when; intros _; wp_steps; simpl.
  all: rewrite Hi2, Hf2, Hd2, Hdisk2, Hi, Hf, Hd, Hdisk, <- app_assoc.
  all: repeat split; auto.
Qed.

(** *** What the written files look like *)

Lemma in_format_writes timestamp page_num best_rep fmt path data :
  In (path, data) (format_writes config timestamp page_num best_rep fmt) ->
  fmt <> PDF /\
  path = joinpath (output_dir config)
           (page_filename_of config timestamp page_num (value fmt)) /\
  write_succeeds data path = true.
Proof.
  unfold format_writes.
  destruct (getitem type_map fmt) as [file_type|] eqn:Ht; [|intros []].
  match goal with
  | |- context [representationUsingType_properties_ ?r ?t ?p] =>
      destruct (representationUsingType_properties_ r t p) as [[|b d]|]
  end; try (intros []).
  match goal with
  | |- context [write_succeeds ?d ?p] =>
      destruct (write_succeeds d p) eqn:Hw
  end; [|intros []].
  intros [[= <- <-]|[]]. repeat split; auto.
  intros ->. discriminate.
Qed.

Lemma in_document_writes timestamp captured path data :
  In (path, data) (document_writes config timestamp captured) ->
  path = joinpath (output_dir config) (pdf_filename_of config timestamp) /\
  captured = Some data /\
  In PDF (output_formats config).
Proof.
  unfold document_writes.
  destruct captured as [[|b d]|]; try (intros []).
  destruct (existsb (OutputFormat_eqb PDF) (output_formats config)) eqn:He;
    [|intros []].
  match goal with
  | |- context [write_succeeds ?d ?p] => destruct (write_succeeds d p)
  end; [|intros []].
  intros [[= <- <-]|[]]. repeat split; auto.
  apply existsb_exists in He. destruct He as (f & Hin & Hf).
  destruct f; try discriminate. exact Hin.
Qed.

(** *** The first alias with bytes ends the probe *)

Lemma first_alias_wins pasteboard pre a post b bytes :
  contains (types pasteboard) a = true ->
  bytesForType pasteboard a = Some (b :: bytes) ->
  (forall x, In x pre -> contains (types pasteboard) x = true ->
             truthy (bytesForType pasteboard x) = false) ->
  forall pdf_data,
    first_pdf_data pasteboard (pre ++ a :: post) pdf_data = Some (b :: bytes) /\
    probe_fetches pasteboard (pre ++ a :: post)
    = (filter (contains (types pasteboard)) pre ++ [a])%list.
Proof.
  intros Ha Hb. induction pre as [|x pre IH]; intros Hpre pdf_data; simpl.
  - rewrite Ha, Hb. simpl. auto.
  - assert (Hrest : forall y, In y pre -> contains (types pasteboard) y = true ->
                              truthy (bytesForType pasteboard y) = false)
      by (intros y Hy; apply Hpre; simpl; auto).
    destruct (contains (types pasteboard) x) eqn:Hx.
    + rewrite (Hpre x (or_introl eq_refl) Hx). simpl.
      destruct (IH Hrest (bytesForType pasteboard x)) as [-> ->]. auto.
    + apply (IH Hrest).
Qed.

End Specs.

(** ** Further lemmas *)

Section MoreSpecs.

Context {cocoa : Cocoa}.
Variable config : Config.






Lemma wp_conj {A : Type} (m : M A) w (P Q : A -> World -> Prop) :
  wp m w P -> wp m w Q -> wp m w (fun a w' => P a w' /\ Q a w').
Proof.
  unfold wp. destruct (m w); auto.
Qed.

Lemma save_page_format_silent timestamp page_num best_rep fmt files w :
  wp (save_page_format config timestamp page_num best_rep fmt files) w
     (fun _ w' => forget_files w' = forget_files w).
Proof.
  unfold save_page_format, _saveImageRep, writeToFile_atomically_, wp, bind.
  destruct fmt; simpl; try reflexivity;
    destruct_platform; reflexivity.
Qed.

Lemma for_in_silent {A S : Type} (body : A -> S -> M S) xs s w :
  (forall x s w, wp (body x s) w (fun _ w' => forget_files w' = forget_files w)) ->
  wp (for_in xs body s) w (fun _ w' => forget_files w' = forget_files w).
Proof.
  intros Hbody.
  apply (wp_for_in body (fun _ _ w' => forget_files w' = forget_files w)).
  - reflexivity.
  - intros done x rest s1 w1 _ H1.
    eapply wp_mono; [apply Hbody|].
    intros s2 w2 H2. cbv beta in H2. congruence.
Qed.

Lemma save_page_silent timestamp entry files w :
  wp (save_page config timestamp entry files) w
     (fun _ w' => forget_files w' = forget_files w).
Proof.
  destruct entry as [i image]. unfold save_page.
  destruct (_getBestImageRep (Some image)); [|reflexivity].
  apply for_in_silent. intros. apply save_page_format_silent.
Qed.

Lemma save_document_silent timestamp w :
  wp (save_document config timestamp) w
     (fun _ w' => forget_files w' = forget_files w).
Proof.
  unfold save_document, wp, bind, writeToFile_atomically_. simpl.
  destruct (captured_data w) as [[|b data]|]; try reflexivity.
  destruct (existsb _ _); try reflexivity.
  destruct_platform; reflexivity.
Qed.

Lemma print_lines_exact (lines : list string) w :
  wp (for_in lines (fun f _ => print ("  - " ++ f)) tt) w
     (fun _ w' =>
        stdout w' = (stdout w ++ map (fun f => ("  - " ++ f)%string) lines)%list /\
        set_stdout [] w' = set_stdout [] w).
Proof.
  apply wp_mono with
    (P := fun (_ : unit) w' =>
            stdout w' = (stdout w ++ map (fun f => ("  - " ++ f)%string) lines)%list /\
            set_stdout [] w' = set_stdout [] w); [|auto].
  apply (wp_for_in _
           (fun done (_ : unit) w' =>
              stdout w' = (stdout w ++ map (fun f => ("  - " ++ f)%string) done)%list /\
              set_stdout [] w' = set_stdout [] w)).
  - simpl. rewrite app_nil_r. auto.
  - intros done x rest [] w1 _ [Hs Hf]. apply wp_print. split.
    + simpl. rewrite Hs, map_app, app_assoc. reflexivity.
    + rewrite <- Hf. reflexivity.
Qed.

Lemma openInPreview_exact files w :
  wp (when (open_in_preview config) (_openInPreview (Some files))) w
     (fun _ w' =>
        opened w' = (opened w ++ preview_launch config files)%list /\
        set_opened [] (forget_files w') = set_opened [] (forget_files w)).
Proof.
  unfold preview_launch, _openInPreview.
  destruct files as [|f fs]; destruct (open_in_preview config); simpl;
    try (unfold wp; simpl; rewrite app_nil_r; auto; fail).
  unfold wp, bind, openURLs_withAppBundleIdentifier_. simpl.
  destruct (openURLs_succeeds (f :: fs) "com.apple.Preview"); simpl;
    rewrite ?app_nil_r; auto.
Qed.

Lemma save_rest_effects w (files_saved : list string) :
  wp (statusLabel_setStringValue_
        ("Saved " ++ str_nat (List.length files_saved) ++ " file(s)") ;;
      logging INFO
        ("Save complete: " ++ str_nat (List.length files_saved) ++ " files") ;;
      when (verbose config && negb (quiet config))
        (print (nl ++ "Saved files:") ;;
         for_in files_saved (fun f _ => print ("  - " ++ f)) tt) ;;
      match files_saved with
      | _ :: _ =>
          when (open_in_preview config) (_openInPreview (Some files_saved))
      | [] => ret tt
      end)%scanner w
     (fun _ w' =>
        stdout w'
        = (stdout w ++ printed_files config (nl ++ "Saved files:") files_saved)%list /\
        opened w' = (opened w ++ preview_launch config files_saved)%list /\
        ticks w' = ticks w /\
        forget_effects w' = forget_effects w).
Proof.
  wp_step. wp_step. wp_step. wp_step. wp_step.
  set (w1 := set_log _ _).
  assert (H1 : stdout w1 = stdout w /\ opened w1 = opened w /\
               ticks w1 = ticks w /\ forget_effects w1 = forget_effects w)
    by (repeat split; reflexivity).
  clearbody w1. destruct H1 as (Hs1 & Ho1 & Ht1 & Hf1).
  apply wp_mono with
    (P := fun (_ : unit) w2 =>
            stdout w2
            = (stdout w ++ printed_files config (nl ++ "Saved files:") files_saved)%list /\
            opened w2 = opened w /\ ticks w2 = ticks w /\
            forget_effects w2 = forget_effects w).
  - unfold printed_files. apply wp_when; intros ->.
    + wp_step. wp_step.
      eapply wp_mono; [apply print_lines_exact|].
      intros _ w2 [Hs Hf]. wsimpl.
      rewrite Hs, Hs1, <- app_assoc. split; [reflexivity|].
      split; [apply (f_equal opened) in Hf; simpl in Hf; congruence|].
      split; [apply (f_equal ticks) in Hf; simpl in Hf; congruence|].
      rewrite <- Hf1. apply (f_equal forget_effects) in Hf. exact Hf.
    + rewrite app_nil_r. auto.
  - intros _ w2 (Hs2 & Ho2 & Ht2 & Hf2).
    destruct files_saved as [|f fs].
    + apply wp_ret. unfold preview_launch. rewrite app_nil_r. auto.
    + eapply wp_mono; [apply openInPreview_exact|].
      intros _ w3 [Ho Hf]. cbv beta.
      split; [apply (f_equal stdout) in Hf; simpl in Hf; congruence|].
      split; [congruence|].
      split; [apply (f_equal ticks) in Hf; simpl in Hf; congruence|].
      rewrite <- Hf2.
      apply (f_equal (fun x => set_ticks 0 (set_stdout [] x))) in Hf.
      exact Hf.
Qed.

Lemma saveAllDocuments_effects w :
  wp (saveAllDocuments_ config) w (save_effects_post config w).
Proof.
  unfold saveAllDocuments_. wp_step. wp_step.
  assert (Hh : holds_capture w
               = match captured_images w, truthy (captured_data w) with
                 | [], false => false
                 | _, _ => true
                 end)
    by (unfold holds_capture; destruct (captured_images w);
        [destruct (truthy _)|]; reflexivity).
  unfold save_effects_post. rewrite Hh. clear Hh.
  destruct (captured_images w) as [|image images] eqn:Hi;
    destruct (truthy (captured_data w)) eqn:Ht.
  2: { wp_step. simpl. auto. }
  all: clear Hi Ht.
  all: wp_step; wp_step; wp_step; apply wp_datetime_now; wp_step.
  all: eapply wp_mono;
    [apply wp_conj; [apply save_document_spec | apply save_document_silent]|].
  all: intros files1 w1 [(Hf1 & Hd1 & Hc1 & Hi1) Hq1]; wsimpl.
  all: wp_step; wp_step; wp_step.
  all: eapply wp_mono;
    [apply wp_conj;
     [apply save_pages_spec
     | apply for_in_silent; intros; apply save_page_silent]|].
  all: intros files2 w2 [(Hf2 & Hd2 & Hc2 & Hi2) Hq2].
  all: eapply wp_mono; [apply save_rest_effects|].
  all: intros u w3 (Hs3 & Ho3 & Ht3 & Hq3).
  all: assert (Hfiles : files2
                        = map fst
                            (save_writes config
                               (strftime_Ymd_HMS (clock (ticks w))) w))
    by (unfold save_writes; rewrite Hf2, Hf1, Hi1, map_app; reflexivity).
  all: rewrite <- Hfiles; cbv zeta.
  all: assert (Hq : forget_files w2
                    = forget_files
                        (set_ticks (S (ticks w))
                           (set_log (log w ++ [(INFO, "Saving documents...")])%list w)))
    by congruence.
  all: split;
    [rewrite Hq3; apply (f_equal (fun x => set_ticks 0 (set_opened [] (set_stdout [] x)))) in Hq; exact Hq|].
  all: split; [apply (f_equal ticks) in Hq; simpl in Hq; congruence|].
  all: split;
    [apply (f_equal stdout) in Hq; simpl in Hq; congruence
    |apply (f_equal opened) in Hq; simpl in Hq; congruence].
Qed.

Lemma convert_page_silent pdf_doc timestamp i files w :
  wp (convert_page config pdf_doc timestamp i files) w
     (fun _ w' => forget_files w' = forget_files w).
Proof.
  unfold convert_page, wp, bind, writeToFile_atomically_.
  destruct (pageAtIndex_ pdf_doc i) as [page|]; [|reflexivity].
  cbv zeta. cbn [append].
  destruct_platform; reflexivity.
Qed.

Lemma convertPdfToPng_effects w :
  wp (convertPdfToPng_ config) w (convert_effects_post config w).
Proof.
  unfold convertPdfToPng_, convert_effects_post. wp_step. wp_step.
  destruct (captured_data w) as [[|b captured]|] eqn:Hc;
    try solve [wp_steps; simpl; auto].
  destruct (PDFDocument_initWithData_ (b :: captured)) as [pdf_doc|];
    [|solve [wp_steps; simpl; auto]].
  wp_steps. apply wp_datetime_now. wp_steps.
  eapply wp_mono;
    [apply wp_conj;
     [apply convert_pages_spec
     | apply for_in_silent; intros; apply convert_page_silent]|].
  intros files1 w1 [(Hf1 & _) Hq1].
  assert (Hfiles : files1
                   = map fst
                       (convert_writes config pdf_doc
                          (strftime_Ymd_HMS (clock (ticks w)))))
    by (rewrite Hf1; reflexivity).
  clear Hf1. cbv zeta. rewrite <- Hfiles. clear Hfiles.
  assert (H1 : stdout w1 = stdout w /\ opened w1 = opened w /\
               ticks w1 = S (ticks w) /\ forget_effects w1 = forget_effects w).
  { repeat split.
    - apply (f_equal stdout) in Hq1. exact Hq1.
    - apply (f_equal opened) in Hq1. exact Hq1.
    - apply (f_equal ticks) in Hq1. exact Hq1.
    - apply (f_equal (fun x => set_ticks 0 (set_opened [] (set_stdout [] x))))
        in Hq1. exact Hq1. }
  clear Hq1. destruct H1 as (Hs1 & Ho1 & Ht1 & Hq1).
  destruct files1 as [|f fs].
  - wp_steps. simpl. rewrite !app_nil_r. auto.
  - wp_steps.
    set (w2 := set_log _ _).
    assert (H2 : stdout w2 = stdout w /\ opened w2 = opened w /\
                 ticks w2 = S (ticks w) /\ forget_effects w2 = forget_effects w)
      by (repeat split; assumption).
    clearbody w2. destruct H2 as (Hs2 & Ho2 & Ht2 & Hq2).
    apply wp_mono with
      (P := fun (_ : unit) w3 =>
              stdout w3
              = (stdout w
                 ++ printed_files config
                      (nl ++ "Converted " ++ str_nat (List.length (f :: fs))
                       ++ " PDF pages to PNG:") (f :: fs))%list /\
              opened w3 = opened w /\ ticks w3 = S (ticks w) /\
              forget_effects w3 = forget_effects w).
    + unfold printed_files. apply wp_when; intros ->.
      * wp_step. wp_step.
        eapply wp_mono; [apply print_lines_exact|].
        intros _ w3 [Hs Hf]. wsimpl.
        rewrite Hs, Hs2, <- app_assoc. split; [reflexivity|].
        split; [apply (f_equal opened) in Hf; simpl in Hf; congruence|].
        split; [apply (f_equal ticks) in Hf; simpl in Hf; congruence|].
        rewrite <- Hq2. apply (f_equal forget_effects) in Hf. exact Hf.
      * rewrite app_nil_r. auto.
    + intros _ w3 (Hs3 & Ho3 & Ht3 & Hq3).
      eapply wp_mono; [apply openInPreview_exact|].
      intros _ w4 [Ho Hf]. cbv beta.
      split.
      { rewrite <- Hq3.
        apply (f_equal (fun x => set_ticks 0 (set_stdout [] x))) in Hf.
        exact Hf. }
      split; [apply (f_equal ticks) in Hf; simpl in Hf; congruence|].
      split; [apply (f_equal stdout) in Hf; simpl in Hf; congruence|].
      congruence.
Qed.

Lemma for_in_frame {A S : Type} (forget : World -> World)
  (body : A -> S -> M S) xs s w :
  (forall x s w, wp (body x s) w (fun _ w' => forget w' = forget w)) ->
  wp (for_in xs body s) w (fun _ w' => forget w' = forget w).
Proof.
  intros Hbody.
  apply (wp_for_in body (fun _ _ w' => forget w' = forget w)).
  - reflexivity.
  - intros done x rest s1 w1 _ H1.
    eapply wp_mono; [apply Hbody|].
    intros s2 w2 H2. cbv beta in H2. congruence.
Qed.

Lemma probe_pdf_types_silent pasteboard aliases :
  forall pdf_data debug_info w,
    wp (probe_pdf_types pasteboard aliases pdf_data debug_info) w
       (fun _ w' => forget_capture w' = forget_capture w).
Proof.
  induction aliases as [|a rest IH]; intros pdf_data debug_info w.
  - reflexivity.
  - simpl. destruct (contains (types pasteboard) a); [|apply IH].
    unfold wp, bind, dataForType_.
    destruct (bytesForType pasteboard a) as [[|b bytes]|]; simpl;
      try reflexivity.
    + specialize (IH (Some []) debug_info
                    (set_fetched (fetched w ++ [a])%list w)).
      unfold wp in IH.
      destruct (probe_pdf_types _ _ _ _ _); [|contradiction].
      rewrite IH. reflexivity.
    + specialize (IH None debug_info
                    (set_fetched (fetched w ++ [a])%list w)).
      unfold wp in IH.
      destruct (probe_pdf_types _ _ _ _ _); [|contradiction].
      rewrite IH. reflexivity.
Qed.

Lemma capture_page_silent pdf_doc i debug_info w :
  wp (capture_page config pdf_doc i debug_info) w
     (fun _ w' => forget_capture w' = forget_capture w).
Proof.
  unfold capture_page.
  destruct (pageAtIndex_ pdf_doc i); reflexivity.
Qed.

Lemma capture_image_silent pasteboard img_type debug_info w :
  wp (capture_image pasteboard img_type debug_info) w
     (fun _ w' => forget_capture w' = forget_capture w).
Proof.
  unfold capture_image.
  destruct (contains (types pasteboard) img_type); [|reflexivity].
  unfold wp, bind, dataForType_.
  destruct (bytesForType pasteboard img_type) as [[|b data]|]; simpl;
    try reflexivity.
  destruct (NSImage_initWithData_ (b :: data)) as [image|]; simpl;
    try reflexivity.
  destruct (representations image); reflexivity.
Qed.

Lemma capture_document_controls b bytes debug_info w :
  wp (capture_document config (Some (b :: bytes)) (b :: bytes) debug_info) w
     (fun _ w' =>
        quiet_part w' = quiet_part w /\
        match PDFDocument_initWithData_ (b :: bytes) with
        | Some _ =>
            ticks w' = ticks w /\
            match captured_images w' with
            | [] => controls_kept w w'
            | _ :: _ => controls_show true w'
            end
        | None => ticks w' = S (ticks w) /\ controls_kept w w'
        end).
Proof.
  unfold capture_document. wp_steps.
  destruct (PDFDocument_initWithData_ (b :: bytes)) as [pdf_doc|].
  - wp_steps.
    eapply wp_mono;
      [apply (for_in_frame forget_capture); intros; apply capture_page_silent|].
    intros debug_info' w1 Hq. wsimpl. wp_steps.
    assert (H1 : quiet_part w1 = quiet_part w /\ ticks w1 = ticks w /\
                 controls_kept w w1).
    { split; [apply (f_equal
                       (fun x => set_statusLabel "" (set_disk [] (set_ticks 0
                          (set_saveButton_enabled false
                             (set_convertToPngButton_enabled false
                                (set_imageView None x))))))) in Hq; exact Hq|].
      split; [apply (f_equal ticks) in Hq; exact Hq|].
      unfold controls_kept. repeat split.
      - apply (f_equal saveButton_enabled) in Hq; exact Hq.
      - apply (f_equal convertToPngButton_enabled) in Hq; exact Hq.
      - apply (f_equal imageView) in Hq; exact Hq. }
    clear Hq. destruct H1 as (Hq & Ht & Hk).
    destruct (captured_images w1) as [|first others] eqn:Himgs.
    + wp_steps. rewrite Himgs. auto.
    + wp_steps. unfold _updatePreview, wp, bind, modify,
        statusLabel_setStringValue_, ret. simpl.
      rewrite Himgs. unfold controls_show. simpl. rewrite Himgs.
      repeat split; auto.
  - wp_steps. unfold _saveRawPDF, wp, bind, datetime_now,
      writeToFile_atomically_. simpl.
    destruct_platform; simpl; unfold controls_kept; simpl; auto.
Qed.

Lemma capture_images_controls pasteboard debug_info w :
  wp (capture_images pasteboard debug_info) w
     (fun _ w' =>
        quiet_part w' = quiet_part w /\
        ticks w' = ticks w /\
        match captured_images w' with
        | [] => controls_kept w w'
        | _ :: _ => controls_show false w'
        end).
Proof.
  unfold capture_images. wp_steps.
  eapply wp_mono;
    [apply (for_in_frame forget_capture); intros; apply capture_image_silent|].
  intros debug_info' w1 Hq. wsimpl. wp_steps.
  assert (H1 : quiet_part w1 = quiet_part w /\ ticks w1 = ticks w /\
               controls_kept w w1).
  { split; [apply (f_equal
                     (fun x => set_statusLabel "" (set_disk [] (set_ticks 0
                        (set_saveButton_enabled false
                           (set_convertToPngButton_enabled false
                              (set_imageView None x))))))) in Hq; exact Hq|].
    split; [apply (f_equal ticks) in Hq; exact Hq|].
    unfold controls_kept. repeat split.
    - apply (f_equal saveButton_enabled) in Hq; exact Hq.
    - apply (f_equal convertToPngButton_enabled) in Hq; exact Hq.
    - apply (f_equal imageView) in Hq; exact Hq. }
  clear Hq. destruct H1 as (Hq & Ht & Hk).
  destruct (captured_images w1) as [|first others] eqn:Himgs.
  - wp_steps. rewrite Himgs. auto.
  - wp_steps. unfold _updatePreview, wp, bind, modify,
      statusLabel_setStringValue_, ret. simpl.
    rewrite Himgs. unfold controls_show. simpl. rewrite Himgs.
    repeat split; auto.
Qed.

Lemma controls_kept_trans w w1 w2 :
  controls_kept w w1 -> controls_kept w1 w2 -> controls_kept w w2.
Proof.
  unfold controls_kept. intros (A & B & C) (A' & B' & C').
  rewrite A', B', C'. auto.
Qed.

Lemma readSelectionFromPasteboard_controls pasteboard w :
  wp (readSelectionFromPasteboard_ config pasteboard) w
     (capture_controls_post config pasteboard w).
Proof.
  unfold readSelectionFromPasteboard_. wp_steps.
  eapply wp_mono;
    [apply wp_conj; [apply probe_pdf_types_spec | apply probe_pdf_types_silent]|].
  intros [pdf_data debug_info] w1 [(Hr & _) Hq].
  cbn [fst] in Hr. unfold capture_controls_post. rewrite <- Hr. clear Hr.
  assert (H1 : quiet_part w1 = quiet_part w /\ ticks w1 = ticks w /\
               controls_kept w w1).
  { split; [apply (f_equal
                     (fun x => set_statusLabel "" (set_disk [] (set_ticks 0
                        (set_saveButton_enabled false
                           (set_convertToPngButton_enabled false
                              (set_imageView None x))))))) in Hq; exact Hq|].
    split; [apply (f_equal ticks) in Hq; exact Hq|].
    unfold controls_kept. repeat split.
    - apply (f_equal saveButton_enabled) in Hq; exact Hq.
    - apply (f_equal convertToPngButton_enabled) in Hq; exact Hq.
    - apply (f_equal imageView) in Hq; exact Hq. }
  clear Hq. destruct H1 as (Hq1 & Ht1 & Hk1).
  wp_step.
  assert (Hfinal :
            forall (P : World -> Prop) debug_info' w2,
              quiet_part w2 = quiet_part w1 ->
              (forall w3,
                  captured_images w3 = captured_images w2 ->
                  ticks w3 = ticks w2 ->
                  saveButton_enabled w3 = saveButton_enabled w2 ->
                  convertToPngButton_enabled w3 = convertToPngButton_enabled w2 ->
                  imageView w3 = imageView w2 ->
                  P w3) ->
              wp (when (debug_mode config) (modify (set_textView debug_info')) ;;
                  w <- the_world ;;
                  logging INFO
                    ("Capture complete: "
                     ++ str_nat (List.length (captured_images w)) ++ " images") ;;
                  ret ((0 <? List.length (captured_images w))%nat
                       || match captured_data w with
                          | Some _ => true
                          | None => false
                          end))%scanner w2
                 (fun _ w3 =>
                    stdout w3 = stdout w /\ opened w3 = opened w /\
                    (if debug_mode config then True
                     else textView w3 = textView w) /\
                    P w3)).
  { intros P debug_info' w2 Hq2 HP.
    assert (Hq : quiet_part w2 = quiet_part w) by congruence.
    wp_step. apply wp_when; intros Hdbg; rewrite Hdbg; wp_steps.
    - repeat split.
      + apply (f_equal stdout) in Hq. exact Hq.
      + apply (f_equal opened) in Hq. exact Hq.
      + apply HP; reflexivity.
    - repeat split.
      + apply (f_equal stdout) in Hq. exact Hq.
      + apply (f_equal opened) in Hq. exact Hq.
      + apply (f_equal textView) in Hq. exact Hq.
      + apply HP; reflexivity. }
  destruct pdf_data as [[|b bytes]|].
  2: { eapply wp_mono; [apply capture_document_controls|].
       intros debug_info' w2 [Hq2 Hdoc].
       eapply wp_mono; [apply (Hfinal (fun w3 =>
           match PDFDocument_initWithData_ (b :: bytes) with
           | Some _ =>
               ticks w3 = ticks w /\
               match captured_images w3 with
               | [] => controls_kept w w3
               | _ :: _ => controls_show true w3
               end
           | None => ticks w3 = S (ticks w) /\ controls_kept w w3
           end) _ _ Hq2)|].
       - intros w3 Hi Ht Hs Hc Hv.
         destruct (PDFDocument_initWithData_ (b :: bytes)).
         + destruct Hdoc as [Ht2 Hctl]. split; [congruence|].
           rewrite Hi. unfold controls_show, controls_kept in *.
           rewrite Hi, Hs, Hc, Hv.
           destruct (captured_images w2); [|exact Hctl].
           destruct Hk1 as (A & B & C), Hctl as (A' & B' & C').
           rewrite A', B', C'. auto.
         + destruct Hdoc as [Ht2 Hctl]. split; [congruence|].
           unfold controls_kept in *. rewrite Hs, Hc, Hv.
           destruct Hk1 as (A & B & C), Hctl as (A' & B' & C').
           rewrite A', B', C'. auto.
       - cbv beta. intros _ w3 H. exact H. }
  all: eapply wp_mono; [apply capture_images_controls|].
  all: intros debug_info' w2 (Hq2 & Ht2 & Hctl).
  all: eapply wp_mono; [apply (Hfinal (fun w3 =>
           ticks w3 = ticks w /\
           match captured_images w3 with
           | [] => controls_kept w w3
           | _ :: _ => controls_show false w3
           end) _ _ Hq2)|].
  all: try (cbv beta; intros _ w3 H; exact H).
  all: intros w3 Hi Ht Hs Hc Hv.
  all: split; [congruence|].
  all: rewrite Hi; unfold controls_show, controls_kept in *.
  all: rewrite Hi, Hs, Hc, Hv.
  all: destruct (captured_images w2); [|exact Hctl].
  all: destruct Hk1 as (A & B & C), Hctl as (A' & B' & C').
  all: rewrite A', B', C'; auto.
Qed.

Lemma debug_types_spec pb ts debug_info w :
  wp (for_in ts (debug_type pb) debug_info) w
     (fun _ w' =>
        fetched w' = (fetched w ++ ts)%list /\
        set_fetched [] w' = set_fetched [] w).
Proof.
  apply (wp_for_in _
           (fun done (_ : string) w' =>
              fetched w' = (fetched w ++ done)%list /\
              set_fetched [] w' = set_fetched [] w)).
  - rewrite app_nil_r. auto.
  - intros done x rest s w1 _ [Hf Hq].
    unfold debug_type, wp, bind, dataForType_. simpl.
    rewrite Hf, <- app_assoc. split; [reflexivity|].
    rewrite <- Hq. reflexivity.
Qed.

Lemma debugPasteboard_spec pb w :
  wp (debugPasteboard_ pb) w
     (fun _ w' =>
        fetched w' = (fetched w ++ types pb)%list /\
        log w'
        = (log w ++ [(DEBUG, "Debugging pasteboard..."); (INFO, textView w')])%list /\
        forget_debug w' = forget_debug w).
Proof.
  unfold debugPasteboard_. wp_steps.
  eapply wp_mono; [apply debug_types_spec|].
  intros debug_info w1 [Hf Hq]. wsimpl. wp_steps. wsimpl.
  split; [exact Hf|].
  split.
  - apply (f_equal log) in Hq. simpl in Hq. rewrite Hq, <- app_assoc.
    reflexivity.
  - apply (f_equal (fun x => set_textView "" (set_log [] x))) in Hq.
    exact Hq.
Qed.

Lemma format_writes_length timestamp page_num best_rep fmt :
  List.length (format_writes config timestamp page_num best_rep fmt)
  <= if OutputFormat_eqb fmt PDF then 0 else 1.
Proof.
  unfold format_writes.
  destruct fmt; simpl; auto;
    destruct_platform; simpl; auto.
Qed.

Lemma formats_writes_length timestamp page_num best_rep fmts :
  List.length (flat_map (format_writes config timestamp page_num best_rep) fmts)
  <= List.length
       (filter (fun fmt => negb (OutputFormat_eqb fmt PDF)) fmts).
Proof.
  induction fmts as [|fmt rest IH]; simpl; [lia|].
  rewrite length_app.
  pose proof (format_writes_length timestamp page_num best_rep fmt) as H.
  destruct (OutputFormat_eqb fmt PDF); simpl; lia.
Qed.

Lemma page_writes_length timestamp entry :
  List.length (page_writes config timestamp entry) <= List.length (page_formats config).
Proof.
  unfold page_writes, page_formats.
  destruct (_getBestImageRep (Some (snd entry))); simpl; [|lia].
  apply formats_writes_length.
Qed.

Lemma pages_writes_length timestamp entries :
  List.length (flat_map (page_writes config timestamp) entries)
  <= List.length entries * List.length (page_formats config).
Proof.
  induction entries as [|e rest IH]; simpl; [lia|].
  rewrite length_app.
  pose proof (page_writes_length timestamp e). lia.
Qed.

Lemma document_writes_length timestamp captured :
  List.length (document_writes config timestamp captured)
  <= if existsb (OutputFormat_eqb PDF) (output_formats config) then 1 else 0.
Proof.
  unfold document_writes.
  destruct captured as [[|b d]|]; simpl; try lia;
    destruct (existsb _ _); simpl; try lia;
    destruct_platform; simpl; lia.
Qed.

Lemma enumerate_length {A : Type} (xs : list A) :
  List.length (enumerate xs) = List.length xs.
Proof.
  unfold enumerate. rewrite length_combine, length_seq. lia.
Qed.

Lemma save_writes_length timestamp w :
  List.length (save_writes config timestamp w)
  <= (if existsb (OutputFormat_eqb PDF) (output_formats config) then 1 else 0)
     + List.length (captured_images w) * List.length (page_formats config).
Proof.
  unfold save_writes. rewrite length_app.
  pose proof (document_writes_length timestamp (captured_data w)).
  pose proof (pages_writes_length timestamp (enumerate (captured_images w))) as H1.
  rewrite enumerate_length in H1. lia.
Qed.

(** *** What the page files hold *)

Lemma in_format_writes_data timestamp page_num best_rep fmt path data :
  In (path, data) (format_writes config timestamp page_num best_rep fmt) ->
  exists file_type,
    getitem type_map fmt = Some file_type /\
    representationUsingType_properties_ best_rep file_type
      (if OutputFormat_eqb fmt JPEG
       then [("NSImageCompressionFactor", jpeg_quality config)] else [])
    = Some data.
Proof.
  unfold format_writes.
  destruct (getitem type_map fmt) as [file_type|]; [|intros []].
  match goal with
  | |- context [representationUsingType_properties_ ?r ?t ?p] =>
      destruct (representationUsingType_properties_ r t p) as [[|b d]|] eqn:He
  end; try (intros []).
  match goal with
  | |- context [write_succeeds ?d ?p] => destruct (write_succeeds d p)
  end; [|intros []].
  intros [[= <- <-]|[]]. exists file_type. auto.
Qed.

Lemma in_page_writes_data timestamp i image path data :
  In (path, data) (page_writes config timestamp (i, image)) ->
  exists best_rep fmt file_type,
    _getBestImageRep (Some image) = Some best_rep /\
    In fmt (output_formats config) /\ fmt <> PDF /\
    getitem type_map fmt = Some file_type /\
    representationUsingType_properties_ best_rep file_type
      (if OutputFormat_eqb fmt JPEG
       then [("NSImageCompressionFactor", jpeg_quality config)] else [])
    = Some data /\
    path = joinpath (output_dir config)
             (page_filename_of config timestamp (i + 1) (value fmt)).
Proof.
  unfold page_writes. cbn [fst snd].
  destruct (_getBestImageRep (Some image)) as [best_rep|]; [|intros []].
  rewrite in_flat_map. intros (fmt & Hin & Hw).
  destruct (in_format_writes_data _ _ _ _ _ _ Hw) as (file_type & Ht & He).
  apply in_format_writes in Hw. destruct Hw as (Hne & -> & _).
  exists best_rep, fmt, file_type. repeat split; auto.
Qed.

(** *** A save with nothing to save *)

Lemma save_nothing_held w :
  holds_capture w = false ->
  saveAllDocuments_ config w
  = Returns tt (set_log (log w ++ [(WARNING, "No documents to save")])%list w).
Proof.
  unfold holds_capture, saveAllDocuments_, bind, the_world.
  destruct (captured_images w); [|discriminate].
  intros ->. reflexivity.
Qed.

Lemma convert_nothing_held w :
  truthy (captured_data w) = false ->
  convertPdfToPng_ config w
  = Returns tt
      (set_statusLabel "No PDF data available for conversion"
         (set_log (log w ++ [(WARNING, "No PDF data to convert")])%list w)).
Proof.
  unfold convertPdfToPng_, bind, the_world.
  destruct (captured_data w) as [[|b d]|]; try discriminate; reflexivity.
Qed.

(** *** The names of the formats *)

Lemma OutputFormat_of_value_value fmt :
  OutputFormat_of_value (value fmt) = Some fmt.
Proof. destruct fmt; reflexivity. Qed.

Lemma value_of_OutputFormat_of_value s fmt :
  OutputFormat_of_value s = Some fmt -> value fmt = s.
Proof.
  unfold OutputFormat_of_value.
  destruct (String.eqb_spec s "pdf"); [intros [= <-]; auto|].
  destruct (String.eqb_spec s "png"); [intros [= <-]; auto|].
  destruct (String.eqb_spec s "jpeg"); [intros [= <-]; auto|].
  destruct (String.eqb_spec s "tiff"); [intros [= <-]; auto|].
  discriminate.
Qed.

Lemma OutputFormat_of_value_none s :
  OutputFormat_of_value s = None <-> ~ In s format_choices.
Proof.
  unfold OutputFormat_of_value, format_choices. simpl.
  destruct (String.eqb_spec s "pdf"); [split; [discriminate | intros H; exfalso; apply H; auto]|].
  destruct (String.eqb_spec s "png"); [split; [discriminate | intros H; exfalso; apply H; auto]|].
  destruct (String.eqb_spec s "jpeg"); [split; [discriminate | intros H; exfalso; apply H; auto]|].
  destruct (String.eqb_spec s "tiff"); [split; [discriminate | intros H; exfalso; apply H; auto]|].
  split; [|reflexivity].
  intros _ [H|[H|[H|[H|[]]]]]; congruence.
Qed.

Lemma OutputFormats_of_values_map fmts :
  OutputFormats_of_values (map value fmts) = Some fmts.
Proof.
  induction fmts as [|fmt rest IH]; simpl; [reflexivity|].
  rewrite OutputFormat_of_value_value, IH. reflexivity.
Qed.

Lemma OutputFormats_of_values_some fs :
  forall fmts, OutputFormats_of_values fs = Some fmts -> map value fmts = fs.
Proof.
  induction fs as [|f rest IH]; simpl; intros fmts H.
  - injection H as <-. reflexivity.
  - destruct (OutputFormat_of_value f) as [fmt|] eqn:Hf; [|discriminate].
    destruct (OutputFormats_of_values rest) as [fmts'|]; [|discriminate].
    injection H as <-. simpl.
    rewrite (value_of_OutputFormat_of_value _ _ Hf), (IH _ eq_refl).
    reflexivity.
Qed.

Lemma OutputFormats_of_values_none fs :
  OutputFormats_of_values fs = None <->
  exists f, In f fs /\ ~ In f format_choices.
Proof.
  induction fs as [|f rest IH]; simpl.
  - split; [discriminate | intros (f & [] & _)].
  - destruct (OutputFormat_of_value f) as [fmt|] eqn:Hf.
    + destruct (OutputFormats_of_values rest) as [fmts|].
      * split; [discriminate|].
        intros (g & [<-|Hg] & Hn).
        -- apply OutputFormat_of_value_none in Hn. congruence.
        -- assert (E : @None (list OutputFormat) = None) by reflexivity.
           destruct IH as [_ IH]. discriminate IH. eauto.
      * split; [|reflexivity]. intros _.
        destruct IH as [IH _]. destruct (IH eq_refl) as (g & Hg & Hn).
        exists g. auto.
    + split; [|reflexivity]. intros _. exists f. split; [auto|].
      apply OutputFormat_of_value_none. exact Hf.
Qed.

(** *** A pasteboard without types *)

Lemma first_pdf_data_absent pasteboard aliases pdf_data :
  (forall a, In a aliases -> contains (types pasteboard) a = false) ->
  first_pdf_data pasteboard aliases pdf_data = pdf_data /\
  probe_fetches pasteboard aliases = [].
Proof.
  induction aliases as [|a rest IH]; intros H; simpl; [auto|].
  rewrite (H a (or_introl eq_refl)). apply IH.
  intros b Hb. apply H. simpl. auto.
Qed.

Lemma decode_image_absent pasteboard img_types :
  (forall t, In t img_types -> contains (types pasteboard) t = false) ->
  flat_map (decode_image pasteboard) img_types = [] /\
  filter (contains (types pasteboard)) img_types = [].
Proof.
  induction img_types as [|t rest IH]; intros H; simpl; [auto|].
  unfold decode_image at 1. rewrite (H t (or_introl eq_refl)). simpl.
  apply IH. intros b Hb. apply H. simpl. auto.
Qed.

(** *** Counting the images of the fallback *)

Lemma decode_image_length pasteboard t :
  List.length (decode_image pasteboard t) <= 1.
Proof.
  unfold decode_image.
  destruct (contains (types pasteboard) t); simpl; [|lia].
  destruct (bytesForType pasteboard t) as [[|b d]|]; simpl; try lia.
  destruct (NSImage_initWithData_ (b :: d)); simpl; lia.
Qed.

Lemma decoded_images_length pasteboard img_types :
  List.length (flat_map (decode_image pasteboard) img_types)
  <= List.length (filter (contains (types pasteboard)) img_types).
Proof.
  induction img_types as [|t rest IH]; simpl; [lia|].
  rewrite length_app.
  pose proof (decode_image_length pasteboard t) as H.
  unfold decode_image in *.
  destruct (contains (types pasteboard) t); simpl in *; lia.
Qed.

(** *** Reading a frame *)

Lemma forget_effects_fields w w' :
  forget_effects w' = forget_effects w ->
  captured_data w' = captured_data w /\
  captured_images w' = captured_images w /\
  fetched w' = fetched w /\
  saveButton_enabled w' = saveButton_enabled w /\
  convertToPngButton_enabled w' = convertToPngButton_enabled w /\
  imageView w' = imageView w /\
  textView w' = textView w.
Proof.
  intros H. repeat split.
  - apply (f_equal captured_data) in H. exact H.
  - apply (f_equal captured_images) in H. exact H.
  - apply (f_equal fetched) in H. exact H.
  - apply (f_equal saveButton_enabled) in H. exact H.
  - apply (f_equal convertToPngButton_enabled) in H. exact H.
  - apply (f_equal imageView) in H. exact H.
  - apply (f_equal textView) in H. exact H.
Qed.

End MoreSpecs.

(** ** Quiet mode *)

Section Quiet.

Context {cocoa : Cocoa}.
Variable config : Config.
Hypothesis Hquiet : quiet config = true.

Lemma emitted_quiet level msg :
  emitted config (level, msg)
  = match level with ERROR => true | _ => false end.
Proof.
  unfold emitted, setup_logging. rewrite Hquiet. destruct level; reflexivity.
Qed.

Lemma probe_pdf_types_console pasteboard aliases :
  forall pdf_data debug_info w,
    wp (probe_pdf_types pasteboard aliases pdf_data debug_info) w
       (fun _ w' => only_console config w' = only_console config w).
Proof.
  induction aliases as [|a rest IH]; intros pdf_data debug_info w.
  - reflexivity.
  - simpl. destruct (contains (types pasteboard) a); [|apply IH].
    unfold wp, bind, dataForType_.
    destruct (bytesForType pasteboard a) as [[|b bytes]|]; simpl.
    + specialize (IH (Some []) debug_info
                    (set_fetched (fetched w ++ [a])%list w)).
      unfold wp in IH.
      destruct (probe_pdf_types _ _ _ _ _); [|contradiction].
      rewrite IH. reflexivity.
    + unfold only_console, console; simpl.
      rewrite ?filter_app; simpl. rewrite ?emitted_quiet; simpl.
      rewrite ?app_nil_r. reflexivity.
    + specialize (IH None debug_info
                    (set_fetched (fetched w ++ [a])%list w)).
      unfold wp in IH.
      destruct (probe_pdf_types _ _ _ _ _); [|contradiction].
      rewrite IH. reflexivity.
Qed.

Ltac quiet_frame :=
  unfold only_console, console; simpl;
  rewrite ?filter_app; simpl;
  rewrite ?emitted_quiet; simpl;
  rewrite ?app_nil_r; try reflexivity.

Lemma capture_page_console pdf_doc i debug_info w :
  wp (capture_page config pdf_doc i debug_info) w
     (fun _ w' => only_console config w' = only_console config w).
Proof.
  unfold capture_page, wp, bind.
  destruct (pageAtIndex_ pdf_doc i); [|reflexivity].
  quiet_frame.
Qed.

Lemma capture_image_console pasteboard img_type debug_info w :
  wp (capture_image pasteboard img_type debug_info) w
     (fun _ w' => only_console config w' = only_console config w).
Proof.
  unfold capture_image.
  destruct (contains (types pasteboard) img_type); [|reflexivity].
  unfold wp, bind, dataForType_.
  destruct (bytesForType pasteboard img_type) as [[|b data]|]; simpl;
    try reflexivity.
  destruct (NSImage_initWithData_ (b :: data)) as [image|]; simpl;
    try reflexivity.
  destruct (representations image); quiet_frame.
Qed.

Lemma capture_document_console b bytes debug_info w :
  wp (capture_document config (Some (b :: bytes)) (b :: bytes) debug_info) w
     (fun _ w' => only_console config w' = only_console config w).
Proof.
  unfold capture_document. wp_steps.
  destruct (PDFDocument_initWithData_ (b :: bytes)) as [pdf_doc|].
  - wp_steps.
    eapply wp_mono;
      [apply (for_in_frame (only_console config)); intros;
       apply capture_page_console|].
    intros debug_info' w1 Hq. wp_steps.
    assert (H1 : only_console config w1 = only_console config w)
      by (rewrite Hq; quiet_frame).
    clear Hq.
    destruct (captured_images w1) as [|first others].
    + wp_steps. exact H1.
    + wp_steps. unfold _updatePreview, wp, bind, modify,
        statusLabel_setStringValue_, ret. simpl. exact H1.
  - wp_steps. unfold _saveRawPDF, wp, bind, datetime_now,
      writeToFile_atomically_. simpl.
    destruct_platform; quiet_frame.
Qed.

Lemma capture_images_console pasteboard debug_info w :
  wp (capture_images pasteboard debug_info) w
     (fun _ w' => only_console config w' = only_console config w).
Proof.
  unfold capture_images. wp_steps.
  eapply wp_mono;
    [apply (for_in_frame (only_console config)); intros;
     apply capture_image_console|].
  intros debug_info' w1 Hq. wp_steps.
  assert (H1 : only_console config w1 = only_console config w)
    by (rewrite Hq; quiet_frame).
  clear Hq.
  destruct (captured_images w1) as [|first others].
  - wp_steps. exact H1.
  - wp_steps. unfold _updatePreview, wp, bind, modify,
      statusLabel_setStringValue_, ret. simpl. exact H1.
Qed.

Lemma readSelectionFromPasteboard_console pasteboard w :
  wp (readSelectionFromPasteboard_ config pasteboard) w
     (fun _ w' => console config w' = console config w).
Proof.
  unfold readSelectionFromPasteboard_. wp_steps.
  eapply wp_mono; [apply probe_pdf_types_console|].
  intros [pdf_data debug_info] w1 Hq.
  assert (H1 : only_console config w1 = only_console config w)
    by (rewrite Hq; quiet_frame).
  clear Hq. wp_step.
  assert (Hfinal :
            forall debug_info' w2,
              only_console config w2 = only_console config w1 ->
              wp (when (debug_mode config) (modify (set_textView debug_info')) ;;
                  w <- the_world ;;
                  logging INFO
                    ("Capture complete: "
                     ++ str_nat (List.length (captured_images w)) ++ " images") ;;
                  ret ((0 <? List.length (captured_images w))%nat
                       || match captured_data w with
                          | Some _ => true
                          | None => false
                          end))%scanner w2
                 (fun _ w3 => console config w3 = console config w)).
  { intros debug_info' w2 Hq2.
    assert (Hq : only_console config w2 = only_console config w) by congruence.
    apply (f_equal log) in Hq. simpl in Hq.
    wp_step. apply wp_when; intros Hdbg; wp_steps;
      unfold console in *; simpl; rewrite filter_app; simpl;
      rewrite emitted_quiet, app_nil_r; exact Hq. }
  destruct pdf_data as [[|b bytes]|].
  2: { eapply wp_mono; [apply capture_document_console|].
       intros debug_info' w2 Hq2. apply Hfinal. exact Hq2. }
  all: eapply wp_mono; [apply capture_images_console|].
  all: intros debug_info' w2 Hq2; apply Hfinal; exact Hq2.
Qed.

Lemma save_page_format_console timestamp page_num best_rep fmt files w :
  wp (save_page_format config timestamp page_num best_rep fmt files) w
     (fun _ w' => only_console config w' = only_console config w).
Proof.
  unfold save_page_format, _saveImageRep, writeToFile_atomically_, wp, bind.
  destruct fmt; simpl; try reflexivity;
    destruct_platform; quiet_frame.
Qed.

Lemma save_page_console timestamp entry files w :
  wp (save_page config timestamp entry files) w
     (fun _ w' => only_console config w' = only_console config w).
Proof.
  destruct entry as [i image]. unfold save_page.
  destruct (_getBestImageRep (Some image)); [|reflexivity].
  apply (for_in_frame (only_console config)).
  intros. apply save_page_format_console.
Qed.

Lemma save_document_console timestamp w :
  wp (save_document config timestamp) w
     (fun _ w' => only_console config w' = only_console config w).
Proof.
  unfold save_document, wp, bind, writeToFile_atomically_. simpl.
  destruct (captured_data w) as [[|b data]|]; try reflexivity.
  destruct (existsb _ _); try reflexivity.
  destruct_platform; quiet_frame.
Qed.

Lemma print_lines_console (lines : list string) w :
  wp (for_in lines (fun f _ => print ("  - " ++ f)) tt) w
     (fun _ w' => only_console config w' = only_console config w).
Proof.
  apply (for_in_frame (only_console config)). intros. reflexivity.
Qed.

Lemma openInPreview_console files w :
  wp (when (open_in_preview config) (_openInPreview (Some files))) w
     (fun _ w' =>
        console config w' = (console config w ++ preview_failure config files)%list).
Proof.
  unfold preview_failure, _openInPreview.
  destruct files as [|f fs]; destruct (open_in_preview config); simpl;
    try (unfold wp; simpl; rewrite app_nil_r; reflexivity).
  unfold wp, bind, openURLs_withAppBundleIdentifier_. simpl.
  destruct (openURLs_succeeds (f :: fs) "com.apple.Preview"); simpl;
    unfold console; simpl; rewrite ?filter_app; simpl;
    rewrite ?emitted_quiet; simpl; rewrite ?app_nil_r; reflexivity.
Qed.

Lemma batch_end_console (status done header : string) files_saved w :
  wp (statusLabel_setStringValue_ status ;;
      logging INFO done ;;
      when (verbose config && negb (quiet config))
        (print header ;;
         for_in files_saved (fun f _ => print ("  - " ++ f)) tt) ;;
      when (open_in_preview config) (_openInPreview (Some files_saved)))%scanner
     w
     (fun _ w' =>
        console config w'
        = (console config w ++ preview_failure config files_saved)%list).
Proof.
  wp_steps.
  set (w1 := set_log _ _).
  assert (H1 : console config w1 = console config w)
    by (unfold console; simpl; rewrite filter_app; simpl;
        rewrite emitted_quiet, app_nil_r; reflexivity).
  clearbody w1.
  apply wp_mono with
    (P := fun (_ : unit) w2 => console config w2 = console config w).
  - apply wp_when; intros _; [|exact H1].
    wp_step. wp_step.
    eapply wp_mono; [apply print_lines_console|].
    intros ? w2 Hq. apply (f_equal log) in Hq.
    change (console config w2 = console config w1) in Hq. congruence.
  - intros ? w2 H2.
    eapply wp_mono; [apply openInPreview_console|].
    intros ? w3 H3. congruence.
Qed.

Lemma saveAllDocuments_console w :
  wp (saveAllDocuments_ config) w (save_console_post config w).
Proof.
  unfold saveAllDocuments_. wp_step. wp_step.
  assert (Hh : holds_capture w
               = match captured_images w, truthy (captured_data w) with
                 | [], false => false
                 | _, _ => true
                 end)
    by (unfold holds_capture; destruct (captured_images w);
        [destruct (truthy _)|]; reflexivity).
  unfold save_console_post. rewrite Hh. clear Hh.
  destruct (captured_images w) as [|image images] eqn:Hi;
    destruct (truthy (captured_data w)) eqn:Ht.
  2: { wp_step. unfold console. simpl. rewrite filter_app. simpl.
       rewrite emitted_quiet. reflexivity. }
  all: clear Hi Ht.
  all: wp_step; wp_step; wp_step; apply wp_datetime_now; wp_step.
  all: eapply wp_mono;
    [apply wp_conj; [apply save_document_spec | apply save_document_console]|].
  all: intros files1 w1 [(Hf1 & Hd1 & Hc1 & Hi1) Hq1]; wsimpl.
  all: wp_step; wp_step; wp_step.
  all: eapply wp_mono;
    [apply wp_conj;
     [apply save_pages_spec
     | apply (for_in_frame (only_console config)); intros;
       apply save_page_console]|].
  all: intros files2 w2 [(Hf2 & Hd2 & Hc2 & Hi2) Hq2].
  all: assert (Hfiles : files2
                        = map fst
                            (save_writes config
                               (strftime_Ymd_HMS (clock (ticks w))) w))
    by (unfold save_writes; rewrite Hf2, Hf1, Hi1, map_app; reflexivity).
  all: rewrite <- Hfiles.
  all: assert (Hc : console config w2 = console config w)
    by (rewrite Hq1 in Hq2; apply (f_equal log) in Hq2; simpl in Hq2;
        unfold console in *; rewrite Hq2; simpl; rewrite filter_app; simpl;
        rewrite emitted_quiet, app_nil_r; reflexivity).
  all: rewrite <- Hc.
  all: destruct files2 as [|f fs];
    [wp_steps;
     set (w3 := set_log _ _);
     assert (H3 : console config w3 = console config w2)
       by (unfold console; simpl; rewrite filter_app; simpl;
           rewrite emitted_quiet, app_nil_r; reflexivity);
     clearbody w3;
     apply wp_mono with
       (P := fun (_ : unit) w4 => console config w4 = console config w2);
     [apply wp_when; intros _; [|exact H3];
      wp_step; wp_step; unfold wp; simpl; exact H3
     |intros ? w4 H4; apply wp_ret; simpl; rewrite app_nil_r; exact H4]
    |apply batch_end_console].
Qed.

Lemma convert_page_console pdf_doc timestamp i files w :
  wp (convert_page config pdf_doc timestamp i files) w
     (fun _ w' => only_console config w' = only_console config w).
Proof.
  unfold convert_page, wp, bind, writeToFile_atomically_.
  destruct (pageAtIndex_ pdf_doc i) as [page|]; [|reflexivity].
  cbv zeta. cbn [append].
  destruct_platform; quiet_frame.
Qed.

Lemma convertPdfToPng_console w :
  wp (convertPdfToPng_ config) w (convert_console_post config w).
Proof.
  unfold convertPdfToPng_, convert_console_post. wp_step. wp_step.
  destruct (captured_data w) as [[|b captured]|] eqn:Hc;
    try solve [wp_steps; unfold console; simpl; rewrite filter_app; simpl;
               rewrite emitted_quiet; reflexivity].
  destruct (PDFDocument_initWithData_ (b :: captured)) as [pdf_doc|];
    [|solve [wp_steps; unfold console; simpl; rewrite !filter_app; simpl;
             rewrite !emitted_quiet; simpl; rewrite app_nil_r; reflexivity]].
  wp_steps. apply wp_datetime_now. wp_steps.
  eapply wp_mono;
    [apply wp_conj;
     [apply convert_pages_spec
     | apply (for_in_frame (only_console config)); intros;
       apply convert_page_console]|].
  intros files1 w1 [(Hf1 & _) Hq1].
  assert (Hfiles : files1
                   = map fst
                       (convert_writes config pdf_doc
                          (strftime_Ymd_HMS (clock (ticks w)))))
    by (rewrite Hf1; reflexivity).
  clear Hf1. rewrite <- Hfiles. clear Hfiles.
  assert (H1 : console config w1 = console config w).
  { etransitivity; [exact (f_equal log Hq1)|].
    unfold only_console, console. simpl. unfold console. simpl.
    rewrite !filter_app. simpl. rewrite !emitted_quiet. simpl.
    rewrite !app_nil_r. reflexivity. }
  clear Hq1. rewrite <- H1.
  destruct files1 as [|f fs].
  - wp_steps. unfold console. simpl. rewrite filter_app. simpl.
    rewrite emitted_quiet. reflexivity.
  - apply batch_end_console.
Qed.

End Quiet.

(** ** The status line and the files of a batch, exactly *)

Section Exact.

Context {cocoa : Cocoa}.
Variable config : Config.

(** *** The status line *)

Lemma openInPreview_status files w :
  wp (when (open_in_preview config) (_openInPreview (Some files))) w
     (fun _ w' =>
        statusLabel w'
        = if opened_in_preview config files
          then "Saved " ++ str_nat (List.length files)
               ++ " file(s) - Opened in Preview"
          else statusLabel w).
Proof.
  unfold opened_in_preview, _openInPreview.
  destruct files as [|f fs]; destruct (open_in_preview config); simpl;
    try (unfold wp; simpl; auto; fail).
  unfold wp, bind, openURLs_withAppBundleIdentifier_. simpl.
  destruct (openURLs_succeeds (f :: fs) "com.apple.Preview"); reflexivity.
Qed.

Lemma save_rest_status w (files_saved : list string) :
  wp (statusLabel_setStringValue_
        ("Saved " ++ str_nat (List.length files_saved) ++ " file(s)") ;;
      logging INFO
        ("Save complete: " ++ str_nat (List.length files_saved) ++ " files") ;;
      when (verbose config && negb (quiet config))
        (print (nl ++ "Saved files:") ;;
         for_in files_saved (fun f _ => print ("  - " ++ f)) tt) ;;
      match files_saved with
      | _ :: _ =>
          when (open_in_preview config) (_openInPreview (Some files_saved))
      | [] => ret tt
      end)%scanner w
     (fun _ w' =>
        statusLabel w'
        = if opened_in_preview config files_saved
          then "Saved " ++ str_nat (List.length files_saved)
               ++ " file(s) - Opened in Preview"
          else "Saved " ++ str_nat (List.length files_saved) ++ " file(s)").
Proof.
  wp_step. wp_step. wp_step. wp_step. wp_step.
  set (w1 := set_log _ _).
  assert (H1 : statusLabel w1
               = "Saved " ++ str_nat (List.length files_saved) ++ " file(s)")
    by reflexivity.
  clearbody w1.
  apply wp_mono with
    (P := fun (_ : unit) w2 =>
            statusLabel w2
            = "Saved " ++ str_nat (List.length files_saved) ++ " file(s)").
  - apply wp_when; intros _; [|exact H1].
    wp_step. wp_step.
    eapply wp_mono; [apply print_lines_spec|].
    intros ? w2 [_ Hs]. simpl in Hs. congruence.
  - intros ? w2 Hs2.
    destruct files_saved as [|f fs]; [apply wp_ret; exact Hs2|].
    eapply wp_mono; [apply openInPreview_status|].
    intros ? w3 Hs. cbv beta. rewrite Hs.
    destruct (opened_in_preview config (f :: fs)); [reflexivity | exact Hs2].
Qed.

Lemma saveAllDocuments_status w :
  holds_capture w = true ->
  wp (saveAllDocuments_ config) w
     (fun _ w' =>
        let files :=
          map fst (save_writes config (strftime_Ymd_HMS (clock (ticks w))) w) in
        statusLabel w'
        = if opened_in_preview config files
          then "Saved " ++ str_nat (List.length files)
               ++ " file(s) - Opened in Preview"
          else "Saved " ++ str_nat (List.length files) ++ " file(s)").
Proof.
  intros Hheld. unfold saveAllDocuments_. wp_step. wp_step.
  assert (Hh : match captured_images w, truthy (captured_data w) with
               | [], false => false
               | _, _ => true
               end = true)
    by (unfold holds_capture in Hheld; destruct (captured_images w);
        [destruct (truthy _); [reflexivity | discriminate] | reflexivity]).
  destruct (captured_images w) as [|image images] eqn:Hi;
    destruct (truthy (captured_data w)) eqn:Ht; try discriminate Hh.
  all: clear Hi Ht Hh.
  all: wp_step; wp_step; wp_step; apply wp_datetime_now; wp_step.
  all: eapply wp_mono; [apply save_document_spec|].
  all: intros files1 w1 (Hf1 & Hd1 & Hc1 & Hi1); wsimpl.
  all: wp_step; wp_step; wp_step.
  all: eapply wp_mono; [apply save_pages_spec|].
  all: intros files2 w2 (Hf2 & Hd2 & Hc2 & Hi2).
  all: eapply wp_mono; [apply save_rest_status|].
  all: intros u w3 Hs3.
  all: assert (Hfiles : files2
                        = map fst
                            (save_writes config
                               (strftime_Ymd_HMS (clock (ticks w))) w))
    by (unfold save_writes; rewrite Hf2, Hf1, Hi1, map_app; reflexivity).
  all: cbv zeta; rewrite <- Hfiles; exact Hs3.
Qed.

Lemma convertPdfToPng_status w :
  wp (convertPdfToPng_ config) w
     (fun _ w' =>
        match captured_data w with
        | Some ((_ :: _) as captured) =>
            match PDFDocument_initWithData_ captured with
            | Some pdf_doc =>
                let files :=
                  map fst
                    (convert_writes config pdf_doc
                       (strftime_Ymd_HMS (clock (ticks w)))) in
                statusLabel w'
                = match files with
                  | [] => "Error: No pages could be converted"
                  | _ :: _ =>
                      if opened_in_preview config files
                      then "Saved " ++ str_nat (List.length files)
                           ++ " file(s) - Opened in Preview"
                      else "Successfully converted "
                           ++ str_nat (List.length files) ++ " page(s) to PNG"
                  end
            | None => statusLabel w' = "Error: Could not process PDF"
            end
        | _ => statusLabel w' = "No PDF data available for conversion"
        end).
Proof.
  unfold convertPdfToPng_. wp_step. wp_step.
  destruct (captured_data w) as [[|b captured]|] eqn:Hc;
    try solve [wp_steps; reflexivity].
  destruct (PDFDocument_initWithData_ (b :: captured)) as [pdf_doc|];
    [|solve [wp_steps; reflexivity]].
  wp_steps. apply wp_datetime_now. wp_steps.
  eapply wp_mono; [apply convert_pages_spec|].
  intros files1 w1 (Hf1 & _).
  assert (Hfiles : files1
                   = map fst
                       (convert_writes config pdf_doc
                          (strftime_Ymd_HMS (clock (ticks w)))))
    by (rewrite Hf1; reflexivity).
  clear Hf1. cbv zeta. rewrite <- Hfiles. clear Hfiles.
  destruct files1 as [|f fs].
  - wp_steps. reflexivity.
  - wp_steps.
    set (w2 := set_log _ _).
    assert (H2 : statusLabel w2
                 = "Successfully converted "
                   ++ str_nat (List.length (f :: fs)) ++ " page(s) to PNG")
      by reflexivity.
    clearbody w2.
    apply wp_mono with
      (P := fun (_ : unit) w3 =>
              statusLabel w3
              = "Successfully converted "
                ++ str_nat (List.length (f :: fs)) ++ " page(s) to PNG").
    + apply wp_when; intros _; [|exact H2].
      wp_step. wp_step.
      eapply wp_mono; [apply print_lines_spec|].
      intros ? w3 [_ Hs]. simpl in Hs. congruence.
    + intros ? w3 Hs3.
      eapply wp_mono; [apply openInPreview_status|].
      intros ? w4 Hs. cbv beta. rewrite Hs.
      destruct (opened_in_preview config (f :: fs)); [reflexivity | exact Hs3].
Qed.

(** *** The files, one by one *)

Lemma in_format_writes_iff timestamp page_num best_rep fmt path data :
  In (path, data) (format_writes config timestamp page_num best_rep fmt) <->
  exists file_type,
    getitem type_map fmt = Some file_type /\
    representationUsingType_properties_ best_rep file_type
      (if OutputFormat_eqb fmt JPEG
       then [("NSImageCompressionFactor", jpeg_quality config)] else [])
    = Some data /\
    data <> [] /\
    path = joinpath (output_dir config)
             (page_filename_of config timestamp page_num (value fmt)) /\
    write_succeeds data path = true.
Proof.
  unfold format_writes. cbv zeta. split.
  - destruct (getitem type_map fmt) as [file_type|]; [|intros []].
    match goal with
    | |- context [representationUsingType_properties_ ?r ?t ?p] =>
        destruct (representationUsingType_properties_ r t p)
          as [[|b d]|] eqn:He
    end; try (intros []).
    match goal with
    | |- context [if write_succeeds ?d ?p then _ else _] =>
        destruct (write_succeeds d p) eqn:Hw
    end; [|intros []].
    intros [[= <- <-]|[]]. exists file_type.
    repeat split; auto; discriminate.
  - intros (file_type & -> & -> & Hne & -> & Hw).
    destruct data as [|b d]; [congruence|].
    rewrite Hw. left. reflexivity.
Qed.

Lemma type_map_not_PDF fmt file_type :
  getitem type_map fmt = Some file_type -> fmt <> PDF.
Proof. intros H ->. discriminate H. Qed.

Lemma in_page_writes_iff timestamp i image path data :
  In (path, data) (page_writes config timestamp (i, image)) <->
  exists best_rep fmt file_type,
    _getBestImageRep (Some image) = Some best_rep /\
    In fmt (output_formats config) /\ fmt <> PDF /\
    getitem type_map fmt = Some file_type /\
    representationUsingType_properties_ best_rep file_type
      (if OutputFormat_eqb fmt JPEG
       then [("NSImageCompressionFactor", jpeg_quality config)] else [])
    = Some data /\
    data <> [] /\
    path = joinpath (output_dir config)
             (page_filename_of config timestamp (i + 1) (value fmt)) /\
    write_succeeds data path = true.
Proof.
  unfold page_writes. cbn [fst snd]. split.
  - destruct (_getBestImageRep (Some image)) as [best_rep|]; [|intros []].
    rewrite in_flat_map. intros (fmt & Hin & Hw).
    apply in_format_writes_iff in Hw.
    destruct Hw as (file_type & Ht & He & Hne & Hp & Hw).
    exists best_rep, fmt, file_type. repeat split; auto.
    eapply type_map_not_PDF; eassumption.
  - intros (best_rep & fmt & file_type & -> & Hin & _ & Ht & He & Hne & Hp
            & Hw).
    rewrite in_flat_map. exists fmt. split; [exact Hin|].
    apply in_format_writes_iff. exists file_type. auto.
Qed.

Lemma in_page_files_iff timestamp images path data :
  In (path, data)
    (flat_map (page_writes config timestamp) (enumerate images)) <->
  exists i image best_rep fmt file_type,
    nth_error images i = Some image /\
    _getBestImageRep (Some image) = Some best_rep /\
    In fmt (output_formats config) /\ fmt <> PDF /\
    getitem type_map fmt = Some file_type /\
    representationUsingType_properties_ best_rep file_type
      (if OutputFormat_eqb fmt JPEG
       then [("NSImageCompressionFactor", jpeg_quality config)] else [])
    = Some data /\
    data <> [] /\
    path = joinpath (output_dir config)
             (page_filename_of config timestamp (i + 1) (value fmt)) /\
    write_succeeds data path = true.
Proof.
  rewrite in_flat_map. split.
  - intros ([i image] & Hin & Hw). apply in_enumerate in Hin.
    apply in_page_writes_iff in Hw.
    destruct Hw as (best_rep & fmt & file_type & Hw).
    exists i, image, best_rep, fmt, file_type. tauto.
  - intros (i & image & best_rep & fmt & file_type & Hn & Hw).
    exists (i, image). split; [apply in_enumerate; exact Hn|].
    apply in_page_writes_iff. exists best_rep, fmt, file_type. exact Hw.
Qed.

Lemma in_document_writes_iff timestamp captured path data :
  In (path, data) (document_writes config timestamp captured) <->
  captured = Some data /\ data <> [] /\
  In PDF (output_formats config) /\
  path = joinpath (output_dir config) (pdf_filename_of config timestamp) /\
  write_succeeds data path = true.
Proof.
  unfold document_writes. cbv zeta. split.
  - destruct captured as [[|b d]|]; try (intros []).
    destruct (existsb (OutputFormat_eqb PDF) (output_formats config)) eqn:He;
      [|intros []].
    match goal with
    | |- context [if write_succeeds ?d ?p then _ else _] =>
        destruct (write_succeeds d p) eqn:Hw
    end; [|intros []].
    intros [[= <- <-]|[]]. repeat split; auto; [discriminate|].
    apply existsb_exists in He. destruct He as (f & Hin & Hf).
    destruct f; try discriminate. exact Hin.
  - intros (-> & Hne & Hpdf & -> & Hw).
    destruct data as [|b d]; [congruence|].
    assert (He : existsb (OutputFormat_eqb PDF) (output_formats config) = true)
      by (apply existsb_exists; exists PDF; split; [exact Hpdf | reflexivity]).
    rewrite He, Hw. left. reflexivity.
Qed.

Lemma in_convert_page_writes_iff pdf_doc timestamp i path data :
  In (path, data) (convert_page_writes config pdf_doc timestamp i) <->
  exists page rep,
    pageAtIndex_ pdf_doc i = Some page /\
    convert_rep config page = Some rep /\
    representationUsingType_properties_ rep NSBitmapImageFileTypePNG []
    = Some data /\
    data <> [] /\
    path = joinpath (output_dir config)
             (page_filename_of config timestamp (i + 1) "png") /\
    write_succeeds data path = true.
Proof.
  unfold convert_page_writes. cbv zeta. split.
  - destruct (pageAtIndex_ pdf_doc i) as [page|] eqn:Hp; [|intros []].
    destruct (convert_rep config page) as [rep|] eqn:Hr; [|intros []].
    destruct
      (representationUsingType_properties_ rep NSBitmapImageFileTypePNG [])
      as [[|b d]|] eqn:He; try (intros []).
    match goal with
    | |- context [if write_succeeds ?d ?p then _ else _] =>
        destruct (write_succeeds d p) eqn:Hw
    end; [|intros []].
    intros [[= <- <-]|[]]. exists page, rep.
    repeat split; auto; discriminate.
  - intros (page & rep & -> & -> & -> & Hne & -> & Hw).
    destruct data as [|b d]; [congruence|].
    rewrite Hw. left. reflexivity.
Qed.

Lemma in_convert_writes_iff pdf_doc timestamp path data :
  In (path, data) (convert_writes config pdf_doc timestamp) <->
  exists i page rep,
    i < pageCount pdf_doc /\
    pageAtIndex_ pdf_doc i = Some page /\
    convert_rep config page = Some rep /\
    representationUsingType_properties_ rep NSBitmapImageFileTypePNG []
    = Some data /\
    data <> [] /\
    path = joinpath (output_dir config)
             (page_filename_of config timestamp (i + 1) "png") /\
    write_succeeds data path = true.
Proof.
  unfold convert_writes. rewrite in_flat_map. split.
  - intros (i & Hin & Hw). apply in_seq in Hin.
    apply in_convert_page_writes_iff in Hw. destruct Hw as (page & rep & Hw).
    exists i, page, rep. split; [lia | exact Hw].
  - intros (i & page & rep & Hi & Hw). exists i.
    split; [apply in_seq; lia|].
    apply in_convert_page_writes_iff. exists page, rep. exact Hw.
Qed.

(** The representation a convert encodes for a page: the best bitmap
    representation of the rendered image, and only when there is none the
    one read back from the image's TIFF data. *)
Lemma convert_rep_cases page rep :
  convert_rep config page = Some rep <->
  _getBestImageRep (Some (render_page config page)) = Some rep \/
  (_getBestImageRep (Some (render_page config page)) = None /\
   exists tiff,
     TIFFRepresentation (render_page config page) = Some tiff /\
     tiff <> [] /\
     imageRepWithData_ tiff = Some rep).
Proof.
  unfold convert_rep. cbv zeta.
  destruct (_getBestImageRep (Some (render_page config page))) as [r|].
  - split; [auto | intros [H | [H _]]; [exact H | discriminate H]].
  - destruct (TIFFRepresentation (render_page config page)) as [[|b d]|].
    + split; [discriminate|].
      intros [H | [_ (tiff & [= <-] & Hne & _)]]; [discriminate | congruence].
    + split.
      * intros H. right. split; [reflexivity|].
        exists (b :: d). repeat split; [discriminate | exact H].
      * intros [H | [_ (tiff & [= <-] & _ & H)]]; [discriminate | exact H].
    + split; [discriminate|].
      intros [H | [_ (tiff & H & _)]]; discriminate.
Qed.

(** *** The pages of a document *)

Lemma pages_from_length (pdf_doc : PDFDocument) (indices : list nat) :
  List.length
    (flat_map
       (fun i =>
          match pageAtIndex_ pdf_doc i with Some p => [p] | None => [] end)
       indices)
  <= List.length indices.
Proof.
  induction indices as [|i rest IH]; simpl; [lia|].
  rewrite length_app. destruct (pageAtIndex_ pdf_doc i); simpl; lia.
Qed.

Lemma pages_of_length (pdf_doc : PDFDocument) :
  List.length (pages_of pdf_doc) <= pageCount pdf_doc.
Proof.
  unfold pages_of.
  pose proof (pages_from_length pdf_doc (seq 0 (pageCount pdf_doc))) as H.
  rewrite length_seq in H. exact H.
Qed.

End Exact.

(** * Results *)

(** ** The representation selector *)

(** C5, as stated, fails on a raster representation without pixels: the
    image holds one raster-typed representation, which is therefore the
    one with the largest pixel area, and the selector returns nothing. *)
Lemma C5_zero_area_representation_not_selected :
  let rep := mk_NSImageRep true 0 0 [] in
  let image := mk_NSImage (NSMakeSize 0 0) [rep] 0 false in
  first_largest_raster (representations image) rep /\
  _getBestImageRep (Some image) = None /\
  _getBestImageRep (Some image) <> Some rep.
Proof.
  simpl. split; [|split; [reflexivity | discriminate]].
  exists [], []. repeat split; auto; intros x [].
Qed.

(** C5 (amended): [_getBestImageRep] returns the raster-typed
    representation with the largest pixel area, the first one in insertion
    order among equals, exactly when that area is positive; it returns
    nothing exactly when no raster-typed representation has a positive
    pixel area, in particular for an image without representations and for
    a missing image.  Being a function of the representation list, it
    selects the same representation every time. *)
Theorem C5_best_rep_is_first_largest_positive_raster (image : NSImage) :
  _getBestImageRep None = None /\
  (forall r,
      _getBestImageRep (Some image) = Some r <->
      first_largest_raster (representations image) r /\ (0 < area r)%Z) /\
  (_getBestImageRep (Some image) = None <->
   forall x, In x (representations image) -> isBitmapImageRep x = true ->
             (area x <= 0)%Z).
Proof.
  split; [reflexivity|]. unfold _getBestImageRep. split.
  - intros r. split.
    + intros H. destruct (best_rep_loop_some _ _ _ _ H) as [[Hn _]|Hf].
      * discriminate.
      * exact Hf.
    + intros [Hf Hpos]. apply first_largest_raster_selected; assumption.
  - split.
    + apply best_rep_loop_none.
    + intros H. apply best_rep_loop_keeps. exact H.
Qed.

(** ** The per-page encoder *)

Section Encoder.

Context {cocoa : Cocoa}.

(** C7: [_saveImageRep] hands the configured quality to the encoder for
    JPEG only.  For PNG and for TIFF the encoder receives no property at
    all, so two runs that differ only in [jpeg_quality] return the same
    flag and leave the same world, byte for byte. *)
Theorem C7_quality_only_for_jpeg (config : Config) (q : float)
  (rep : NSImageRep) (filepath : string) (w : World) :
  _saveImageRep config (Some rep) (Some filepath) (Some JPEG) w
  = match
      representationUsingType_properties_ rep NSBitmapImageFileTypeJPEG
        [("NSImageCompressionFactor", jpeg_quality config)]
    with
    | Some ((_ :: _) as data) => writeToFile_atomically_ data filepath w
    | _ => Returns false w
    end /\
  _saveImageRep (with_jpeg_quality q config) (Some rep) (Some filepath)
    (Some PNG) w
  = _saveImageRep config (Some rep) (Some filepath) (Some PNG) w /\
  _saveImageRep (with_jpeg_quality q config) (Some rep) (Some filepath)
    (Some TIFF) w
  = _saveImageRep config (Some rep) (Some filepath) (Some TIFF) w /\
  _saveImageRep config (Some rep) (Some filepath) (Some PNG) w
  = match
      representationUsingType_properties_ rep NSBitmapImageFileTypePNG []
    with
    | Some ((_ :: _) as data) => writeToFile_atomically_ data filepath w
    | _ => Returns false w
    end /\
  _saveImageRep config (Some rep) (Some filepath) (Some TIFF) w
  = match
      representationUsingType_properties_ rep NSBitmapImageFileTypeTIFF []
    with
    | Some ((_ :: _) as data) => writeToFile_atomically_ data filepath w
    | _ => Returns false w
    end.
Proof.
  unfold _saveImageRep. simpl.
  repeat split;
    match goal with
    | |- context [representationUsingType_properties_ ?r ?t ?p] =>
        destruct (representationUsingType_properties_ r t p) as [[|b data]|]
    end; reflexivity.
Qed.

(** C10: [_saveImageRep] returns [False], touching nothing, when its
    representation, its path or its format is missing; called with a
    representation, a path and the PDF format it raises [KeyError]; and
    [saveAllDocuments_], whose loop skips PDF before the call, returns
    normally from every world and under every configuration. *)
Theorem C10_keyerror_unreachable_from_save (config : Config)
  (rep : option NSImageRep) (filepath : option string)
  (format : option OutputFormat) (r : NSImageRep) (p : string) (w : World) :
  _saveImageRep config None filepath format w = Returns false w /\
  _saveImageRep config rep None format w = Returns false w /\
  _saveImageRep config rep filepath None w = Returns false w /\
  _saveImageRep config (Some r) (Some p) (Some PDF) w = Raises (KeyError PDF) w /\
  exists w', saveAllDocuments_ config w = Returns tt w'.
Proof.
  repeat split.
  - destruct rep; reflexivity.
  - destruct rep, filepath; reflexivity.
  - destruct (wp_returns _ _ _ (saveAllDocuments_spec config w))
      as ([] & w' & Hrun & _).
    exists w'. exact Hrun.
Qed.

End Encoder.

(** ** Capture *)

Section Capture.

Context {cocoa : Cocoa}.

(** C4: a capture starts by emptying both the page list and the document
    bytes, so it runs the same from any session as from that session with
    nothing captured; what it leaves in the two fields, and the flag it
    returns, depend on the pasteboard alone, never on an earlier capture,
    whether or not anything is found this time. *)
Theorem C4_capture_discards_previous (config : Config)
  (pasteboard : NSPasteboard) (w1 w2 : World) :
  readSelectionFromPasteboard_ config pasteboard w1
  = readSelectionFromPasteboard_ config pasteboard (reset_capture w1) /\
  exists flag w1' w2',
    readSelectionFromPasteboard_ config pasteboard w1 = Returns flag w1' /\
    readSelectionFromPasteboard_ config pasteboard w2 = Returns flag w2' /\
    captured_data w1' = captured_data w2' /\
    captured_images w1' = captured_images w2'.
Proof.
  split; [reflexivity|].
  destruct (wp_returns _ _ _ (readSelectionFromPasteboard_spec config pasteboard w1))
    as (f1 & w1' & Hrun1 & Hf1 & H1).
  destruct (wp_returns _ _ _ (readSelectionFromPasteboard_spec config pasteboard w2))
    as (f2 & w2' & Hrun2 & Hf2 & H2).
  assert (Hsame : captured_data w1' = captured_data w2' /\
                  captured_images w1' = captured_images w2').
  { destruct (first_pdf_data pasteboard pdf_types None) as [[|b bytes]|].
    - destruct H1 as (-> & -> & _), H2 as (-> & -> & _). auto.
    - destruct H1 as (-> & _ & H1), H2 as (-> & _ & H2).
      destruct (PDFDocument_initWithData_ (b :: bytes));
        destruct H1 as (-> & _), H2 as (-> & _); auto.
    - destruct H1 as (-> & -> & _), H2 as (-> & -> & _). auto. }
  destruct Hsame as [Hd Hi].
  exists f1, w1', w2'. repeat split; auto.
  rewrite Hrun2. f_equal. rewrite Hf1, Hf2, Hd, Hi. reflexivity.
Qed.

(** C8: the aliases are tried in the order ['com.adobe.pdf'], the AppKit
    constant, ['public.pdf'].  When an alias is on the pasteboard with
    non-empty bytes and every alias before it is absent or without bytes,
    the capture succeeds with exactly those bytes as its document, and the
    only fetches it makes are those of the earlier aliases that are present,
    then this one: no later alias and no raster type is asked for. *)
Theorem C8_first_alias_with_bytes_wins (config : Config)
  (pasteboard : NSPasteboard) (w : World) (pre post : list string)
  (a : string) (b : Byte.byte) (bytes : NSData) :
  pdf_types = (pre ++ a :: post)%list ->
  contains (types pasteboard) a = true ->
  bytesForType pasteboard a = Some (b :: bytes) ->
  (forall x, In x pre -> contains (types pasteboard) x = true ->
             truthy (bytesForType pasteboard x) = false) ->
  pdf_types = ["com.adobe.pdf"; NSPasteboardTypePDF; "public.pdf"] /\
  exists w',
    readSelectionFromPasteboard_ config pasteboard w = Returns true w' /\
    captured_data w' = Some (b :: bytes) /\
    fetched w'
    = (fetched w ++ filter (contains (types pasteboard)) pre ++ [a])%list.
Proof.
  intros Hsplit Ha Hb Hpre. split; [reflexivity|].
  destruct (first_alias_wins pasteboard pre a post b bytes Ha Hb Hpre None)
    as [Hfirst Hfetch].
  rewrite <- Hsplit in Hfirst, Hfetch.
  destruct (wp_returns _ _ _
              (readSelectionFromPasteboard_spec config pasteboard w))
    as (flag & w' & Hrun & Hflag & Hpost).
  rewrite Hfirst in Hpost. destruct Hpost as (Hd & Hf & _).
  exists w'. rewrite Hf, Hfetch. repeat split; auto.
  rewrite Hrun. f_equal. rewrite Hflag, Hd. apply orb_true_r.
Qed.

(** C2 (amended): a capture returns normally and writes no file, except on
    the degraded path: when document bytes were found and do not parse,
    [_saveRawPDF] writes them, unchanged, to [{prefix}_{timestamp}.pdf] in
    the output directory (one file, or none if that write fails). *)
Theorem C2_capture_writes_only_unparsed_document (config : Config)
  (pasteboard : NSPasteboard) (w : World) :
  wp (readSelectionFromPasteboard_ config pasteboard) w
     (fun flag w' =>
        flag = ((0 <? List.length (captured_images w'))%nat
                || match captured_data w' with
                   | Some _ => true
                   | None => false
                   end) /\
        match first_pdf_data pasteboard pdf_types None with
        | Some ((_ :: _) as bytes) =>
            match PDFDocument_initWithData_ bytes with
            | Some _ => disk w' = disk w
            | None =>
                let path :=
                  joinpath (output_dir config)
                    (filename_prefix config ++ "_"
                     ++ strftime_Ymd_HMS (clock (ticks w)) ++ ".pdf") in
                disk w'
                = (disk w
                   ++ (if write_succeeds bytes path then [(path, bytes)]
                       else []))%list
            end
        | _ => disk w' = disk w
        end).
Proof.
  eapply wp_mono; [apply readSelectionFromPasteboard_spec|].
  intros flag w' [Hflag Hpost]. split; [exact Hflag|].
  destruct (first_pdf_data pasteboard pdf_types None) as [[|b bytes]|].
  - tauto.
  - destruct Hpost as (_ & _ & Hpost).
    destruct (PDFDocument_initWithData_ (b :: bytes)); [tauto|].
    destruct Hpost as [_ Hdisk]. exact Hdisk.
  - tauto.
Qed.

End Capture.

(** C8, on a pasteboard where all three aliases and a raster type carry a
    document: only ['com.adobe.pdf'] is fetched. *)
Lemma C8_first_alias_with_bytes_wins_witness :
  pdf_types (cocoa := Demo.platform)
  = ["com.adobe.pdf"; "com.adobe.pdf"; "public.pdf"] /\
  exists w',
    readSelectionFromPasteboard_ (cocoa := Demo.platform) Demo.config
      Demo.offers_everything init_World
    = Returns true w' /\
    captured_data w' = Some [Byte.x25; Byte.x01] /\
    fetched w' = ["com.adobe.pdf"].
Proof.
  exact (C8_first_alias_with_bytes_wins (cocoa := Demo.platform) Demo.config
           Demo.offers_everything init_World []
           ["com.adobe.pdf"; "public.pdf"] "com.adobe.pdf" Byte.x25 [Byte.x01]
           eq_refl eq_refl eq_refl
           (fun x (H : In x []) _ => match H with end)).
Defined.

(** C2, as stated, fails on the degraded path: bytes offered as a document
    that do not parse are written to a file during the capture itself. *)
Lemma C2_degraded_capture_writes_a_file :
  let pasteboard := Demo.pasteboard_with "com.adobe.pdf" [Byte.x01; Byte.x00] in
  let outcome :=
    readSelectionFromPasteboard_ (cocoa := Demo.platform) Demo.config
      pasteboard init_World in
  PDFDocument_initWithData_ (Cocoa := Demo.platform) [Byte.x01; Byte.x00] = None /\
  disk init_World = [] /\
  disk (final_world outcome)
  = [("/out/scanned_document_20240102_030405.pdf", [Byte.x01; Byte.x00])] /\
  disk (final_world outcome) <> disk init_World.
Proof.
  cbv zeta. repeat split. discriminate.
Qed.

(** ** Save and convert *)

Section Batches.

Context {cocoa : Cocoa}.

(** C9: [convertPdfToPng_] never reads the configured formats or the JPEG
    quality: its whole outcome, files and bytes included, is the same
    whatever they are.  It returns normally.  When the captured bytes
    parse, the disk gains, in page order, one [.png] file for every page
    index whose page exists, for which a representation is obtained (the
    best bitmap representation of the rendered image, or failing that the
    one read back from the image's TIFF data), whose PNG encoding, made
    with no encoder property, is not empty, and whose write succeeds:
    that file holds exactly that encoding.  It gains nothing else, and
    nothing at all when there are no captured bytes or they do not
    parse. *)
Theorem C9_convert_ignores_formats_and_quality (config : Config)
  (formats : list OutputFormat) (q : float) (w : World) :
  convertPdfToPng_ (with_output_formats formats (with_jpeg_quality q config)) w
  = convertPdfToPng_ config w /\
  wp (convertPdfToPng_ config) w
     (fun _ w' =>
        match captured_data w with
        | Some ((_ :: _) as captured) =>
            match PDFDocument_initWithData_ captured with
            | Some pdf_doc =>
                let timestamp := strftime_Ymd_HMS (clock (ticks w)) in
                let written := convert_writes config pdf_doc timestamp in
                disk w' = (disk w ++ written)%list /\
                forall path data,
                  In (path, data) written <->
                  exists i page rep,
                    i < pageCount pdf_doc /\
                    pageAtIndex_ pdf_doc i = Some page /\
                    (_getBestImageRep (Some (render_page config page))
                     = Some rep \/
                     _getBestImageRep (Some (render_page config page))
                     = None /\
                     exists tiff,
                       TIFFRepresentation (render_page config page)
                       = Some tiff /\
                       tiff <> [] /\
                       imageRepWithData_ tiff = Some rep) /\
                    representationUsingType_properties_ rep
                      NSBitmapImageFileTypePNG []
                    = Some data /\
                    data <> [] /\
                    path
                    = joinpath (output_dir config)
                        (filename_prefix config ++ "_" ++ timestamp
                         ++ "_page" ++ format_02d (i + 1) ++ ".png") /\
                    write_succeeds data path = true
            | None => disk w' = disk w
            end
        | _ => disk w' = disk w
        end).
Proof.
  split; [reflexivity|].
  eapply wp_mono; [apply convertPdfToPng_spec|].
  intros u w' (_ & _ & Hpost).
  destruct (captured_data w) as [[|b bytes]|]; try tauto.
  destruct (PDFDocument_initWithData_ (b :: bytes)) as [pdf_doc|]; [|tauto].
  cbv zeta in *. destruct Hpost as [Hdisk _]. split; [exact Hdisk|].
  intros path data. rewrite in_convert_writes_iff. split.
  - intros (i & page & rep & Hi & Hp & Hr & H).
    exists i, page, rep. apply convert_rep_cases in Hr. tauto.
  - intros (i & page & rep & Hi & Hp & Hr & H).
    exists i, page, rep. apply convert_rep_cases in Hr. tauto.
Qed.

(** C6: every file written by one save is the whole-document file
    [{prefix}_{timestamp}.pdf] or a page file
    [{prefix}_{timestamp}_page{NN}.{ext}], and every file written by one
    convert is a page file [{prefix}_{timestamp}_page{NN}.png].  NN is
    the 1-based number of the page the file encodes: the file made from
    the captured image at position i, or from the document's page of
    index i, carries i + 1, and each page that is encoded and written has
    its file under that number.  NN is written in decimal, padded with
    zeros to two digits at least, and distinct for distinct pages.  The
    timestamp is the one clock reading taken when the operation starts,
    formatted to the second, so the names of one batch differ only in the
    page number and the extension. *)
Theorem C6_file_names_share_one_timestamp (config : Config) (w : World) :
  wp (saveAllDocuments_ config) w
     (fun _ w' =>
        let timestamp := strftime_Ymd_HMS (clock (ticks w)) in
        exists written,
          disk w' = (disk w ++ written)%list /\
          forall path data,
            In (path, data) written <->
            (captured_data w = Some data /\ data <> [] /\
             In PDF (output_formats config) /\
             path
             = joinpath (output_dir config)
                 (filename_prefix config ++ "_" ++ timestamp ++ ".pdf") /\
             write_succeeds data path = true) \/
            exists i image best_rep fmt file_type,
              nth_error (captured_images w) i = Some image /\
              _getBestImageRep (Some image) = Some best_rep /\
              In fmt (output_formats config) /\ fmt <> PDF /\
              getitem type_map fmt = Some file_type /\
              representationUsingType_properties_ best_rep file_type
                (if OutputFormat_eqb fmt JPEG
                 then [("NSImageCompressionFactor", jpeg_quality config)]
                 else [])
              = Some data /\
              data <> [] /\
              path
              = joinpath (output_dir config)
                  (filename_prefix config ++ "_" ++ timestamp ++ "_page"
                   ++ format_02d (i + 1) ++ "." ++ value fmt) /\
              write_succeeds data path = true) /\
  wp (convertPdfToPng_ config) w
     (fun _ w' =>
        let timestamp := strftime_Ymd_HMS (clock (ticks w)) in
        exists written,
          disk w' = (disk w ++ written)%list /\
          forall path data,
            In (path, data) written <->
            exists captured pdf_doc i page rep,
              captured_data w = Some captured /\ captured <> [] /\
              PDFDocument_initWithData_ captured = Some pdf_doc /\
              i < pageCount pdf_doc /\
              pageAtIndex_ pdf_doc i = Some page /\
              convert_rep config page = Some rep /\
              representationUsingType_properties_ rep
                NSBitmapImageFileTypePNG []
              = Some data /\
              data <> [] /\
              path
              = joinpath (output_dir config)
                  (filename_prefix config ++ "_" ++ timestamp ++ "_page"
                   ++ format_02d (i + 1) ++ ".png") /\
              write_succeeds data path = true) /\
  (forall n, 2 <= String.length (format_02d n)) /\
  (forall n m, format_02d n = format_02d m -> n = m) /\
  (forall n, parse_nat (format_02d n) = Some n) /\
  map format_02d [1; 2; 3; 10; 100] = ["01"; "02"; "03"; "10"; "100"] /\
  (forall y mo d h mi s us us',
      strftime_Ymd_HMS (mk_datetime y mo d h mi s us)
      = strftime_Ymd_HMS (mk_datetime y mo d h mi s us')) /\
  strftime_Ymd_HMS (mk_datetime 2024 1 2 3 4 5 678) = "20240102_030405".
Proof.
  split; [|split].
  - eapply wp_mono; [apply saveAllDocuments_spec|].
    intros u w' (_ & _ & Hpost). unfold save_post in Hpost. cbv zeta.
    destruct (holds_capture w) eqn:Hheld.
    + cbv zeta in Hpost. destruct Hpost as [Hdisk _].
      eexists. split; [exact Hdisk|].
      intros path data. unfold save_writes.
      rewrite in_app_iff, in_document_writes_iff, in_page_files_iff.
      reflexivity.
    + exists []. rewrite app_nil_r. split; [tauto|].
      intros path data. split; [intros []|].
      unfold holds_capture in Hheld.
      intros [(Hc & Hne & _) | (i & image & ? & ? & ? & Hn & _)].
      * rewrite Hc in Hheld. destruct data; [congruence|].
        destruct (captured_images w); discriminate Hheld.
      * destruct (captured_images w); [|discriminate Hheld].
        destruct i; discriminate Hn.
  - eapply wp_mono; [apply convertPdfToPng_spec|].
    intros u w' (_ & _ & Hpost). cbv zeta.
    destruct (captured_data w) as [[|b bytes]|] eqn:Hc.
    + exists []. rewrite app_nil_r. split; [tauto|].
      intros path data. split; [intros []|].
      intros (captured & ? & ? & ? & ? & [= <-] & Hne & _). congruence.
    + destruct (PDFDocument_initWithData_ (b :: bytes)) as [pdf_doc|] eqn:Hp.
      * cbv zeta in Hpost. destruct Hpost as [Hdisk _].
        eexists. split; [exact Hdisk|].
        intros path data. rewrite in_convert_writes_iff. split.
        -- intros (i & page & rep & H).
           exists (b :: bytes), pdf_doc, i, page, rep.
           repeat split; try tauto. discriminate.
        -- intros (captured & pdf_doc' & i & page & rep & [= <-] & _ & Hp' & H).
           rewrite Hp in Hp'. injection Hp' as <-.
           exists i, page, rep. exact H.
      * exists []. rewrite app_nil_r. split; [tauto|].
        intros path data. split; [intros []|].
        intros (captured & ? & ? & ? & ? & [= <-] & _ & Hp' & _). congruence.
    + exists []. rewrite app_nil_r. split; [tauto|].
      intros path data. split; [intros []|].
      intros (captured & ? & ? & ? & ? & Hc' & _). discriminate Hc'.
  - repeat split.
    + intros n. apply format_0d_length.
    + intros n m. apply format_0d_inj.
    + intros n. apply parse_format_0d.
Qed.

End Batches.

Section Isolation.

Context {cocoa : Cocoa}.

(** C1 (amended): from a session that holds a capture, a save returns
    normally after going through every captured image, and a convert
    whose captured bytes parse returns normally after going through every
    page index: the disk gains the files of each page in turn, each page
    contributing what it yields on its own whatever happens to the pages
    before and after it, and the capture is kept.  The status line then
    gives the number N of files written: [Saved N file(s)] after a save;
    after a convert [Successfully converted N page(s) to PNG], or
    [Error: No pages could be converted] when N is 0; either becomes
    [Saved N file(s) - Opened in Preview] when Preview was asked for, N
    is not 0 and the workspace opened the files.  A convert without
    captured bytes, or with bytes that do not parse, enters no loop,
    writes nothing, and says so in the status line. *)
Theorem C1_batch_attempts_every_page (config : Config) (w : World) :
  holds_capture w = true ->
  wp (saveAllDocuments_ config) w (save_batch_post config w) /\
  wp (convertPdfToPng_ config) w (convert_batch_post config w).
Proof.
  intros Hheld. split.
  - eapply wp_mono;
      [apply wp_conj;
       [apply saveAllDocuments_spec
       | apply saveAllDocuments_status; exact Hheld]|].
    intros u w' [(Hd & Hi & Hpost) Hs]. unfold save_post in Hpost.
    rewrite Hheld in Hpost. cbv zeta in Hpost, Hs.
    destruct Hpost as [Hdisk _].
    unfold save_writes in Hdisk, Hs. rewrite length_map in Hs.
    unfold save_batch_post. cbv zeta. repeat split; auto.
    intros i image Hnth path Hin. rewrite Hdisk.
    apply in_or_app. right.
    apply in_or_app. right. apply in_flat_map.
    exists (i, image). split; [apply in_enumerate; exact Hnth | exact Hin].
  - eapply wp_mono;
      [apply wp_conj;
       [apply convertPdfToPng_spec | apply convertPdfToPng_status]|].
    intros u w' [(Hd & Hi & Hpost) Hs].
    unfold convert_batch_post. split; [exact Hd|]. split; [exact Hi|].
    destruct (captured_data w) as [[|b bytes]|]; try tauto.
    destruct (PDFDocument_initWithData_ (b :: bytes)) as [pdf_doc|]; [|tauto].
    cbv zeta in Hpost, Hs. destruct Hpost as [Hdisk _].
    unfold convert_writes in Hdisk, Hs. cbv zeta.
    split; [exact Hdisk|]. split.
    + intros i Hlt path Hin. rewrite Hdisk.
      apply in_or_app. right. apply in_flat_map.
      exists i. split; [apply in_seq; lia | exact Hin].
    + rewrite Hs.
      destruct (flat_map _ (seq 0 (pageCount pdf_doc))) as [|wr writes];
        [reflexivity|].
      cbn [map]. rewrite <- (length_map fst (wr :: writes)). reflexivity.
Qed.

End Isolation.

(** C1, on three pages of which the second cannot be encoded. *)
Lemma C1_batch_attempts_every_page_witness :
  holds_capture Demo.three_pages_middle_corrupt = true /\
  wp (saveAllDocuments_ (cocoa := Demo.platform) Demo.config)
     Demo.three_pages_middle_corrupt
     (save_batch_post (cocoa := Demo.platform) Demo.config
        Demo.three_pages_middle_corrupt) /\
  wp (convertPdfToPng_ (cocoa := Demo.platform) Demo.config)
     Demo.three_pages_middle_corrupt
     (convert_batch_post (cocoa := Demo.platform) Demo.config
        Demo.three_pages_middle_corrupt).
Proof.
  split; [reflexivity|].
  exact (C1_batch_attempts_every_page (cocoa := Demo.platform) Demo.config
           Demo.three_pages_middle_corrupt eq_refl).
Defined.

(** C1, as stated, fails on its last part: a save of one good page and a
    save of a good page followed by a corrupt one leave the same status
    line, log, output, files and Preview launches, although one attempted
    one page and failed none and the other attempted two and failed one.
    Nothing the session reports therefore gives those two counts. *)
Lemma C1_report_omits_page_counts :
  let save := saveAllDocuments_ (cocoa := Demo.platform) Demo.config in
  let timestamp := "20240102_030405" in
  report (final_world (save Demo.one_page))
  = report (final_world (save Demo.two_pages_second_corrupt)) /\
  statusLabel (final_world (save Demo.two_pages_second_corrupt))
  = "Saved 1 file(s)" /\
  pages_attempted Demo.one_page = 1 /\
  pages_attempted Demo.two_pages_second_corrupt = 2 /\
  pages_failed (cocoa := Demo.platform) Demo.config timestamp Demo.one_page = 0 /\
  pages_failed (cocoa := Demo.platform) Demo.config timestamp
    Demo.two_pages_second_corrupt = 1 /\
  ~ exists counts,
      forall w,
        holds_capture w = true ->
        counts (report (final_world (save w)))
        = (pages_attempted w,
           pages_failed (cocoa := Demo.platform) Demo.config
             (strftime_Ymd_HMS
                (clock (Cocoa := Demo.platform) (ticks w))) w).
Proof.
  cbv zeta. repeat split.
  intros (counts & Hcounts).
  pose proof (Hcounts Demo.one_page eq_refl) as H1.
  pose proof (Hcounts Demo.two_pages_second_corrupt eq_refl) as H2.
  assert (E : report
                (final_world
                   (saveAllDocuments_ (cocoa := Demo.platform) Demo.config
                      Demo.one_page))
              = report
                  (final_world
                     (saveAllDocuments_ (cocoa := Demo.platform) Demo.config
                        Demo.two_pages_second_corrupt)))
    by reflexivity.
  rewrite E, H2 in H1. vm_compute in H1. discriminate H1.
Qed.

(** * Further results *)

(** ** Argument handling *)


(** X2: the format names accepted on the command line are exactly the
    values of [OutputFormat]: converting the values of any list of formats
    gives the list back, a successful conversion gives formats whose
    values are the strings converted, and the conversion fails exactly
    when some string is outside the parser's choices. *)
Theorem format_names_round_trip (fmts : list OutputFormat) (fs : list string) :
  OutputFormats_of_values (map value fmts) = Some fmts /\
  (forall fmts', OutputFormats_of_values fs = Some fmts' -> map value fmts' = fs) /\
  (OutputFormats_of_values fs = None <->
   exists f, In f fs /\ ~ In f format_choices).
Proof.
  split; [apply OutputFormats_of_values_map|].
  split; [apply OutputFormats_of_values_some|].
  apply OutputFormats_of_values_none.
Qed.

(** ** Capture *)

Section MoreCapture.

Context {cocoa : Cocoa}.

(** X3: the flag a capture returns says whether the session now holds a
    capture.  After [False] both fields are empty and a save writes no
    file and leaves the status line alone; after [True] a save goes
    through and reports its count of files. *)
Theorem capture_flag_is_capture_held (config : Config)
  (pasteboard : NSPasteboard) (w : World) :
  wp (readSelectionFromPasteboard_ config pasteboard) w
     (fun flag w' =>
        flag = holds_capture w' /\
        if flag then
          wp (saveAllDocuments_ config) w'
             (fun _ w'' =>
                let n :=
                  List.length
                    (save_writes config
                       (strftime_Ymd_HMS (clock (ticks w'))) w') in
                statusLabel w'' = "Saved " ++ str_nat n ++ " file(s)" \/
                statusLabel w''
                = "Saved " ++ str_nat n ++ " file(s) - Opened in Preview")
        else
          captured_data w' = None /\ captured_images w' = [] /\
          wp (saveAllDocuments_ config) w'
             (fun _ w'' =>
                disk w'' = disk w' /\ statusLabel w'' = statusLabel w')).
Proof.
  eapply wp_mono; [apply readSelectionFromPasteboard_spec|].
  intros flag w' [Hflag Hpost].
  assert (Hheld : flag = holds_capture w' /\
                  (flag = false ->
                   captured_data w' = None /\ captured_images w' = [])).
  { unfold holds_capture. rewrite Hflag.
    destruct (first_pdf_data pasteboard pdf_types None) as [[|b bytes]|].
    - destruct Hpost as (-> & _). destruct (captured_images w'); simpl; auto.
      split; [reflexivity | discriminate].
    - destruct Hpost as (-> & _).
      destruct (captured_images w'); simpl; split; auto; discriminate.
    - destruct Hpost as (-> & _). destruct (captured_images w'); simpl; auto.
      split; [reflexivity | discriminate]. }
  destruct Hheld as [Hh Hempty]. split; [exact Hh|].
  destruct flag.
  - eapply wp_mono; [apply saveAllDocuments_spec|].
    intros u w'' (_ & _ & Hsave). unfold save_post in Hsave.
    rewrite <- Hh in Hsave. cbv zeta in *. tauto.
  - destruct (Hempty eq_refl) as [Hd Hi]. repeat split; auto.
    eapply wp_mono; [apply saveAllDocuments_spec|].
    intros u w'' (_ & _ & Hsave). unfold save_post in Hsave.
    rewrite <- Hh in Hsave. exact Hsave.
Qed.

(** X4: when no document bytes are found, the fallback asks for every
    raster type identifier that is on the pasteboard, all six in their
    fixed order with no early exit, and keeps one image for every one that
    yields bytes that decode; the same picture offered under several
    identifiers is therefore captured several times.  No file is written
    and nothing of the document is held. *)
Theorem fallback_keeps_every_raster_match (config : Config)
  (pasteboard : NSPasteboard) (w : World) :
  wp (readSelectionFromPasteboard_ config pasteboard) w
     (fun _ w' =>
        match first_pdf_data pasteboard pdf_types None with
        | Some (_ :: _) => True
        | _ =>
            captured_data w' = None /\
            captured_images w'
            = flat_map (decode_image pasteboard) image_types /\
            fetched w'
            = (fetched w ++ probe_fetches pasteboard pdf_types
               ++ filter (contains (types pasteboard)) image_types)%list /\
            List.length (captured_images w')
            <= List.length (filter (contains (types pasteboard)) image_types) /\
            disk w' = disk w
        end).
Proof.
  eapply wp_mono; [apply readSelectionFromPasteboard_spec|].
  intros flag w' [_ Hpost].
  destruct (first_pdf_data pasteboard pdf_types None) as [[|b bytes]|]; auto;
    destruct Hpost as (Hd & Hi & Hf & Hdisk); repeat split; auto;
    rewrite Hi; apply decoded_images_length.
Qed.

(** X5: a pasteboard that offers no type at all gives a failed capture:
    the flag is [False], nothing is fetched, no file is written, both
    capture fields end empty, and the buttons and the preview stay as they
    were, so a save button enabled by an earlier capture stays enabled
    although nothing is left to save. *)
Theorem capture_from_empty_pasteboard (config : Config)
  (pasteboard : NSPasteboard) (w : World) :
  types pasteboard = [] ->
  wp (readSelectionFromPasteboard_ config pasteboard) w
     (fun flag w' =>
        flag = false /\
        captured_data w' = None /\ captured_images w' = [] /\
        fetched w' = fetched w /\ disk w' = disk w /\ ticks w' = ticks w /\
        saveButton_enabled w' = saveButton_enabled w /\
        convertToPngButton_enabled w' = convertToPngButton_enabled w /\
        imageView w' = imageView w).
Proof.
  intros Hempty.
  assert (Habsent : forall ts t, In t ts -> contains (types pasteboard) t = false)
    by (intros ts t _; rewrite Hempty; reflexivity).
  destruct (first_pdf_data_absent pasteboard pdf_types None (Habsent pdf_types))
    as [Hfirst Hprobe].
  destruct (decode_image_absent pasteboard image_types (Habsent image_types))
    as [Hdec Hfil].
  eapply wp_mono;
    [apply wp_conj;
     [apply readSelectionFromPasteboard_spec
     | apply readSelectionFromPasteboard_controls]|].
  intros flag w' [[Hflag Hpost] (_ & _ & _ & Hctl)].
  rewrite Hfirst in Hpost, Hctl.
  destruct Hpost as (Hd & Hi & Hf & Hdisk).
  rewrite Hprobe, Hfil, Hdec in *. rewrite !app_nil_r in Hf.
  rewrite Hi in Hctl. destruct Hctl as (Ht & Hs & Hc & Hv).
  rewrite Hflag, Hd, Hi. repeat split; auto.
Qed.

(** X6: what a capture does to the controls.  It never prints and never
    launches Preview; it changes the debug text only in debug mode; it
    reads the clock only on the degraded path, once.  When it ends with at
    least one page image the save button is enabled, the preview shows the
    first page, and the convert button is enabled exactly when the pages
    came from a document; when it ends without any image the two buttons
    and the preview are left as they were. *)
Theorem capture_controls (config : Config) (pasteboard : NSPasteboard)
  (w : World) :
  wp (readSelectionFromPasteboard_ config pasteboard) w
     (fun _ w' =>
        stdout w' = stdout w /\
        opened w' = opened w /\
        (if debug_mode config then True else textView w' = textView w) /\
        ticks w'
        = (match first_pdf_data pasteboard pdf_types None with
           | Some ((_ :: _) as bytes) =>
               match PDFDocument_initWithData_ bytes with
               | Some _ => ticks w
               | None => S (ticks w)
               end
           | _ => ticks w
           end) /\
        match captured_images w' with
        | [] =>
            saveButton_enabled w' = saveButton_enabled w /\
            convertToPngButton_enabled w' = convertToPngButton_enabled w /\
            imageView w' = imageView w
        | first :: _ =>
            saveButton_enabled w' = true /\
            convertToPngButton_enabled w'
            = truthy (first_pdf_data pasteboard pdf_types None) /\
            imageView w'
            = Some (mk_NSImage (NSMakeSize 660 850)
                      (preview_representations first) 0 false)
        end).
Proof.
  eapply wp_mono;
    [apply wp_conj;
     [apply readSelectionFromPasteboard_spec
     | apply readSelectionFromPasteboard_controls]|].
  intros flag w' [[_ Hpost] (Hs & Ho & Ht & Hctl)].
  repeat split; auto.
  - destruct (first_pdf_data pasteboard pdf_types None) as [[|b bytes]|];
      try tauto.
    destruct (PDFDocument_initWithData_ (b :: bytes)); tauto.
  - unfold controls_show, controls_kept, preview_of in Hctl.
    destruct (first_pdf_data pasteboard pdf_types None) as [[|b bytes]|].
    + destruct Hctl as [_ Hctl]. destruct (captured_images w'); exact Hctl.
    + destruct (PDFDocument_initWithData_ (b :: bytes)).
      * destruct Hctl as [_ Hctl]. destruct (captured_images w'); exact Hctl.
      * destruct Hpost as (_ & _ & -> & _). tauto.
    + destruct Hctl as [_ Hctl]. destruct (captured_images w'); exact Hctl.
Qed.

(** X17: the pages of a scanned document.  A capture whose document
    bytes parse holds one image for every page index at which the
    document yields a page, in index order, and no other image, so never
    more than [pageCount] of them.  The size of each image is the page's
    media box with both sides multiplied by [resolution_scale]: binary64
    products, the same factor on both axes, with no rounding.  Its
    representations are what the platform draws for that size, that scale
    and that page. *)
Theorem capture_renders_every_page (config : Config)
  (pasteboard : NSPasteboard) (w : World) :
  wp (readSelectionFromPasteboard_ config pasteboard) w
     (fun _ w' =>
        match first_pdf_data pasteboard pdf_types None with
        | Some ((_ :: _) as bytes) =>
            match PDFDocument_initWithData_ bytes with
            | Some pdf_doc =>
                captured_images w'
                = map
                    (fun page =>
                       let bounds := boundsForBox_ page 0 in
                       let scale_factor := resolution_scale config in
                       let size' :=
                         NSMakeSize
                           (width (size bounds) * scale_factor)%float
                           (height (size bounds) * scale_factor)%float in
                       mk_NSImage size'
                         (drawn_representations size' scale_factor page)
                         0 false)
                    (flat_map
                       (fun i =>
                          match pageAtIndex_ pdf_doc i with
                          | Some page => [page]
                          | None => []
                          end)
                       (seq 0 (pageCount pdf_doc))) /\
                List.length (captured_images w') <= pageCount pdf_doc
            | None => captured_images w' = []
            end
        | _ => True
        end).
Proof.
  eapply wp_mono; [apply readSelectionFromPasteboard_spec|].
  intros flag w' [_ Hpost].
  destruct (first_pdf_data pasteboard pdf_types None) as [[|b bytes]|]; auto.
  destruct Hpost as (_ & _ & Hpost).
  destruct (PDFDocument_initWithData_ (b :: bytes)) as [pdf_doc|];
    destruct Hpost as [-> _]; [|reflexivity].
  split; [reflexivity|].
  rewrite length_map. apply pages_of_length.
Qed.

End MoreCapture.

(** X5, on a session whose buttons an earlier scan enabled. *)
Lemma capture_from_empty_pasteboard_witness :
  saveButton_enabled Examples.after_scan = true /\
  wp (readSelectionFromPasteboard_ (cocoa := Demo.platform) Demo.config
        Examples.empty_pasteboard)
     Examples.after_scan
     (fun flag w' =>
        flag = false /\
        captured_data w' = None /\ captured_images w' = [] /\
        fetched w' = fetched Examples.after_scan /\
        disk w' = disk Examples.after_scan /\
        ticks w' = ticks Examples.after_scan /\
        saveButton_enabled w' = saveButton_enabled Examples.after_scan /\
        convertToPngButton_enabled w'
        = convertToPngButton_enabled Examples.after_scan /\
        imageView w' = imageView Examples.after_scan).
Proof.
  split; [reflexivity|].
  exact (capture_from_empty_pasteboard (cocoa := Demo.platform) Demo.config
           Examples.empty_pasteboard Examples.after_scan eq_refl).
Defined.

(** ** Save and convert *)

Section MoreBatches.

Context {cocoa : Cocoa}.

(** X7: what the files of a save hold.  The disk gains at most one
    whole-document file, whose content is the captured document bytes
    unchanged and which appears only if PDF is among the formats, followed
    by page files; each page file holds what the encoder returned for the
    best representation of one captured image, in one requested format
    other than PDF, with the quality as the only property for JPEG and no
    property otherwise, under that page's and format's name. *)
Theorem save_file_contents (config : Config) (w : World) :
  wp (saveAllDocuments_ config) w
     (fun _ w' =>
        exists document pages,
          disk w' = (disk w ++ document ++ pages)%list /\
          List.length document <= 1 /\
          (forall path data,
              In (path, data) document ->
              captured_data w = Some data /\
              In PDF (output_formats config) /\
              path
              = joinpath (output_dir config)
                  (filename_prefix config ++ "_"
                   ++ strftime_Ymd_HMS (clock (ticks w)) ++ ".pdf")) /\
          (forall path data,
              In (path, data) pages ->
              exists i image best_rep fmt file_type,
                nth_error (captured_images w) i = Some image /\
                _getBestImageRep (Some image) = Some best_rep /\
                In fmt (output_formats config) /\ fmt <> PDF /\
                getitem type_map fmt = Some file_type /\
                representationUsingType_properties_ best_rep file_type
                  (if OutputFormat_eqb fmt JPEG
                   then [("NSImageCompressionFactor", jpeg_quality config)]
                   else [])
                = Some data /\
                path
                = joinpath (output_dir config)
                    (filename_prefix config ++ "_"
                     ++ strftime_Ymd_HMS (clock (ticks w)) ++ "_page"
                     ++ format_02d (i + 1) ++ "." ++ value fmt))).
Proof.
  eapply wp_mono; [apply saveAllDocuments_spec|].
  intros u w' (_ & _ & Hpost). unfold save_post in Hpost.
  destruct (holds_capture w).
  - cbv zeta in Hpost. destruct Hpost as [Hdisk _].
    exists (document_writes config (strftime_Ymd_HMS (clock (ticks w)))
              (captured_data w)),
      (flat_map (page_writes config (strftime_Ymd_HMS (clock (ticks w))))
         (enumerate (captured_images w))).
    split; [exact Hdisk|]. split; [|split].
    + pose proof (document_writes_length config
                    (strftime_Ymd_HMS (clock (ticks w))) (captured_data w)) as H.
      destruct (existsb _ _) in H; lia.
    + intros path data Hin. apply in_document_writes in Hin.
      destruct Hin as (-> & -> & Hpdf). auto.
    + intros path data Hin. apply in_flat_map in Hin.
      destruct Hin as ([i image] & Hin & Hw).
      apply in_enumerate in Hin.
      apply in_page_writes_data in Hw.
      destruct Hw as (best_rep & fmt & file_type & Hb & Hf & Hne & Ht & He & ->).
      exists i, image, best_rep, fmt, file_type. repeat split; auto.
  - exists [], []. destruct Hpost as [-> _]. simpl. rewrite app_nil_r.
    split; [reflexivity|]. split; [lia|]. split; intros ? ? [].
Qed.

(** X8: a save writes at most one file per captured image and requested
    format other than PDF, plus one if PDF is requested. *)
Theorem save_writes_at_most (config : Config) (w : World) :
  wp (saveAllDocuments_ config) w
     (fun _ w' =>
        exists written,
          disk w' = (disk w ++ written)%list /\
          List.length written
          <= (if existsb (OutputFormat_eqb PDF) (output_formats config)
              then 1 else 0)
             + List.length (captured_images w)
               * List.length
                   (filter (fun fmt => negb (OutputFormat_eqb fmt PDF))
                      (output_formats config))).
Proof.
  eapply wp_mono; [apply saveAllDocuments_spec|].
  intros u w' (_ & _ & Hpost). unfold save_post in Hpost.
  destruct (holds_capture w).
  - cbv zeta in Hpost. destruct Hpost as [Hdisk _].
    eexists. split; [exact Hdisk|]. apply save_writes_length.
  - exists []. destruct Hpost as [-> _]. rewrite app_nil_r.
    split; [reflexivity | simpl; lia].
Qed.

(** X9: a save and a convert leave the session as they found it: the
    captured bytes and images, the buttons, the preview and the debug text
    are unchanged and the pasteboard is never asked.  A save reads the
    clock once when a capture is held and not at all otherwise; a convert
    reads it once when the captured bytes parse and not at all
    otherwise. *)
Theorem save_and_convert_leave_session_alone (config : Config) (w : World) :
  wp (saveAllDocuments_ config) w
     (fun _ w' =>
        captured_data w' = captured_data w /\
        captured_images w' = captured_images w /\
        fetched w' = fetched w /\
        saveButton_enabled w' = saveButton_enabled w /\
        convertToPngButton_enabled w' = convertToPngButton_enabled w /\
        imageView w' = imageView w /\
        textView w' = textView w /\
        ticks w' = if holds_capture w then S (ticks w) else ticks w) /\
  wp (convertPdfToPng_ config) w
     (fun _ w' =>
        captured_data w' = captured_data w /\
        captured_images w' = captured_images w /\
        fetched w' = fetched w /\
        saveButton_enabled w' = saveButton_enabled w /\
        convertToPngButton_enabled w' = convertToPngButton_enabled w /\
        imageView w' = imageView w /\
        textView w' = textView w /\
        ticks w'
        = match captured_data w with
          | Some ((_ :: _) as captured) =>
              match PDFDocument_initWithData_ captured with
              | Some _ => S (ticks w)
              | None => ticks w
              end
          | _ => ticks w
          end).
Proof.
  split.
  - eapply wp_mono; [apply saveAllDocuments_effects|].
    intros u w' [Hq Hpost].
    destruct (forget_effects_fields _ _ Hq) as (A & B & C & D & E & F & G).
    repeat split; auto.
    destruct (holds_capture w); cbv zeta in Hpost; tauto.
  - eapply wp_mono; [apply convertPdfToPng_effects|].
    intros u w' [Hq Hpost].
    destruct (forget_effects_fields _ _ Hq) as (A & B & C & D & E & F & G).
    repeat split; auto.
    destruct (captured_data w) as [[|b c]|]; try tauto.
    destruct (PDFDocument_initWithData_ (b :: c)); cbv zeta in Hpost; tauto.
Qed.

(** X10: a save and a convert print the list of files exactly when
    [verbose] is set, [quiet] is not, and the batch was entered (for a
    convert: at least one file was written): a header line, then one line
    per file written, in the order written.  Otherwise they print
    nothing. *)
Theorem batches_print_only_when_verbose (config : Config) (w : World) :
  wp (saveAllDocuments_ config) w
     (fun _ w' =>
        let files :=
          map fst (save_writes config (strftime_Ymd_HMS (clock (ticks w))) w) in
        stdout w'
        = (stdout w
           ++ (if holds_capture w && verbose config && negb (quiet config)
               then (nl ++ "Saved files:")%string
                    :: map (fun f => ("  - " ++ f)%string) files
               else []))%list) /\
  wp (convertPdfToPng_ config) w
     (fun _ w' =>
        match captured_data w with
        | Some ((_ :: _) as captured) =>
            match PDFDocument_initWithData_ captured with
            | Some pdf_doc =>
                let files :=
                  map fst
                    (convert_writes config pdf_doc
                       (strftime_Ymd_HMS (clock (ticks w)))) in
                stdout w'
                = (stdout w
                   ++ (match files with
                       | [] => []
                       | _ :: _ =>
                           if verbose config && negb (quiet config)
                           then (nl ++ "Converted "
                                 ++ str_nat (List.length files)
                                 ++ " PDF pages to PNG:")%string
                                :: map (fun f => ("  - " ++ f)%string) files
                           else []
                       end))%list
            | None => stdout w' = stdout w
            end
        | _ => stdout w' = stdout w
        end).
Proof.
  split.
  - eapply wp_mono; [apply saveAllDocuments_effects|].
    intros u w' [_ Hpost]. cbv zeta.
    destruct (holds_capture w); simpl.
    + cbv zeta in Hpost. destruct Hpost as (_ & Hs & _). exact Hs.
    + destruct Hpost as (_ & -> & _). rewrite app_nil_r. reflexivity.
  - eapply wp_mono; [apply convertPdfToPng_effects|].
    intros u w' [_ Hpost].
    destruct (captured_data w) as [[|b c]|]; try tauto.
    destruct (PDFDocument_initWithData_ (b :: c)); [|tauto].
    cbv zeta in *. destruct Hpost as (_ & Hs & _). exact Hs.
Qed.

(** X11: a save and a convert ask Preview to open files only when
    [open_in_preview] is set and at least one file was written, once, and
    then with exactly the files written in that batch, in order; the
    launch is recorded when the workspace accepts it. *)
Theorem batches_open_preview_only_when_asked (config : Config) (w : World) :
  wp (saveAllDocuments_ config) w
     (fun _ w' =>
        let files :=
          map fst (save_writes config (strftime_Ymd_HMS (clock (ticks w))) w) in
        opened w'
        = (opened w
           ++ (if holds_capture w then
                 match files with
                 | [] => []
                 | _ :: _ =>
                     if open_in_preview config
                        && openURLs_succeeds files "com.apple.Preview"
                     then [files] else []
                 end
               else []))%list) /\
  wp (convertPdfToPng_ config) w
     (fun _ w' =>
        match captured_data w with
        | Some ((_ :: _) as captured) =>
            match PDFDocument_initWithData_ captured with
            | Some pdf_doc =>
                let files :=
                  map fst
                    (convert_writes config pdf_doc
                       (strftime_Ymd_HMS (clock (ticks w)))) in
                opened w'
                = (opened w
                   ++ match files with
                      | [] => []
                      | _ :: _ =>
                          if open_in_preview config
                             && openURLs_succeeds files "com.apple.Preview"
                          then [files] else []
                      end)%list
            | None => opened w' = opened w
            end
        | _ => opened w' = opened w
        end).
Proof.
  split.
  - eapply wp_mono; [apply saveAllDocuments_effects|].
    intros u w' [_ Hpost]. cbv zeta.
    destruct (holds_capture w).
    + cbv zeta in Hpost. destruct Hpost as (_ & _ & Ho). exact Ho.
    + destruct Hpost as (_ & _ & ->). rewrite app_nil_r. reflexivity.
  - eapply wp_mono; [apply convertPdfToPng_effects|].
    intros u w' [_ Hpost].
    destruct (captured_data w) as [[|b c]|]; try tauto.
    destruct (PDFDocument_initWithData_ (b :: c)); [|tauto].
    cbv zeta in *. destruct Hpost as (_ & _ & Ho). exact Ho.
Qed.

End MoreBatches.

(** ** Operations in sequence *)

Section Sequences.

Context {cocoa : Cocoa}.

(** X12: a convert needs a parsed document.  After a capture that fell
    back to raster images it writes nothing and says that no PDF data is
    available, although pages are held; after a capture whose document
    bytes did not parse it writes nothing and says that the PDF could not
    be processed. *)
Theorem convert_after_capture_without_document (config : Config)
  (pasteboard : NSPasteboard) (w : World) :
  wp (readSelectionFromPasteboard_ config pasteboard) w
     (fun _ w' =>
        match first_pdf_data pasteboard pdf_types None with
        | Some ((_ :: _) as bytes) =>
            match PDFDocument_initWithData_ bytes with
            | Some _ => True
            | None =>
                wp (convertPdfToPng_ config) w'
                   (fun _ w'' =>
                      disk w'' = disk w' /\
                      statusLabel w'' = "Error: Could not process PDF")
            end
        | _ =>
            wp (convertPdfToPng_ config) w'
               (fun _ w'' =>
                  disk w'' = disk w' /\
                  statusLabel w'' = "No PDF data available for conversion")
        end).
Proof.
  eapply wp_mono; [apply readSelectionFromPasteboard_spec|].
  intros flag w' [_ Hpost].
  destruct (first_pdf_data pasteboard pdf_types None) as [[|b bytes]|].
  - destruct Hpost as (Hd & _).
    unfold wp. rewrite convert_nothing_held by (rewrite Hd; reflexivity).
    split; reflexivity.
  - destruct Hpost as (Hd & _ & Hpost).
    destruct (PDFDocument_initWithData_ (b :: bytes)) eqn:Hp; [exact I|].
    eapply wp_mono; [apply convertPdfToPng_spec|].
    intros u w'' (_ & _ & Hc). rewrite Hd, Hp in Hc. exact Hc.
  - destruct Hpost as (Hd & _).
    unfold wp. rewrite convert_nothing_held by (rewrite Hd; reflexivity).
    split; reflexivity.
Qed.

(** X14: document bytes travel from the pasteboard to the file unchanged.
    After a capture that found document bytes, whether or not they parse,
    a save with PDF among the formats whose write succeeds leaves a file
    [{prefix}_{timestamp}.pdf] holding exactly the bytes the pasteboard
    gave. *)
Theorem document_bytes_reach_the_file (config : Config)
  (pasteboard : NSPasteboard) (w : World) :
  wp (readSelectionFromPasteboard_ config pasteboard) w
     (fun _ w' =>
        match first_pdf_data pasteboard pdf_types None with
        | Some ((_ :: _) as bytes) =>
            let path :=
              joinpath (output_dir config)
                (filename_prefix config ++ "_"
                 ++ strftime_Ymd_HMS (clock (ticks w')) ++ ".pdf") in
            if existsb (OutputFormat_eqb PDF) (output_formats config)
               && write_succeeds bytes path
            then
              wp (saveAllDocuments_ config) w'
                 (fun _ w'' => In (path, bytes) (disk w''))
            else True
        | _ => True
        end).
Proof.
  eapply wp_mono; [apply readSelectionFromPasteboard_spec|].
  intros flag w' [_ Hpost].
  destruct (first_pdf_data pasteboard pdf_types None) as [[|b bytes]|]; auto.
  destruct Hpost as (Hd & _). cbv zeta.
  destruct (existsb (OutputFormat_eqb PDF) (output_formats config)) eqn:He;
    [|exact I].
  match goal with
  | |- context [write_succeeds ?d ?p] => destruct (write_succeeds d p) eqn:Hw
  end; [|exact I].
  simpl. eapply wp_mono; [apply saveAllDocuments_spec|].
  intros u w'' (_ & _ & Hsave). unfold save_post in Hsave.
  assert (Hheld : holds_capture w' = true)
    by (unfold holds_capture; rewrite Hd; destruct (captured_images w');
        reflexivity).
  rewrite Hheld in Hsave. cbv zeta in Hsave. destruct Hsave as [-> _].
  apply in_or_app. right. unfold save_writes. apply in_or_app. left.
  unfold document_writes, pdf_filename_of. rewrite Hd, He, Hw. left.
  reflexivity.
Qed.

End Sequences.

(** ** The pasteboard inspector *)

(** X13: [debugPasteboard_] only looks.  It asks the pasteboard for every
    available type once, in order; it shows in the debug text exactly what
    it logs; and it changes nothing else: not the capture, the files, the
    status line, the buttons, the preview, the output or the clock. *)
Theorem debugPasteboard_only_looks (pasteboard : NSPasteboard) (w : World) :
  wp (debugPasteboard_ pasteboard) w
     (fun _ w' =>
        fetched w' = (fetched w ++ types pasteboard)%list /\
        log w'
        = (log w
           ++ [(DEBUG, "Debugging pasteboard..."); (INFO, textView w')])%list /\
        captured_data w' = captured_data w /\
        captured_images w' = captured_images w /\
        disk w' = disk w /\
        statusLabel w' = statusLabel w /\
        saveButton_enabled w' = saveButton_enabled w /\
        convertToPngButton_enabled w' = convertToPngButton_enabled w /\
        imageView w' = imageView w /\
        stdout w' = stdout w /\
        opened w' = opened w /\
        ticks w' = ticks w).
Proof.
  eapply wp_mono; [apply debugPasteboard_spec|].
  intros u w' (Hf & Hl & Hq). split; [exact Hf|]. split; [exact Hl|].
  repeat split.
  - apply (f_equal captured_data) in Hq. exact Hq.
  - apply (f_equal captured_images) in Hq. exact Hq.
  - apply (f_equal disk) in Hq. exact Hq.
  - apply (f_equal statusLabel) in Hq. exact Hq.
  - apply (f_equal saveButton_enabled) in Hq. exact Hq.
  - apply (f_equal convertToPngButton_enabled) in Hq. exact Hq.
  - apply (f_equal imageView) in Hq. exact Hq.
  - apply (f_equal stdout) in Hq. exact Hq.
  - apply (f_equal opened) in Hq. exact Hq.
  - apply (f_equal ticks) in Hq. exact Hq.
Qed.

(** ** Quiet mode *)

Section QuietMode.

Context {cocoa : Cocoa}.

(** X15: under [--quiet] a capture shows nothing on the console: it logs
    at the levels INFO, DEBUG and WARNING only, so even the warning that
    the document could not be parsed, logged before the raw bytes are
    written to a file, stays hidden. *)
Theorem quiet_capture_shows_nothing (config : Config)
  (pasteboard : NSPasteboard) (w : World) :
  quiet config = true ->
  wp (readSelectionFromPasteboard_ config pasteboard) w
     (fun _ w' => console config w' = console config w).
Proof.
  intros Hquiet. apply readSelectionFromPasteboard_console. exact Hquiet.
Qed.

(** X16: under [--quiet] the console of a save shows at most one line,
    the error that Preview did not open the files, and only when files
    were written and [open_in_preview] is set; the console of a convert
    shows one error when the captured bytes do not parse, one when no page
    could be converted, and otherwise at most that same Preview error.
    Files written are never announced. *)
Theorem quiet_batches_show_only_errors (config : Config) (w : World) :
  quiet config = true ->
  wp (saveAllDocuments_ config) w
     (fun _ w' =>
        console config w'
        = (console config w
           ++ (if holds_capture w then
                 match
                   map fst
                     (save_writes config
                        (strftime_Ymd_HMS (clock (ticks w))) w)
                 with
                 | [] => []
                 | files =>
                     if open_in_preview config
                        && negb (openURLs_succeeds files "com.apple.Preview")
                     then [(ERROR, "Failed to open files in Preview")]
                     else []
                 end
               else []))%list) /\
  wp (convertPdfToPng_ config) w
     (fun _ w' =>
        console config w'
        = (console config w
           ++ match captured_data w with
              | Some ((_ :: _) as captured) =>
                  match PDFDocument_initWithData_ captured with
                  | Some pdf_doc =>
                      match
                        map fst
                          (convert_writes config pdf_doc
                             (strftime_Ymd_HMS (clock (ticks w))))
                      with
                      | [] =>
                          [(ERROR, "Failed to convert any PDF pages to PNG")]
                      | files =>
                          if open_in_preview config
                             && negb
                                  (openURLs_succeeds files "com.apple.Preview")
                          then [(ERROR, "Failed to open files in Preview")]
                          else []
                      end
                  | None =>
                      [(ERROR, "Failed to create PDF document for conversion")]
                  end
              | _ => []
              end)%list).
Proof.
  intros Hquiet. split.
  - eapply wp_mono; [apply (saveAllDocuments_console config Hquiet)|].
    intros u w' H. unfold save_console_post in H. rewrite H.
    destruct (holds_capture w); [|reflexivity].
    unfold preview_failure. destruct (map fst _); reflexivity.
  - eapply wp_mono; [apply (convertPdfToPng_console config Hquiet)|].
    intros u w' H. unfold convert_console_post in H. rewrite H.
    reflexivity.
Qed.

End QuietMode.

(** X15, on the degraded path: the warning is logged and not shown. *)
Lemma quiet_capture_shows_nothing_witness :
  wp (readSelectionFromPasteboard_ (cocoa := Demo.platform)
        Examples.quiet_config
        (Demo.pasteboard_with "com.adobe.pdf" [Byte.x01; Byte.x00]))
     init_World
     (fun _ w' =>
        console Examples.quiet_config w'
        = console Examples.quiet_config init_World).
Proof.
  exact (quiet_capture_shows_nothing (cocoa := Demo.platform)
           Examples.quiet_config
           (Demo.pasteboard_with "com.adobe.pdf" [Byte.x01; Byte.x00])
           init_World eq_refl).
Defined.

(** X16, on three pages of which the second cannot be encoded. *)
Lemma quiet_batches_show_only_errors_witness :
  let config := Examples.quiet_config in
  let w := Demo.three_pages_middle_corrupt in
  let now := strftime_Ymd_HMS (clock (Cocoa := Demo.platform) (ticks w)) in
  quiet config = true /\
  wp (saveAllDocuments_ (cocoa := Demo.platform) config) w
     (fun _ w' =>
        console config w'
        = (console config w
           ++ (if holds_capture w then
                 match
                   map fst (save_writes (cocoa := Demo.platform) config now w)
                 with
                 | [] => []
                 | files =>
                     if open_in_preview config
                        && negb
                             (openURLs_succeeds (Cocoa := Demo.platform) files
                                "com.apple.Preview")
                     then [(ERROR, "Failed to open files in Preview")]
                     else []
                 end
               else []))%list) /\
  wp (convertPdfToPng_ (cocoa := Demo.platform) config) w
     (fun _ w' =>
        console config w'
        = (console config w
           ++ match captured_data w with
              | Some ((_ :: _) as captured) =>
                  match
                    PDFDocument_initWithData_ (Cocoa := Demo.platform) captured
                  with
                  | Some pdf_doc =>
                      match
                        map fst
                          (convert_writes (cocoa := Demo.platform) config
                             pdf_doc now)
                      with
                      | [] =>
                          [(ERROR, "Failed to convert any PDF pages to PNG")]
                      | files =>
                          if open_in_preview config
                             && negb
                                  (openURLs_succeeds (Cocoa := Demo.platform)
                                     files "com.apple.Preview")
                          then [(ERROR, "Failed to open files in Preview")]
                          else []
                      end
                  | None =>
                      [(ERROR, "Failed to create PDF document for conversion")]
                  end
              | _ => []
              end)%list).
Proof.
  split; [reflexivity|].
  exact (quiet_batches_show_only_errors (cocoa := Demo.platform)
           Examples.quiet_config Demo.three_pages_middle_corrupt eq_refl).
Defined.
